(** * Tracing backends of the AWS API MCP server

    A shallow embedding of
    [awslabs/aws_api_mcp_server/core/common/tracing.py] (the pluggable
    [TraceBackend] hierarchy, [TraceManager.trace],
    [TraceManager.get_resource_spans] and [get_trace_backend]) and of
    the serialiser of [core/common/otel.py], together with the parts of the
    Python runtime the code leans on: generator based context managers
    ([contextlib.contextmanager]), the [with] statement, [try]/[except]/
    [finally], [str], [format] and [str.lower].  The decorator
    [TraceManager.instrument] and its attribute helper are callers of
    [trace] and are not part of the embedding.

    The OpenTelemetry SDK and the X-Ray recorder are libraries outside the
    repository: their objects are modelled as far as the backends use them
    (a span with its context, times, attributes and status; a recorder with
    the stack of open entities of its context).

    Python strings are modelled as sequences of 8-bit code points
    (Latin-1); dictionaries that are iterated keep their insertion order and
    are association lists; the dictionaries of an X-Ray entity, which are only
    looked up, are [gmap]s. *)

From Stdlib Require Import ZArith NArith Ascii Lia Bool.
From stdpp Require Import base functions gmap strings list.

Local Open Scope N_scope.

(** ** Python text primitives *)

Module Py.

(** Little-endian digits of [n] in base [base].  The fuel bounds the number of
    digits; [N.size_nat n] is always enough for a base of at least two. *)
Fixpoint digits_le (base : N) (fuel : nat) (n : N) : list N :=
  match fuel with
  | O => []
  | S fuel' =>
      (n mod base) ::
      (if n <? base then [] else digits_le base fuel' (n / base))
  end.

Definition digits (base n : N) : list N :=
  rev (digits_le base (S (N.size_nat n)) n).

(** The character of a digit: ['0'..'9'] then ['a'..'z'] (lower case, as the
    ['x'] presentation type of [format] prints). *)
Definition digit_char (d : N) : ascii :=
  if d <? 10 then ascii_of_N (48 + d) else ascii_of_N (87 + d).

Definition string_of_digits (ds : list N) : string :=
  fold_right (fun d s => String (digit_char d) s) EmptyString ds.

(** [str(n)] for a non-negative integer. *)
Definition str_N (n : N) : string := string_of_digits (digits 10 n).

(** [str(z)] for a Python [int]. *)
Definition str_int (z : Z) : string :=
  match z with
  | Zneg p => String "-"%char (str_N (Npos p))
  | _ => str_N (Z.to_N z)
  end.

(** [s.rjust(width, c)]: pad on the left up to a minimal width. *)
Definition rjust (width : nat) (c : ascii) (s : string) : string :=
  String.append
    (String.string_of_list_ascii (replicate (width - String.length s)%nat c)) s.

(** [format(n, '0<width>x')] for a non-negative [n]: lower-case hexadecimal,
    zero-filled to at least [width] characters. *)
Definition format_0x (width : nat) (n : N) : string :=
  rjust width "0"%char (string_of_digits (digits 16 n)).

(** Reading a digit string back, most significant digit first. *)
Definition char_digit (c : ascii) : N :=
  let k := N_of_ascii c in
  if k <? 58 then k - 48 else k - 87.

Fixpoint value_of (base : N) (acc : N) (s : string) : N :=
  match s with
  | EmptyString => acc
  | String c s' => value_of base (base * acc + char_digit c) s'
  end.

(** The number written by little-endian and by big-endian digits. *)
Definition value_le (base : N) (ds : list N) : N :=
  fold_right (fun d acc => d + base * acc) 0 ds.

Definition value_be (base : N) (ds : list N) (acc : N) : N :=
  fold_left (fun a d => base * a + d) ds acc.

Definition is_digit_of (base : N) (c : ascii) : Prop :=
  exists d, d < base /\ c = digit_char d.

Fixpoint string_forall (P : ascii -> Prop) (s : string) : Prop :=
  match s with
  | EmptyString => True
  | String c s' => P c /\ string_forall P s'
  end.

(** A decimal numeral: digits, after an optional minus sign; and the integer
    it denotes. *)
Definition is_decimal (s : string) : Prop :=
  match s with
  | String "-" s' => s' <> EmptyString /\ string_forall (is_digit_of 10) s'
  | _ => s <> EmptyString /\ string_forall (is_digit_of 10) s
  end.

Definition int_of_decimal (s : string) : Z :=
  match s with
  | String "-" s' => (- Z.of_N (value_of 10 0 s'))%Z
  | _ => Z.of_N (value_of 10 0 s)
  end.

(** A numeral of exactly [width] lower-case hexadecimal digits that
    denotes [n]. *)
Definition is_hex_of (width : nat) (n : N) (s : string) : Prop :=
  String.length s = width /\ string_forall (is_digit_of 16) s /\ value_of 16 0 s = n.

(** [s.replace(old, new)] where [old] and [new] are single characters, the
    only way the tracing code calls it. *)
Fixpoint replace (old new : ascii) (s : string) : string :=
  match s with
  | EmptyString => EmptyString
  | String c s' =>
      String (if Ascii.eqb c old then new else c) (replace old new s')
  end.

(** [c.lower()] on the Latin-1 range: the ASCII capitals and the accented
    capitals U+00C0..U+00DE (the multiplication sign U+00D7 excepted) move up
    by 32; every other code point stays. *)
Definition lower_char (c : ascii) : ascii :=
  let k := N_of_ascii c in
  if ((65 <=? k) && (k <=? 90)) ||
     ((192 <=? k) && (k <=? 222) && negb (k =? 215))
  then ascii_of_N (k + 32) else c.

Fixpoint lower (s : string) : string :=
  match s with
  | EmptyString => EmptyString
  | String c s' => String (lower_char c) (lower s')
  end.

(** Values that reach the tracing layer as attribute values ([Any] in the
    source), and [str(value)]. *)
Inductive value :=
| VStr (s : string)
| VInt (z : Z)
| VBool (b : bool)
| VNone.

Definition str (v : value) : string :=
  match v with
  | VStr s => s
  | VInt z => str_int z
  | VBool true => "True"
  | VBool false => "False"
  | VNone => "None"
  end.

End Py.


Local Open Scope Z_scope.

(** ** Exceptions, objects and the process state *)

(** The exception classes the tracing layer tells apart.  The first three
    derive from [BaseException] only; the others derive from [Exception].
    [StopIteration], which a generator frame rewrites (PEP 479), is not among
    the modelled classes. *)
Inductive exn_class :=
| KeyboardInterrupt
| SystemExit
| GeneratorExit
| RuntimeError
| ImportError
| AttributeError
| ValueError
| OtherError (class_name : string).

Definition is_Exception (c : exn_class) : bool :=
  match c with
  | KeyboardInterrupt | SystemExit | GeneratorExit => false
  | _ => true
  end.

(** An exception object: its identity (what [is] compares), its class and
    [str(e)]. *)
Record exn := Exn { oid : nat; cls : exn_class; msg : string }.

Definition exn_is (a b : exn) : bool := Nat.eqb (oid a) (oid b).

Definition isinstance_Exception (e : exn) : bool := is_Exception (cls e).

Definition isinstance_ImportError (e : exn) : bool :=
  match cls e with ImportError => true | _ => false end.

Inductive log_level := DEBUG | WARNING | ERROR_LEVEL.

(** JSON-like values: the nested [dict]/[list]/[str] literals the serialisers
    build.  A [dict] literal keeps its keys in source order. *)
#[local] Unset Elimination Schemes.
Inductive json :=
| JStr (s : string)
| JList (l : list json)
| JDict (items : list (string * json)).
#[local] Set Elimination Schemes.

(** *** OpenTelemetry data *)
Module OTel.

Inductive StatusCode := UNSET | OK | ERROR.

Record Status := { status_code : StatusCode; description : option string }.

Record SpanContext := { trace_id : N; span_id : N }.

(** An SDK span (or, when [is_sdk_span] is false, the non-recording span a
    dropping sampler hands out). *)
Record Span := {
  get_span_context : SpanContext;
  name : string;
  start_time : Z;
  end_time : option Z;
  attributes : list (string * Py.value);
  status : Status;
  is_sdk_span : bool;
}.

Inductive SpanExporter :=
| ConsoleSpanExporter
| OTLPSpanExporter (endpoint : string).

(** A provider with the exporters of its batch processors, in the order they
    were added. *)
Record TracerProvider := { span_processors : list SpanExporter }.

Record Tracer := { records : bool }.

End OTel.

(** What reading an address that holds no span gives; the tracing code only
    reads addresses it allocated. *)
Definition blank_span : OTel.Span :=
  {| OTel.get_span_context := {| OTel.trace_id := 0; OTel.span_id := 0 |};
     OTel.name := ""; OTel.start_time := 0; OTel.end_time := None;
     OTel.attributes := [];
     OTel.status := {| OTel.status_code := OTel.UNSET; OTel.description := None |};
     OTel.is_sdk_span := false |}.

#[export] Instance Span_inhabited : Inhabited OTel.Span := populate blank_span.

(** *** X-Ray data *)
Module XRay.

(** A segment ([parent_segment = None]) or a subsegment of the segment with
    the given id. *)
Record Entity := {
  id : nat;
  name : string;
  parent_segment : option nat;
  annotations : gmap string string;
  metadata : gmap string string;
  exceptions : list exn;
}.

(** The global recorder: the entities of the current context (innermost
    last) and the entities that were closed, oldest first. *)
Record Recorder := {
  entities : list Entity;
  closed : list Entity;
}.

Definition is_subsegment (e : Entity) : bool :=
  match parent_segment e with Some _ => true | None => false end.

End XRay.

(** The state of the process as far as the tracing layer reads or writes it. *)
Record world := {
  (** [os.environ] *)
  environ : gmap string string;
  (** which modules [import] finds *)
  importable : string -> bool;
  (** what [OTLPSpanExporter(endpoint=...)] raises, if it raises *)
  exporter_failure : string -> option (exn_class * string);
  (** whether the configured sampler records spans *)
  sampler_records : bool;
  (** [time.time_ns()] *)
  clock : Z;
  (** the random source of the id generator and how much of it was used *)
  random : nat -> N;
  draws : nat;
  (** span objects by address, and the next free address *)
  objects : gmap nat OTel.Span;
  next_oid : nat;
  (** [OTLPBackend.spans] of the process-wide backend *)
  spans : list OTel.Span;
  (** [aws_xray_sdk.core.xray_recorder] *)
  xray_recorder : XRay.Recorder;
  (** what was logged, oldest first *)
  log : list (log_level * string);
}.

Definition set_environ (e : gmap string string) (w : world) : world :=
  {| environ := e; importable := importable w;
     exporter_failure := exporter_failure w; sampler_records := sampler_records w;
     clock := clock w; random := random w; draws := draws w;
     objects := objects w; next_oid := next_oid w; spans := spans w;
     xray_recorder := xray_recorder w; log := log w |}.

Definition set_draws (n : nat) (w : world) : world :=
  {| environ := environ w; importable := importable w;
     exporter_failure := exporter_failure w; sampler_records := sampler_records w;
     clock := clock w; random := random w; draws := n;
     objects := objects w; next_oid := next_oid w; spans := spans w;
     xray_recorder := xray_recorder w; log := log w |}.

Definition set_objects (o : gmap nat OTel.Span) (w : world) : world :=
  {| environ := environ w; importable := importable w;
     exporter_failure := exporter_failure w; sampler_records := sampler_records w;
     clock := clock w; random := random w; draws := draws w;
     objects := o; next_oid := next_oid w; spans := spans w;
     xray_recorder := xray_recorder w; log := log w |}.

Definition set_next_oid (n : nat) (w : world) : world :=
  {| environ := environ w; importable := importable w;
     exporter_failure := exporter_failure w; sampler_records := sampler_records w;
     clock := clock w; random := random w; draws := draws w;
     objects := objects w; next_oid := n; spans := spans w;
     xray_recorder := xray_recorder w; log := log w |}.

Definition set_spans (l : list OTel.Span) (w : world) : world :=
  {| environ := environ w; importable := importable w;
     exporter_failure := exporter_failure w; sampler_records := sampler_records w;
     clock := clock w; random := random w; draws := draws w;
     objects := objects w; next_oid := next_oid w; spans := l;
     xray_recorder := xray_recorder w; log := log w |}.

Definition set_xray_recorder (r : XRay.Recorder) (w : world) : world :=
  {| environ := environ w; importable := importable w;
     exporter_failure := exporter_failure w; sampler_records := sampler_records w;
     clock := clock w; random := random w; draws := draws w;
     objects := objects w; next_oid := next_oid w; spans := spans w;
     xray_recorder := r; log := log w |}.

Definition set_log (l : list (log_level * string)) (w : world) : world :=
  {| environ := environ w; importable := importable w;
     exporter_failure := exporter_failure w; sampler_records := sampler_records w;
     clock := clock w; random := random w; draws := draws w;
     objects := objects w; next_oid := next_oid w; spans := spans w;
     xray_recorder := xray_recorder w; log := l |}.

(** ** Computations that may raise and may yield *)

Inductive result (A : Type) :=
| Ok (a : A)
| Raise (e : exn).
Arguments Ok {A} a.
Arguments Raise {A} e.

(** What a generator hands to its consumer at a [yield]: [None], a span
    object or an X-Ray entity. *)
Inductive handle :=
| HNone
| HSpan (ref : nat)
| HEntity (ref : nat).

(** How a suspended generator is resumed: [next(gen)] or [gen.throw(e)]. *)
Inductive resume :=
| Next
| Throw (e : exn).

(** The run of a piece of code from a given state: it finishes, returning or
    raising, or it is suspended at a [yield]. *)
Inductive run (A : Type) :=
| Done (r : result A) (w : world)
| Susp (y : handle) (w : world) (k : resume -> world -> run A).
Arguments Done {A} r w.
Arguments Susp {A} y w k.

Definition G (A : Type) : Type := world -> run A.

Fixpoint run_bind {A B} (r : run A) (f : result A -> G B) : run B :=
  match r with
  | Done res w => f res w
  | Susp y w k => Susp y w (fun rs w' => run_bind (k rs w') f)
  end.

Definition ret {A} (a : A) : G A := fun w => Done (Ok a) w.

Definition raise {A} (e : exn) : G A := fun w => Done (Raise e) w.

Definition bind {A B} (m : G A) (f : A -> G B) : G B :=
  fun w => run_bind (m w)
    (fun r => match r with Ok a => f a | Raise e => raise e end).

Declare Scope py_scope.
Delimit Scope py_scope with py.
Notation "x <- c1 ;; c2" := (bind c1 (fun x => c2))
  (at level 100, c1 at next level, right associativity) : py_scope.
Notation "c1 ;; c2" := (bind c1 (fun _ => c2))
  (at level 100, right associativity) : py_scope.
Local Open Scope py_scope.

(** [yield y]: suspend; [next] resumes after the [yield], [throw(e)] raises
    [e] at the [yield]. *)
Definition yield_ (y : handle) : G unit :=
  fun w => Susp y w (fun rs w' =>
    match rs with
    | Next => Done (Ok tt) w'
    | Throw e => Done (Raise e) w'
    end).

(** [try: body except C as e: handler e], where [matches] tells the
    instances of [C]. *)
Definition try_except {A} (body : G A) (matches : exn -> bool) (handler : exn -> G A) : G A :=
  fun w => run_bind (body w)
    (fun r => match r with
              | Ok a => ret a
              | Raise e => if matches e then handler e else raise e
              end).

(** [try: body finally: final]: [final] runs on every exit of [body]; what
    it raises replaces the outcome of [body]. *)
Definition try_finally {A} (body : G A) (final : G unit) : G A :=
  fun w => run_bind (body w)
    (fun r => final ;; match r with Ok a => ret a | Raise e => raise e end).

Definition get : G world := fun w => Done (Ok w) w.

Definition modify (f : world -> world) : G unit := fun w => Done (Ok tt) (f w).

(** [for x in l: body x] *)
Fixpoint for_each {A} (l : list A) (body : A -> G unit) : G unit :=
  match l with
  | [] => ret tt
  | x :: l' => body x ;; for_each l' body
  end.

(** A fresh object address. *)
Definition alloc : G nat :=
  fun w => Done (Ok (next_oid w)) (set_next_oid (S (next_oid w)) w).

(** Instantiating an exception. *)
Definition new_exn (c : exn_class) (m : string) : G exn :=
  r <- alloc ;; ret (Exn r c m).

Definition logger (level : log_level) (m : string) : G unit :=
  modify (fun w => set_log (log w ++ [(level, m)]) w).

(** [os.getenv(key, default)] *)
Definition getenv (key fallback : string) : G string :=
  w <- get ;; ret (default fallback (environ w !! key)).

(** [import m], [from m import ...] *)
Definition import_ (m : string) : G unit :=
  w <- get ;;
  if importable w m then ret tt
  else e <- new_exn ImportError ("No module named '" +:+ m +:+ "'") ;; raise e.

(** [time.time_ns()] *)
Definition time_ns : G Z := w <- get ;; ret (clock w).

(** [random.getrandbits(k)] *)
Definition getrandbits (k : N) : G N :=
  fun w => Done (Ok (random w (draws w) mod 2 ^ k)%N) (set_draws (S (draws w)) w).

(** ** Context managers *)

(** An object with [__enter__] and [__exit__].  Entering returns the value
    bound by [as] together with the [__exit__] of the entered manager, which
    receives the exception of the block, if any, and answers whether to
    suppress it. *)
Record ContextManager := {
  __enter__ : G (handle * (option exn -> G bool));
}.

(** The [with] statement: [__exit__] sees every exception of the block,
    [BaseException]s included; the block's exception is raised again unless
    [__exit__] returns a true value, in which case the statement completes
    without a result. *)
Definition with_ {A} (cm : ContextManager) (suite : handle -> G A) : G (option A) :=
  entered <- __enter__ cm ;;
  let (value, __exit__) := entered in
  fun w => run_bind (suite value w)
    (fun r => match r with
              | Ok a => (__exit__ None ;; ret (Some a))
              | Raise e =>
                  (suppress <- __exit__ (Some e) ;;
                   if (suppress : bool) then ret None else raise e)
              end).

Module contextlib.

(** [generator.close()]: [GeneratorExit] is thrown at the pending [yield];
    the generator must finish or let it through. *)
Definition close (gen : resume -> G unit) : G unit :=
  ge <- new_exn GeneratorExit "" ;;
  fun w =>
    match gen (Throw ge) w with
    | Done (Ok _) w' => Done (Ok tt) w'
    | Done (Raise e) w' =>
        match cls e with
        | GeneratorExit => Done (Ok tt) w'
        | _ => Done (Raise e) w'
        end
    | Susp _ w' _ =>
        (e <- new_exn RuntimeError "generator ignored GeneratorExit" ;; raise e) w'
    end.

(** [_GeneratorContextManager.__exit__] for a generator suspended at [gen]. *)
Definition generator_exit (gen : resume -> G unit) (exc : option exn) : G bool :=
  fun w =>
    match exc with
    | None =>
        match gen Next w with
        | Done (Ok _) w' => Done (Ok false) w'
        | Done (Raise e) w' => Done (Raise e) w'
        | Susp _ w' gen' =>
            (e <- new_exn RuntimeError "generator didn't stop" ;;
             try_finally (raise e) (close gen')) w'
        end
    | Some value =>
        match gen (Throw value) w with
        | Done (Ok _) w' => Done (Ok true) w'
        | Done (Raise e) w' =>
            if exn_is e value then Done (Ok false) w' else Done (Raise e) w'
        | Susp _ w' gen' =>
            (e <- new_exn RuntimeError "generator didn't stop after throw()" ;;
             try_finally (raise e) (close gen')) w'
        end
    end.

(** [@contextmanager]: the context manager of a generator function's body.
    [__enter__] runs the generator to its first [yield]. *)
Definition contextmanager (body : G unit) : ContextManager :=
  {| __enter__ := fun w =>
       match body w with
       | Susp y w' gen => Done (Ok (y, generator_exit gen)) w'
       | Done (Ok _) w' =>
           (e <- new_exn RuntimeError "generator didn't yield" ;; raise e) w'
       | Done (Raise e) w' => Done (Raise e) w'
       end |}.

End contextlib.

(** ** The OpenTelemetry SDK, as the backend uses it *)

(** [d[key] = v] on an insertion-ordered dictionary. *)
Fixpoint dict_set {V} (key : string) (v : V) (d : list (string * V)) : list (string * V) :=
  match d with
  | [] => [(key, v)]
  | (k, x) :: d' =>
      if String.eqb k key then (k, v) :: d' else (k, x) :: dict_set key v d'
  end.

Module Span.

Definition update (ref : nat) (f : OTel.Span -> OTel.Span) : G unit :=
  modify (fun w => set_objects (<[ref := f (objects w !!! ref)]> (objects w)) w).

Definition is_mutable (s : OTel.Span) : bool :=
  OTel.is_sdk_span s && negb (bool_decide (is_Some (OTel.end_time s))).

Definition with_attribute (key : string) (v : Py.value) (s : OTel.Span) : OTel.Span :=
  if is_mutable s then
    {| OTel.get_span_context := OTel.get_span_context s; OTel.name := OTel.name s;
       OTel.start_time := OTel.start_time s; OTel.end_time := OTel.end_time s;
       OTel.attributes := dict_set key v (OTel.attributes s);
       OTel.status := OTel.status s; OTel.is_sdk_span := OTel.is_sdk_span s |}
  else s.

(** A status of [OK] is final; an ended span is frozen. *)
Definition with_status (st : OTel.Status) (s : OTel.Span) : OTel.Span :=
  if is_mutable s then
    match OTel.status_code (OTel.status s), OTel.status_code st with
    | OTel.OK, _ | _, OTel.UNSET => s
    | _, _ =>
        {| OTel.get_span_context := OTel.get_span_context s; OTel.name := OTel.name s;
           OTel.start_time := OTel.start_time s; OTel.end_time := OTel.end_time s;
           OTel.attributes := OTel.attributes s;
           OTel.status := st; OTel.is_sdk_span := OTel.is_sdk_span s |}
    end
  else s.

Definition ended_at (t : Z) (s : OTel.Span) : OTel.Span :=
  if is_mutable s then
    {| OTel.get_span_context := OTel.get_span_context s; OTel.name := OTel.name s;
       OTel.start_time := OTel.start_time s; OTel.end_time := Some t;
       OTel.attributes := OTel.attributes s;
       OTel.status := OTel.status s; OTel.is_sdk_span := OTel.is_sdk_span s |}
  else s.

(** [span.set_attribute(key, value)] *)
Definition set_attribute (ref : nat) (key : string) (v : Py.value) : G unit :=
  update ref (with_attribute key v).

(** [span.set_status(status)] *)
Definition set_status (ref : nat) (st : OTel.Status) : G unit :=
  update ref (with_status st).

(** [span.end()] *)
Definition end_ (ref : nat) : G unit :=
  t <- time_ns ;; update ref (ended_at t).

End Span.

Module Tracer.

(** [tracer.start_span(name)]: a new root span with fresh identifiers. *)
Definition start_span (tracer : OTel.Tracer) (name : string) : G nat :=
  trace_id <- getrandbits 128 ;;
  span_id <- getrandbits 64 ;;
  t <- time_ns ;;
  ref <- alloc ;;
  modify (fun w => set_objects
    (<[ref := {| OTel.get_span_context :=
                   {| OTel.trace_id := trace_id; OTel.span_id := span_id |};
                 OTel.name := name;
                 OTel.start_time := t;
                 OTel.end_time := None;
                 OTel.attributes := [];
                 OTel.status := {| OTel.status_code := OTel.UNSET;
                                   OTel.description := None |};
                 OTel.is_sdk_span := OTel.records tracer |}]> (objects w)) w) ;;
  ret ref.

End Tracer.

(** ** The X-Ray recorder, as the backend uses it

    The recorder is configured with [context_missing='LOG_ERROR']: a lookup
    in an empty context logs and answers [None]. *)
Module Recorder.

Definition update (f : XRay.Recorder -> XRay.Recorder) : G unit :=
  modify (fun w => set_xray_recorder (f (xray_recorder w)) w).

Definition new_entity (ref : nat) (name : string) (parent : option nat) : XRay.Entity :=
  {| XRay.id := ref; XRay.name := name; XRay.parent_segment := parent;
     XRay.annotations := ∅; XRay.metadata := ∅; XRay.exceptions := [] |}.

Definition get_trace_entity : G (option XRay.Entity) :=
  w <- get ;;
  match last (XRay.entities (xray_recorder w)) with
  | None =>
      logger ERROR_LEVEL "cannot find the current segment/subsegment, please make sure you have a segment open" ;;
      ret None
  | Some e => ret (Some e)
  end.

(** [recorder.current_segment()] *)
Definition current_segment : G handle :=
  entity <- get_trace_entity ;;
  match entity with
  | None => ret HNone
  | Some e =>
      match XRay.parent_segment e with
      | Some p => ret (HEntity p)
      | None => ret (HEntity (XRay.id e))
      end
  end.

(** [recorder.begin_segment(name)]: the new segment replaces whatever the
    context held. *)
Definition begin_segment (name : string) : G handle :=
  ref <- alloc ;;
  update (fun r => {| XRay.entities := [new_entity ref name None];
                      XRay.closed := XRay.closed r |}) ;;
  ret (HEntity ref).

(** [recorder.end_segment()]: the current segment is closed and sent, and
    the context is cleared. *)
Definition end_segment : G unit :=
  entity <- get_trace_entity ;;
  match entity with
  | None => logger WARNING "No segment to end"
  | Some e =>
      let root := default (XRay.id e) (XRay.parent_segment e) in
      update (fun r =>
        {| XRay.entities := [];
           XRay.closed := XRay.closed r ++
             filter (fun x => XRay.id x = root) (XRay.entities r) |})
  end.

(** [recorder.begin_subsegment(name)] *)
Definition begin_subsegment (name : string) : G handle :=
  segment <- current_segment ;;
  match segment with
  | HEntity p =>
      ref <- alloc ;;
      update (fun r => {| XRay.entities := XRay.entities r ++ [new_entity ref name (Some p)];
                          XRay.closed := XRay.closed r |}) ;;
      ret (HEntity ref)
  | _ =>
      logger WARNING ("No segment found, cannot begin subsegment " +:+ name +:+ ".") ;;
      ret HNone
  end.

(** [recorder.end_subsegment()] *)
Definition end_subsegment : G unit :=
  entity <- get_trace_entity ;;
  match entity with
  | Some e =>
      if XRay.is_subsegment e then
        update (fun r => {| XRay.entities := removelast (XRay.entities r);
                            XRay.closed := XRay.closed r ++ [e] |})
      else logger WARNING "No subsegment to end."
  | None => logger WARNING "No subsegment to end."
  end.

End Recorder.

Module Entity.

(** The entity is an object of the context: a method call changes it where
    it stands. *)
Definition on_entity (ref : nat) (f : XRay.Entity -> XRay.Entity) (e : XRay.Entity)
  : XRay.Entity :=
  if Nat.eqb (XRay.id e) ref then f e else e.

Definition update (ref : nat) (f : XRay.Entity -> XRay.Entity) : G unit :=
  Recorder.update (fun r =>
    {| XRay.entities := on_entity ref f <$> XRay.entities r;
       XRay.closed := XRay.closed r |}).

(** Calling a method of [h]: [None] has none. *)
Definition method (h : handle) (attr : string) (call : nat -> G unit) : G unit :=
  match h with
  | HEntity ref => call ref
  | HNone =>
      e <- new_exn AttributeError
             ("'NoneType' object has no attribute '" +:+ attr +:+ "'") ;;
      raise e
  | HSpan _ =>
      e <- new_exn AttributeError
             ("'Span' object has no attribute '" +:+ attr +:+ "'") ;;
      raise e
  end.

Definition with_annotation (key value : string) (e : XRay.Entity) : XRay.Entity :=
  {| XRay.id := XRay.id e; XRay.name := XRay.name e;
     XRay.parent_segment := XRay.parent_segment e;
     XRay.annotations := <[key := value]> (XRay.annotations e);
     XRay.metadata := XRay.metadata e; XRay.exceptions := XRay.exceptions e |}.

Definition with_metadata (key value : string) (e : XRay.Entity) : XRay.Entity :=
  {| XRay.id := XRay.id e; XRay.name := XRay.name e;
     XRay.parent_segment := XRay.parent_segment e;
     XRay.annotations := XRay.annotations e;
     XRay.metadata := <[key := value]> (XRay.metadata e);
     XRay.exceptions := XRay.exceptions e |}.

Definition with_exception (x : exn) (e : XRay.Entity) : XRay.Entity :=
  {| XRay.id := XRay.id e; XRay.name := XRay.name e;
     XRay.parent_segment := XRay.parent_segment e;
     XRay.annotations := XRay.annotations e;
     XRay.metadata := XRay.metadata e;
     XRay.exceptions := XRay.exceptions e ++ [x] |}.

(** [entity.put_annotation(key, value)] *)
Definition put_annotation (h : handle) (key value : string) : G unit :=
  method h "put_annotation" (fun ref => update ref (with_annotation key value)).

(** [entity.put_metadata(key, value)] *)
Definition put_metadata (h : handle) (key value : string) : G unit :=
  method h "put_metadata" (fun ref => update ref (with_metadata key value)).

(** [entity.add_exception(exc, stack)] *)
Definition add_exception (h : handle) (x : exn) : G unit :=
  method h "add_exception" (fun ref => update ref (with_exception x)).

End Entity.

(** The context managers that [in_segment] and [in_subsegment] return. *)
Module Recorder_cm.

(** [SegmentContextManager.__exit__] *)
Definition segment_exit (segment : handle) (exc : option exn) : G bool :=
  match segment with
  | HNone => ret false
  | _ =>
      match exc with
      | Some e => Entity.add_exception segment e
      | None => ret tt
      end ;;
      Recorder.end_segment ;;
      ret false
  end.

(** [recorder.in_segment(name)] *)
Definition in_segment (name : string) : ContextManager :=
  {| __enter__ :=
       segment <- Recorder.begin_segment name ;;
       ret (segment, segment_exit segment) |}.

(** [SubsegmentContextManager.__exit__] *)
Definition subsegment_exit (subsegment : handle) (exc : option exn) : G bool :=
  match subsegment with
  | HNone => ret false
  | _ =>
      match exc with
      | Some e => Entity.add_exception subsegment e
      | None => ret tt
      end ;;
      Recorder.end_subsegment ;;
      ret false
  end.

(** [recorder.in_subsegment(name)] *)
Definition in_subsegment (name : string) : ContextManager :=
  {| __enter__ :=
       subsegment <- Recorder.begin_subsegment name ;;
       ret (subsegment, subsegment_exit subsegment) |}.

End Recorder_cm.

(** ** tracing.py *)

(** The [attributes] dictionary of a call, in insertion order. *)
Definition attrs : Type := list (string * Py.value).

(** [class TraceBackend(ABC)] *)
Class TraceBackend (B : Type) := {
  create_span : B -> string -> attrs -> ContextManager;
  get_resource_spans : B -> G json;
}.

Module NoOpBackend.

(** The class has no fields. *)
Inductive t := new.

Definition create_span (self : t) (name : string) (attributes : attrs) : ContextManager :=
  contextlib.contextmanager (yield_ HNone).

Definition get_resource_spans (self : t) : G json :=
  ret (JDict [("resource", JDict []); ("scopeSpans", JList [])]).

End NoOpBackend.

#[export] Instance NoOpBackend_TraceBackend : TraceBackend NoOpBackend.t :=
  {| create_span := NoOpBackend.create_span;
     get_resource_spans := NoOpBackend.get_resource_spans |}.

Module OTLPBackend.

(** [self.tracer_provider] and [self.tracer]; [self.spans] lives in the
    process state (field [spans]). *)
Record t := {
  tracer_provider : option OTel.TracerProvider;
  tracer : option OTel.Tracer;
}.

(** [OTLPSpanExporter(endpoint=endpoint)] *)
Definition new_OTLPSpanExporter (endpoint : string) : G OTel.SpanExporter :=
  w <- get ;;
  match exporter_failure w endpoint with
  | Some (c, m) => e <- new_exn c m ;; raise e
  | None => ret (OTel.OTLPSpanExporter endpoint)
  end.

Definition add_span_processor (x : OTel.SpanExporter) (p : OTel.TracerProvider)
  : OTel.TracerProvider :=
  {| OTel.span_processors := OTel.span_processors p ++ [x] |}.

Definition __init__ : G t :=
  modify (set_spans []) ;;
  try_except
    (import_ "opentelemetry" ;;
     import_ "opentelemetry.exporter.otlp.proto.grpc.trace_exporter" ;;
     import_ "opentelemetry.sdk.trace" ;;
     import_ "opentelemetry.sdk.trace.export" ;;
     let tracer_provider :=
       add_span_processor OTel.ConsoleSpanExporter {| OTel.span_processors := [] |} in
     endpoint <- getenv "OTEL_EXPORTER_OTLP_ENDPOINT" "http://localhost:4317" ;;
     tracer_provider <-
       try_except
         (otlp_exporter <- new_OTLPSpanExporter endpoint ;;
          ret (add_span_processor otlp_exporter tracer_provider))
         isinstance_Exception
         (fun _ => ret tracer_provider) ;;
     w <- get ;;
     ret {| tracer_provider := Some tracer_provider;
            tracer := Some {| OTel.records := sampler_records w |} |})
    isinstance_ImportError
    (fun _ =>
       logger WARNING "OpenTelemetry not available, using no-op backend" ;;
       ret {| tracer_provider := None; tracer := None |}).

Definition isinstance_SDKSpan (span : nat) : G bool :=
  w <- get ;; ret (OTel.is_sdk_span (objects w !!! span)).

Definition create_span (self : t) (name : string) (attributes : attrs) : ContextManager :=
  contextlib.contextmanager
    match tracer self with
    | None => yield_ HNone
    | Some tracer =>
        span <- Tracer.start_span tracer name ;;
        for_each attributes (fun kv =>
          Span.set_attribute span (fst kv) (Py.VStr (Py.str (snd kv)))) ;;
        try_finally
          (try_except
             (yield_ (HSpan span))
             isinstance_Exception
             (fun e =>
                Span.set_status span
                  {| OTel.status_code := OTel.ERROR; OTel.description := Some (msg e) |} ;;
                raise e))
          (Span.end_ span ;;
           sdk <- isinstance_SDKSpan span ;;
           if (sdk : bool) then
             modify (fun w => set_spans (spans w ++ [objects w !!! span]) w)
           else ret tt)
    end.

Definition attribute_json (kv : string * Py.value) : json :=
  JDict [("key", JStr (fst kv));
         ("value", JDict [("stringValue", JStr (Py.str (snd kv)))])].

(** [x or y] on an optional integer: [None] and [0] are false. *)
Definition or_else (x : option Z) (y : Z) : Z :=
  match x with
  | Some v => if (v =? 0)%Z then y else v
  | None => y
  end.

(** The dictionary built for one span (lines 100-112). *)
Definition span_json (now : Z) (span : OTel.Span) : json :=
  let span_context := OTel.get_span_context span in
  JDict [("traceId", JStr (Py.format_0x 32 (OTel.trace_id span_context)));
         ("spanId", JStr (Py.format_0x 16 (OTel.span_id span_context)));
         ("name", JStr (OTel.name span));
         ("kind", JStr "SPAN_KIND_INTERNAL");
         ("startTimeUnixNano", JStr (Py.str_int (OTel.start_time span)));
         ("endTimeUnixNano", JStr (Py.str_int (or_else (OTel.end_time span) now)));
         ("attributes", JList (attribute_json <$> OTel.attributes span));
         ("status", JDict [("code", JStr "STATUS_CODE_OK")])].

Definition resource_spans (spans_json : list json) : json :=
  JDict [("resource",
          JDict [("attributes",
                  JList [JDict [("key", JStr "service.name");
                                ("value", JDict [("stringValue", JStr "aws-api-mcp-server")])];
                         JDict [("key", JStr "service.version");
                                ("value", JDict [("stringValue", JStr "0.2.14")])]])]);
         ("scopeSpans",
          JList [JDict [("scope", JDict [("name", JStr "aws-api-mcp-server");
                                         ("version", JStr "0.2.14")]);
                        ("spans", JList spans_json)]])].

Definition get_resource_spans (self : t) : G json :=
  w <- get ;;
  let spans_json := span_json (clock w) <$> spans w in
  let result := resource_spans spans_json in
  modify (set_spans []) ;;
  ret result.

End OTLPBackend.

#[export] Instance OTLPBackend_TraceBackend : TraceBackend OTLPBackend.t :=
  {| create_span := OTLPBackend.create_span;
     get_resource_spans := OTLPBackend.get_resource_spans |}.

Module XRayBackend.

(** A reference to the global recorder of the SDK. *)
Inductive recorder_ref := xray_recorder_ref.

Record t := { recorder : option recorder_ref }.

Definition __init__ : G t :=
  try_except
    (import_ "aws_xray_sdk.core" ;;
     ret {| recorder := Some xray_recorder_ref |})
    isinstance_ImportError
    (fun _ =>
       logger WARNING "AWS X-Ray SDK not available, using no-op backend" ;;
       ret {| recorder := None |}).

(** [key.replace('.', '_').replace('-', '_')] *)
Definition clean_key (key : string) : string :=
  Py.replace "-" "_" (Py.replace "." "_" key).

(** The body of the attribute loop (lines 151-155 and 166-170). *)
Definition record_attribute (entity : handle) (kv : string * Py.value) : G unit :=
  let (key, value) := kv in
  let clean_key := clean_key key in
  if (String.length (Py.str value) <=? 50)%nat
  then Entity.put_annotation entity clean_key (Py.str value)
  else Entity.put_metadata entity clean_key (Py.str value).

Definition truthy (h : handle) : bool :=
  match h with HNone => false | _ => true end.

Definition create_span (self : t) (name : string) (attributes : attrs) : ContextManager :=
  contextlib.contextmanager
    match recorder self with
    | None => yield_ HNone
    | Some _ =>
        if String.eqb name "aws_cli_command" then
          try_except
            (with_ (Recorder_cm.in_segment name) (fun segment =>
               Entity.put_annotation segment "service" "aws-api-mcp-server" ;;
               for_each attributes (record_attribute segment) ;;
               yield_ segment) ;;
             ret tt)
            isinstance_Exception
            (fun e =>
               logger DEBUG ("X-Ray segment creation failed: " +:+ msg e) ;;
               yield_ HNone)
        else
          try_except
            (current_segment <- Recorder.current_segment ;;
             if truthy current_segment then
               with_ (Recorder_cm.in_subsegment name) (fun subsegment =>
                 for_each attributes (record_attribute subsegment) ;;
                 yield_ subsegment) ;;
               ret tt
             else yield_ HNone)
            isinstance_Exception
            (fun e =>
               logger DEBUG ("X-Ray subsegment creation failed: " +:+ msg e) ;;
               yield_ HNone)
    end.

Definition get_resource_spans (self : t) : G json :=
  ret (JDict [("resource", JDict []); ("scopeSpans", JList [])]).

End XRayBackend.

#[export] Instance XRayBackend_TraceBackend : TraceBackend XRayBackend.t :=
  {| create_span := XRayBackend.create_span;
     get_resource_spans := XRayBackend.get_resource_spans |}.

(** A backend object: an instance of one of the three concrete classes. *)
Inductive Backend :=
| NoOp (b : NoOpBackend.t)
| OTLP (b : OTLPBackend.t)
| XRay (b : XRayBackend.t).

(** Method calls on a backend object dispatch on its class. *)
#[export] Instance Backend_TraceBackend : TraceBackend Backend :=
  {| create_span b :=
       match b with
       | NoOp b => create_span b
       | OTLP b => create_span b
       | XRay b => create_span b
       end;
     get_resource_spans b :=
       match b with
       | NoOp b => get_resource_spans b
       | OTLP b => get_resource_spans b
       | XRay b => get_resource_spans b
       end |}.

Module TraceManager.

Record t := { backend : Backend }.

Definition __init__ (backend : Backend) : t := {| backend := backend |}.

Definition trace (self : t) (operation : string) (attributes : attrs) : ContextManager :=
  contextlib.contextmanager
    (try_except
       (with_ (create_span (backend self) operation attributes) (fun span =>
          yield_ span) ;;
        ret tt)
       isinstance_Exception
       (fun e =>
          logger DEBUG ("Tracing failed for " +:+ operation +:+ ": " +:+ msg e) ;;
          yield_ HNone)).

Definition get_resource_spans (self : t) : G json :=
  get_resource_spans (backend self).

End TraceManager.

Definition get_trace_backend : G Backend :=
  value <- getenv "AWS_MCP_TRACING_BACKEND" "disabled" ;;
  let backend_type := Py.lower value in
  if String.eqb backend_type "otlp" then b <- OTLPBackend.__init__ ;; ret (OTLP b)
  else if String.eqb backend_type "xray" then b <- XRayBackend.__init__ ;; ret (XRay b)
  else ret (NoOp NoOpBackend.new).

(** [trace_manager = TraceManager(get_trace_backend())] *)
Definition trace_manager : G TraceManager.t :=
  b <- get_trace_backend ;; ret (TraceManager.__init__ b).

(** ** otel.py: the serialiser and the attribute loop of [OTelTraceManager] *)
Module OTelTraceManager.

Definition span_to_otlp_json (now : Z) (span : OTel.Span) : json :=
  let span_context := OTel.get_span_context span in
  JDict [("traceId", JStr (Py.format_0x 32 (OTel.trace_id span_context)));
         ("spanId", JStr (Py.format_0x 16 (OTel.span_id span_context)));
         ("name", JStr (OTel.name span));
         ("kind", JStr "SPAN_KIND_INTERNAL");
         ("startTimeUnixNano", JStr (Py.str_int (OTel.start_time span)));
         ("endTimeUnixNano",
          JStr (Py.str_int (OTLPBackend.or_else (OTel.end_time span) now)));
         ("attributes", JList (OTLPBackend.attribute_json <$> OTel.attributes span));
         ("status",
          JDict [("code",
                  JStr match OTel.status_code (OTel.status span) with
                       | OTel.OK => "STATUS_CODE_OK"
                       | _ => "STATUS_CODE_ERROR"
                       end)])].

(** The body of the attribute loop of [trace_operation] (lines 122-127). *)
Definition record_attribute (segment : handle) (kv : string * Py.value) : G unit :=
  let (key, value) := kv in
  let clean_key := Py.replace "-" "_" (Py.replace "." "_" key) in
  if (String.length (Py.str value) <=? 50)%nat
  then Entity.put_annotation segment clean_key (Py.str value)
  else Entity.put_metadata segment clean_key (Py.str value).

End OTelTraceManager.

(** ** Vocabulary of the statements *)

(** How a run ended, and the state it left. *)
Definition outcome {A} (r : run A) : option (result A) :=
  match r with
  | Done res _ => Some res
  | Susp _ _ _ => None
  end.

Definition final {A} (r : run A) : world :=
  match r with
  | Done _ w => w
  | Susp _ w _ => w
  end.

(** [j[key]] and [j[i]] *)
Definition json_get (key : string) (j : json) : option json :=
  match j with
  | JDict items =>
      snd <$> List.find (fun kv => String.eqb (fst kv) key) items
  | _ => None
  end.

Definition json_index (i : nat) (j : json) : option json :=
  match j with
  | JList l => l !! i
  | _ => None
  end.

(** [j['scopeSpans'][0]['spans']] *)
Definition exported_spans (j : json) : option (list json) :=
  match (json_get "scopeSpans" j ≫= json_index 0) ≫= json_get "spans" with
  | Some (JList l) => Some l
  | _ => None
  end.

(** [j['status']['code']] *)
Definition exported_status_code (j : json) : option string :=
  match json_get "status" j ≫= json_get "code" with
  | Some (JStr s) => Some s
  | _ => None
  end.

(** The structure the inert backends answer. *)
Definition empty_resource_spans : json :=
  JDict [("resource", JDict []); ("scopeSpans", JList [])].

(** The shape of the record exported for a span, in the words of the
    specification. *)
Definition export_record (now : Z) (span : OTel.Span) (j : json) : Prop :=
  exists traceId spanId startTimeUnixNano endTimeUnixNano status,
    j = JDict [("traceId", JStr traceId);
               ("spanId", JStr spanId);
               ("name", JStr (OTel.name span));
               ("kind", JStr "SPAN_KIND_INTERNAL");
               ("startTimeUnixNano", JStr startTimeUnixNano);
               ("endTimeUnixNano", JStr endTimeUnixNano);
               ("attributes",
                JList ((fun kv =>
                          JDict [("key", JStr (fst kv));
                                 ("value", JDict [("stringValue", JStr (Py.str (snd kv)))])])
                       <$> OTel.attributes span));
               ("status", status)]
    /\ Py.is_hex_of 32 (OTel.trace_id (OTel.get_span_context span)) traceId
    /\ Py.is_hex_of 16 (OTel.span_id (OTel.get_span_context span)) spanId
    /\ Py.is_decimal startTimeUnixNano
    /\ Py.int_of_decimal startTimeUnixNano = OTel.start_time span
    /\ Py.is_decimal endTimeUnixNano
    /\ Py.int_of_decimal endTimeUnixNano
       = match OTel.end_time span with
         | Some t => if (t =? 0)%Z then now else t
         | None => now
         end.

(** The fixed envelope of an export around the list of span records. *)
Definition export_envelope (records : list json) : json :=
  JDict [("resource",
          JDict [("attributes",
                  JList [JDict [("key", JStr "service.name");
                                ("value", JDict [("stringValue", JStr "aws-api-mcp-server")])];
                         JDict [("key", JStr "service.version");
                                ("value", JDict [("stringValue", JStr "0.2.14")])]])]);
         ("scopeSpans",
          JList [JDict [("scope", JDict [("name", JStr "aws-api-mcp-server");
                                         ("version", JStr "0.2.14")]);
                        ("spans", JList records)]])].

(** Identifiers as the SDK generates them: 128 and 64 bits. *)
Definition valid_context (span : OTel.Span) : Prop :=
  (OTel.trace_id (OTel.get_span_context span) < 2 ^ 128)%N
  /\ (OTel.span_id (OTel.get_span_context span) < 2 ^ 64)%N.

(** A caller that performs calls on a backend one after the other; each
    scope has an empty body, and the caller keeps every handle and every
    export it received. *)
Inductive call :=
| CreateSpan (name : string) (attributes : attrs)
| GetResourceSpans.

Inductive reply :=
| Yielded (h : option handle)
| Exported (j : json).

Fixpoint caller {B} `{TraceBackend B} (b : B) (calls : list call) : G (list reply) :=
  match calls with
  | [] => ret []
  | CreateSpan name attributes :: calls' =>
      h <- with_ (create_span b name attributes) (fun h => ret h) ;;
      replies <- caller b calls' ;;
      ret (Yielded h :: replies)
  | GetResourceSpans :: calls' =>
      j <- get_resource_spans b ;;
      replies <- caller b calls' ;;
      ret (Exported j :: replies)
  end.

Definition created_names (calls : list call) : list string :=
  omap (fun c => match c with CreateSpan n _ => Some n | _ => None end) calls.

Definition exports (replies : list reply) : list json :=
  omap (fun r => match r with Exported j => Some j | _ => None end) replies.

(** Every span record the caller received, in the order of reception. *)
Definition received_records (replies : list reply) : list json :=
  concat (omap exported_spans (exports replies)).

(** Whether scopes of the backend produce SDK spans. *)
Definition recording (self : OTLPBackend.t) : bool :=
  match OTLPBackend.tracer self with
  | Some tracer => OTel.records tracer
  | None => false
  end.

(** The attribute routing rule in the words of the specification: keys have
    every ['.'] and ['-'] turned into ['_']; a value of at most 50
    characters is an annotation, a longer one is metadata. *)
Definition normalise_char (c : ascii) : ascii :=
  if bool_decide (c = "."%char \/ c = "-"%char) then "_"%char else c.

Fixpoint normalise_key (key : string) : string :=
  match key with
  | EmptyString => EmptyString
  | String c key' => String (normalise_char c) (normalise_key key')
  end.

Definition routed_annotations (attributes : attrs) (m : gmap string string)
  : gmap string string :=
  fold_left (fun m kv =>
    if bool_decide (String.length (Py.str (snd kv)) <= 50)%nat
    then <[normalise_key (fst kv) := Py.str (snd kv)]> m else m) attributes m.

Definition routed_metadata (attributes : attrs) (m : gmap string string)
  : gmap string string :=
  fold_left (fun m kv =>
    if bool_decide (50 < String.length (Py.str (snd kv)))%nat
    then <[normalise_key (fst kv) := Py.str (snd kv)]> m else m) attributes m.

(** What the OTLP backend makes of a scope, written as functions of the
    state: the span that [start_span] creates, the state in which the body of
    the scope starts, and the state after the [finally] block. *)
Definition started_span (tracer : OTel.Tracer) (name : string) (w : world) : OTel.Span :=
  {| OTel.get_span_context :=
       {| OTel.trace_id := (random w (draws w) mod 2 ^ 128)%N;
          OTel.span_id := (random w (S (draws w)) mod 2 ^ 64)%N |};
     OTel.name := name;
     OTel.start_time := clock w;
     OTel.end_time := None;
     OTel.attributes := [];
     OTel.status := {| OTel.status_code := OTel.UNSET; OTel.description := None |};
     OTel.is_sdk_span := OTel.records tracer |}.

Definition with_attributes (attributes : attrs) (s : OTel.Span) : OTel.Span :=
  fold_left
    (fun s kv => Span.with_attribute (fst kv) (Py.VStr (Py.str (snd kv))) s)
    attributes s.

Definition entered (tracer : OTel.Tracer) (name : string) (attributes : attrs)
    (w : world) : world :=
  set_objects
    (<[next_oid w := with_attributes attributes (started_span tracer name w)]>
       (objects w))
    (set_next_oid (S (next_oid w)) (set_draws (S (S (draws w))) w)).

Definition finalised (ref : nat) (w : world) : world :=
  let s := Span.ended_at (clock w) (objects w !!! ref) in
  let w' := set_objects (<[ref := s]> (objects w)) w in
  if OTel.is_sdk_span s then set_spans (spans w ++ [s]) w' else w'.

Definition error_status (e : exn) : OTel.Status :=
  {| OTel.status_code := OTel.ERROR; OTel.description := Some (msg e) |}.

Definition failed (ref : nat) (e : exn) (w : world) : world :=
  if isinstance_Exception e
  then set_objects
         (<[ref := Span.with_status (error_status e) (objects w !!! ref)]> (objects w)) w
  else w.

(** What the attribute loop of the X-Ray backend makes of an entity. *)
Definition route (kv : string * Py.value) (e : XRay.Entity) : XRay.Entity :=
  if (String.length (Py.str (snd kv)) <=? 50)%nat
  then Entity.with_annotation (XRayBackend.clean_key (fst kv)) (Py.str (snd kv)) e
  else Entity.with_metadata (XRayBackend.clean_key (fst kv)) (Py.str (snd kv)) e.

Definition routed (attributes : attrs) (e : XRay.Entity) : XRay.Entity :=
  fold_left (fun e kv => route kv e) attributes e.

(** The segment that the root operation opens. *)
Definition opened_segment (ref : nat) (name : string) (attributes : attrs) : XRay.Entity :=
  routed attributes
    (Entity.with_annotation "service" "aws-api-mcp-server"
       (Recorder.new_entity ref name None)).

(** A segment is open when [recorder.current_segment()] finds one. *)
Definition segment_open (w : world) : Prop :=
  exists p, outcome (Recorder.current_segment w) = Some (Ok (HEntity p)).

(** Entering an X-Ray scope opens a subsegment: the handle is a new entity,
    the innermost of the context, named after the operation, whose parent is
    a segment. *)
Definition opens_subsegment (self : XRayBackend.t) (name : string)
    (attributes : attrs) (w : world) : Prop :=
  exists __exit__ w' sub,
    __enter__ (create_span self name attributes) w
    = Done (Ok (HEntity (next_oid w), __exit__)) w'
    /\ last (XRay.entities (xray_recorder w')) = Some sub
    /\ length (XRay.entities (xray_recorder w'))
       = S (length (XRay.entities (xray_recorder w)))
    /\ XRay.id sub = next_oid w
    /\ XRay.name sub = name
    /\ XRay.is_subsegment sub = true
    /\ XRay.annotations sub = routed_annotations attributes ∅
    /\ XRay.metadata sub = routed_metadata attributes ∅.

(** Entering an X-Ray scope is inert: the handle is [None], nothing is
    raised on the way in or on the way out, and neither the recorder nor the
    span buffer changes. *)
Definition inert_scope (self : XRayBackend.t) (name : string)
    (attributes : attrs) (w : world) : Prop :=
  exists __exit__ w',
    __enter__ (create_span self name attributes) w = Done (Ok (HNone, __exit__)) w'
    /\ xray_recorder w' = xray_recorder w
    /\ spans w' = spans w
    /\ forall w'', __exit__ None w'' = Done (Ok false) w''.

(** What the caller of [TraceManager.trace] receives when the body of the
    scope raised [e] in state [w]: the exception made by the context manager
    protocol, and the state after it. *)
Definition replaced_fault (w : world) : exn :=
  Exn (next_oid w) RuntimeError "generator didn't stop after throw()".

Definition trace_failed (operation : string) (e : exn) (w : world) : world :=
  set_next_oid (S (S (next_oid w)))
    (set_log (log w ++ [(DEBUG, "Tracing failed for " +:+ operation +:+ ": " +:+ msg e)]) w).

(** A state of the process to run examples in: nothing buffered, no open
    segment, every module installed, an exporter that can be built. *)
Definition idle : world :=
  {| environ := ∅; importable := fun _ => true;
     exporter_failure := fun _ => None; sampler_records := true;
     clock := 1700000000000000000;
     random := fun n => (N.of_nat n * 2654435761 + 40503)%N; draws := 0;
     objects := ∅; next_oid := 1; spans := [];
     xray_recorder := {| XRay.entities := []; XRay.closed := [] |};
     log := [] |}.

(** The fault of the examples: [ValueError('boom')], raised by the caller. *)
Definition boom : exn := Exn 0 ValueError "boom".

(** The configuration as [OTLPBackend.__init__] and [get_trace_backend]
    read it. *)
Definition otlp_endpoint (w : world) : string :=
  default "http://localhost:4317" (environ w !! "OTEL_EXPORTER_OTLP_ENDPOINT").

Definition backend_setting (w : world) : string :=
  default "disabled" (environ w !! "AWS_MCP_TRACING_BACKEND").

(** Whether the four modules that [OTLPBackend.__init__] imports are
    installed. *)
Definition otel_installed (w : world) : bool :=
  importable w "opentelemetry"
  && importable w "opentelemetry.exporter.otlp.proto.grpc.trace_exporter"
  && importable w "opentelemetry.sdk.trace"
  && importable w "opentelemetry.sdk.trace.export".

(** The network exporter can be built, or its construction fails with an
    instance of [Exception]. *)
Definition exporter_fails_softly (w : world) : Prop :=
  match exporter_failure w (otlp_endpoint w) with
  | Some (c, _) => is_Exception c = true
  | None => True
  end.

(** The exporters of a constructed backend. *)
Definition exporters (self : OTLPBackend.t) : list OTel.SpanExporter :=
  match OTLPBackend.tracer_provider self with
  | Some p => OTel.span_processors p
  | None => []
  end.

(** [self] was constructed from [w] and left the state [w']. *)
Definition constructs (w : world) (self : OTLPBackend.t) (w' : world) : Prop :=
  OTLPBackend.__init__ w = Done (Ok self) w'.

(** The scope of the examples: [with trace_manager.trace(operation): raise
    ValueError('boom')] on a manager of the given backend, and the same
    through [create_span] of the backend, both entered in [idle]. *)
Definition failing_trace (backend : Backend) (operation : string) : run (option unit) :=
  with_ (TraceManager.trace (TraceManager.__init__ backend) operation [])
    (fun _ => raise boom) idle.

Definition failing_span (backend : Backend) (operation : string) : run (option unit) :=
  with_ (create_span backend operation []) (fun _ => raise boom) idle.

(** A state with one open segment, as inside the root operation. *)
Definition traced : world :=
  set_xray_recorder
    {| XRay.entities := [Recorder.new_entity 1 "aws_cli_command" None];
       XRay.closed := [] |}
    (set_next_oid 2 idle).

(** A state in which the OpenTelemetry packages are not installed. *)
Definition bare : world :=
  {| environ := ∅; importable := fun _ => false;
     exporter_failure := fun _ => None; sampler_records := true;
     clock := 1700000000000000000;
     random := fun n => (N.of_nat n * 2654435761 + 40503)%N; draws := 0;
     objects := ∅; next_oid := 1; spans := [];
     xray_recorder := {| XRay.entities := []; XRay.closed := [] |};
     log := [] |}.

(** A state with every package installed and a network exporter whose
    construction fails. *)
Definition unreachable : world :=
  {| environ := ∅; importable := fun _ => true;
     exporter_failure := fun _ => Some (ValueError, "invalid endpoint");
     sampler_records := true;
     clock := 1700000000000000000;
     random := fun n => (N.of_nat n * 2654435761 + 40503)%N; draws := 0;
     objects := ∅; next_oid := 1; spans := [];
     xray_recorder := {| XRay.entities := []; XRay.closed := [] |};
     log := [] |}.

(** A state in which the construction of the network exporter is
    interrupted from the keyboard. *)
Definition interrupted : world :=
  {| environ := ∅; importable := fun _ => true;
     exporter_failure := fun _ => Some (KeyboardInterrupt, "");
     sampler_records := true;
     clock := 1700000000000000000;
     random := fun n => (N.of_nat n * 2654435761 + 40503)%N; draws := 0;
     objects := ∅; next_oid := 1; spans := [];
     xray_recorder := {| XRay.entities := []; XRay.closed := [] |};
     log := [] |}.

(** The state of [idle] with a value of the backend setting. *)
Definition configured (value : string) (w : world) : world :=
  set_environ (<["AWS_MCP_TRACING_BACKEND" := value]> (environ w)) w.

Definition noop_reply (c : call) : reply :=
  match c with
  | CreateSpan _ _ => Yielded (Some HNone)
  | GetResourceSpans => Exported empty_resource_spans
  end.

Definition noop_backend : Backend := NoOp NoOpBackend.new.

Definition otlp_backend : Backend :=
  OTLP {| OTLPBackend.tracer_provider :=
            Some {| OTel.span_processors := [OTel.ConsoleSpanExporter] |};
          OTLPBackend.tracer := Some {| OTel.records := true |} |}.

Definition xray_backend : Backend :=
  XRay {| XRayBackend.recorder := Some XRayBackend.xray_recorder_ref |}.

(** The state after one traced scope on the OTLP backend: one span in the
    buffer. *)
Definition buffered : world :=
  final (with_ (create_span otlp_backend "op" [("k", Py.VStr "v")]) (fun h => ret h) idle).

(** Values of 50 and of 51 characters. *)
Definition fifty : string := "01234567890123456789012345678901234567890123456789".

Definition fifty_one : string := String "x" fifty.

(** The end-to-end scenario of the specification: the configuration selects
    [otlp], the manager is built, one scope [trace("op", k="v")] runs to its
    end, and the buffer is exported. *)
Definition end_to_end : G json :=
  manager <- trace_manager ;;
  _ <- with_ (TraceManager.trace manager "op" [("k", Py.VStr "v")]) (fun h => ret h) ;;
  TraceManager.get_resource_spans manager.

(** The segment that the root operation opens in [idle] for one short and
    one long attribute. *)
Definition boundary_segment : option XRay.Entity :=
  head (XRay.entities (xray_recorder (final (
    __enter__ (create_span xray_backend "aws_cli_command"
                 [("aws.cli-command", Py.VStr fifty); ("aws.service", Py.VStr fifty_one)])
      idle)))).

(** ** Runs that go in step

    Two runs go in step along a change [f] of the state when they yield the
    same handles and end with the same result, the second in the state of the
    first changed by [f], and when, resumed in the same way in states that
    differ by [f], they go in step again.  Results are compared by [R]. *)
Section InStep.

Context (f : world -> world).

Inductive in_step {A} (R : A -> A -> Prop) : run A -> run A -> Prop :=
| in_step_ok a a' w :
    R a a' -> in_step R (Done (Ok a) w) (Done (Ok a') (f w))
| in_step_raise e w :
    in_step R (Done (Raise e) w) (Done (Raise e) (f w))
| in_step_susp y w k k' :
    (forall rs w', in_step R (k rs w') (k' rs (f w'))) ->
    in_step R (Susp y w k) (Susp y (f w) k').

(** A computation started in a state changed by [f] goes in step with the
    computation started in the state itself. *)
Definition unaffected {A} (R : A -> A -> Prop) (m m' : G A) : Prop :=
  forall w, in_step R (m w) (m' (f w)).

(** Two entered scopes are the same: the same handle, and exits that are
    unaffected. *)
Definition same_scope (p p' : handle * (option exn -> G bool)) : Prop :=
  fst p = fst p' /\ forall exc, unaffected eq (snd p exc) (snd p' exc).

End InStep.

(** ** tracing.py: [TraceManager.instrument] and its attributes *)

(** More of Python's [str], as [_get_standard_attributes] and the callers of
    the tracing layer use it. *)
Module PyStr.

(** [c.isspace()] on the Latin-1 range: the controls U+0009..U+000D and
    U+001C..U+001F, the space, U+0085 and the no-break space. *)
Definition isspace (c : ascii) : bool :=
  let k := N_of_ascii c in
  (((9 <=? k) && (k <=? 13)) || ((28 <=? k) && (k <=? 32))
   || (k =? 133) || (k =? 160))%N.

(** [s.split()]: the maximal runs of characters that are no whitespace, in
    order; [word] is the run read so far. *)
Fixpoint split_from (word : string) (s : string) : list string :=
  match s with
  | EmptyString =>
      match word with
      | EmptyString => []
      | _ => [word]
      end
  | String c s' =>
      if isspace c then
        match word with
        | EmptyString => split_from EmptyString s'
        | _ => word :: split_from EmptyString s'
        end
      else split_from (word +:+ String c EmptyString) s'
  end.

Definition split (s : string) : list string := split_from EmptyString s.

(** [sep.join(words)] *)
Definition join (sep : string) (words : list string) : string :=
  String.concat sep words.

(** [v.split()] on a value of the model: [str] has the method; [int], [bool]
    and [NoneType] have none.  The types [bytes] and [bytearray], which have
    a [split] of their own, are not among the values of the model. *)
Definition split_method (v : Py.value) : G (list string) :=
  match v with
  | Py.VStr s => ret (split s)
  | Py.VInt _ =>
      e <- new_exn AttributeError "'int' object has no attribute 'split'" ;; raise e
  | Py.VBool _ =>
      e <- new_exn AttributeError "'bool' object has no attribute 'split'" ;; raise e
  | Py.VNone =>
      e <- new_exn AttributeError "'NoneType' object has no attribute 'split'" ;; raise e
  end.

End PyStr.

(** The keyword arguments of a call, by name. *)
Definition kwargs : Type := gmap string Py.value.

Module Instrument.

(** [TraceManager.trace] reads [self.backend] as a [TraceBackend] of any
    class: the same body over an instance of the class of backends. *)
Definition trace {B} `{TraceBackend B} (backend : B) (operation : string)
    (attributes : attrs) : ContextManager :=
  contextlib.contextmanager
    (try_except
       (with_ (create_span backend operation attributes) (fun span =>
          yield_ span) ;;
        ret tt)
       isinstance_Exception
       (fun e =>
          logger DEBUG ("Tracing failed for " +:+ operation +:+ ": " +:+ msg e) ;;
          yield_ HNone)).

(** [TraceManager._get_standard_attributes] (lines 217-228). *)
Definition _get_standard_attributes (self : TraceManager.t) (operation_name : string)
    (args : list Py.value) (kwargs : kwargs) : G attrs :=
  let attributes := [("mcp.server.name", Py.VStr "aws-api-mcp-server");
                     ("mcp.operation", Py.VStr operation_name)] in
  match kwargs !! "cli_command" with
  | Some cli_command =>
      let attributes := dict_set "mcp.tool.name" (Py.VStr "call_aws") attributes in
      let attributes := dict_set "aws.cli.command" cli_command attributes in
      parts <- PyStr.split_method cli_command ;;
      if (2 <=? length parts)%nat && bool_decide (parts !! 0%nat = Some "aws") then
        let attributes := dict_set "aws.service" (Py.VStr (parts !!! 1%nat)) attributes in
        if (3 <=? length parts)%nat then
          ret (dict_set "aws.operation" (Py.VStr (parts !!! 2%nat)) attributes)
        else ret attributes
      else ret attributes
  | None => ret attributes
  end.

(** [sync_wrapper] of [TraceManager.instrument] (lines 204-208), the wrapper
    that the decorator returns for a function that is no coroutine function.
    The attributes are passed on as keyword arguments, which their fixed keys
    allow.  A [with] statement whose context manager suppressed the fault of
    the block is left without a [return]: the call answers [None]. *)
Definition sync_wrapper {A} (self : TraceManager.t) (operation_name : string)
    (func : list Py.value -> kwargs -> G A)
    (args : list Py.value) (kwargs : kwargs) : G (option A) :=
  attributes <- _get_standard_attributes self operation_name args kwargs ;;
  with_ (TraceManager.trace self operation_name attributes) (fun _ =>
    func args kwargs).

End Instrument.

(** ** otel.py: the span collector and the manager

    The module is modelled as imported, that is with the OpenTelemetry
    packages installed (its imports are not guarded).  It logs through the
    standard [logging] module: the records of level [ERROR] are kept in the
    log of the state, those of level [INFO], for which the log has no level,
    are not. *)
Module logging.

(** [logger.info(...)], whatever the message. *)
Definition info : G unit := ret tt.

(** [logger.error(m)] *)
Definition error (m : string) : G unit := logger ERROR_LEVEL m.

End logging.

(** [XRAY_SDK_AVAILABLE], as the guarded import of lines 34-46 sets it; the
    set of installed modules does not change while the process runs. *)
Definition XRAY_SDK_AVAILABLE : G bool :=
  w <- get ;;
  ret (importable w "aws_xray_sdk.core" && importable w "aws_xray_sdk.core.context").

(** [class SpanCollector]: the list of the one collector of the process is
    the span list of the state.  The state has one span list: it stands for
    the list of this collector where the code of [otel.py] runs and for
    [OTLPBackend.spans] where the code of [tracing.py] runs, so the model
    does not tell the two buffers apart in a process that uses both
    modules. *)
Module SpanCollector.

Definition __init__ : G unit := modify (set_spans []).

Definition add_span (span : nat) : G unit :=
  modify (fun w => set_spans (spans w ++ [objects w !!! span]) w).

Definition clear : G unit := modify (set_spans []).

End SpanCollector.

Module OTelManager.

(** [self.tracer_provider] and [self.tracer]; [self.span_collector] lives in
    the process state. *)
Record t := {
  tracer_provider : OTel.TracerProvider;
  tracer : OTel.Tracer;
}.

(** [if x:] on a string and on an optional dictionary. *)
Definition nonempty (s : string) : bool :=
  match s with EmptyString => false | _ => true end.

Definition truthy (attributes : option attrs) : bool :=
  match attributes with
  | Some (_ :: _) => true
  | _ => false
  end.

(** [attributes.items()] where [attributes] is true. *)
Definition items (attributes : option attrs) : attrs := default [] attributes.

(** [OTelTraceManager.__init__] (lines 62-91).  The tracer is the one of
    the provider that the constructor installs, as for the OTLP backend; the
    name of the module it is asked for is not kept.  The five [logger.info]
    calls of lines 63-71 leave no record in the log of the state, and
    [SpanCollector()] empties the one span list of the state: the state in
    which this constructor ends is that of the model, not a description of
    the log or of the buffers of the process. *)
Definition __init__ : G t :=
  logging.info ;;
  logging.info ;;
  logging.info ;;
  logging.info ;;
  logging.info ;;
  let tracer_provider : OTel.TracerProvider := {| OTel.span_processors := [] |} in
  let tracer_provider :=
    OTLPBackend.add_span_processor OTel.ConsoleSpanExporter tracer_provider in
  value <- getenv "AWS_XRAY_TRACING_ENABLED" "false" ;;
  let xray_enabled := String.eqb (Py.lower value) "true" in
  tracer_provider <-
    (if negb xray_enabled then
       otlp_endpoint <- getenv "OTEL_EXPORTER_OTLP_ENDPOINT" "http://localhost:4317" ;;
       if nonempty otlp_endpoint then
         try_except
           (otlp_exporter <- OTLPBackend.new_OTLPSpanExporter otlp_endpoint ;;
            ret (OTLPBackend.add_span_processor otlp_exporter tracer_provider))
           isinstance_Exception
           (fun _ => ret tracer_provider)
       else ret tracer_provider
     else ret tracer_provider) ;;
  w <- get ;;
  SpanCollector.__init__ ;;
  ret {| tracer_provider := tracer_provider;
         tracer := {| OTel.records := sampler_records w |} |}.

(** [OTelTraceManager.create_span] (lines 93-98). *)
Definition create_span (self : t) (name : string) (attributes : option attrs) : G nat :=
  span <- Tracer.start_span (tracer self) name ;;
  (if truthy attributes then
     for_each (items attributes) (fun kv =>
       Span.set_attribute span (fst kv) (Py.VStr (Py.str (snd kv))))
   else ret tt) ;;
  ret span.

(** [segment.add_exception(e)] (line 136): [Entity.add_exception(self,
    exception, stack, remote=False)] of the X-Ray SDK has the required
    parameter [stack], to which this call binds no argument. *)
Definition add_exception_without_stack (segment : handle) (e : exn) : G unit :=
  Entity.method segment "add_exception" (fun _ =>
    x <- new_exn (OtherError "TypeError")
           "Entity.add_exception() missing 1 required positional argument: 'stack'" ;;
    raise x).

(** [OTelTraceManager.trace_operation] (lines 100-168). *)
Definition trace_operation (self : t) (name : string) (attributes : option attrs)
  : ContextManager :=
  contextlib.contextmanager
    (logging.info ;;
     logging.info ;;
     logging.info ;;
     span <- create_span self name attributes ;;
     available <- XRAY_SDK_AVAILABLE ;;
     (if (available : bool) && String.eqb name "aws_cli_command" then
        value <- getenv "AWS_XRAY_TRACING_ENABLED" "false" ;;
        let xray_enabled := String.eqb (Py.lower value) "true" in
        logging.info ;;
        if xray_enabled then
          logging.info ;;
          with_ (Recorder_cm.in_segment name) (fun segment =>
            logging.info ;;
            logging.info ;;
            Entity.put_annotation segment "operation" name ;;
            Entity.put_annotation segment "service" "aws-api-mcp-server" ;;
            (if truthy attributes then
               for_each (items attributes) (OTelTraceManager.record_attribute segment)
             else ret tt) ;;
            logging.info ;;
            try_finally
              (try_except
                 (yield_ (HSpan span))
                 isinstance_Exception
                 (fun e =>
                    logging.error ("Exception in trace operation: " +:+ msg e) ;;
                    Span.set_status span
                      {| OTel.status_code := OTel.ERROR;
                         OTel.description := Some (msg e) |} ;;
                    add_exception_without_stack segment e ;;
                    raise e))
              (Span.end_ span ;;
               sdk <- OTLPBackend.isinstance_SDKSpan span ;;
               (if (sdk : bool) then SpanCollector.add_span span else ret tt) ;;
               logging.info)) ;;
          ret tt
        else
          logging.info ;;
          try_finally
            (try_except
               (yield_ (HSpan span))
               isinstance_Exception
               (fun e =>
                  logging.error ("Exception in trace operation: " +:+ msg e) ;;
                  Span.set_status span
                    {| OTel.status_code := OTel.ERROR;
                       OTel.description := Some (msg e) |} ;;
                  raise e))
            (Span.end_ span ;;
             sdk <- OTLPBackend.isinstance_SDKSpan span ;;
             if (sdk : bool) then SpanCollector.add_span span else ret tt)
      else
        logging.info ;;
        try_finally
          (try_except
             (yield_ (HSpan span))
             isinstance_Exception
             (fun e =>
                logging.error ("Exception in trace operation: " +:+ msg e) ;;
                Span.set_status span
                  {| OTel.status_code := OTel.ERROR;
                     OTel.description := Some (msg e) |} ;;
                raise e))
          (Span.end_ span ;;
           sdk <- OTLPBackend.isinstance_SDKSpan span ;;
           if (sdk : bool) then SpanCollector.add_span span else ret tt)) ;;
     logging.info).

(** [OTelTraceManager.get_resource_spans] (lines 208-224). *)
Definition get_resource_spans (self : t) : G json :=
  w <- get ;;
  let spans_json := OTelTraceManager.span_to_otlp_json (clock w) <$> spans w in
  let result := OTLPBackend.resource_spans spans_json in
  SpanCollector.clear ;;
  ret result.

End OTelManager.

(** [otel_manager = OTelTraceManager()] *)
Definition otel_manager : G OTelManager.t := OTelManager.__init__.

(** ** Vocabulary of the further statements *)

(** A word of a command line: not empty and free of whitespace; a separator:
    not empty and made of whitespace. *)
Definition is_word (s : string) : Prop :=
  s <> EmptyString /\ Py.string_forall (fun c => PyStr.isspace c = false) s.

Definition is_separator (s : string) : Prop :=
  s <> EmptyString /\ Py.string_forall (fun c => PyStr.isspace c = true) s.

(** The keys that [_get_standard_attributes] may set, in the order in which
    it sets them. *)
Definition standard_keys : list string :=
  ["mcp.server.name"; "mcp.operation"; "mcp.tool.name"; "aws.cli.command";
   "aws.service"; "aws.operation"].

(** [type(v).__name__] *)
Definition type_name (v : Py.value) : string :=
  match v with
  | Py.VStr _ => "str"
  | Py.VInt _ => "int"
  | Py.VBool _ => "bool"
  | Py.VNone => "NoneType"
  end.

Definition is_str (v : Py.value) : bool :=
  match v with Py.VStr _ => true | _ => false end.

(** The fault of [v.split()] for a value [v] that is an [int], a [bool] or
    [None], made in the state [w]. *)
Definition no_split (v : Py.value) (w : world) : exn :=
  Exn (next_oid w) AttributeError
    ("'" +:+ type_name v +:+ "' object has no attribute 'split'").

(** The attributes of a call whose [cli_command] is made of the given
    words. *)
Definition command_attributes (operation_name cli_command : string)
    (words : list string) : attrs :=
  [("mcp.server.name", Py.VStr "aws-api-mcp-server");
   ("mcp.operation", Py.VStr operation_name);
   ("mcp.tool.name", Py.VStr "call_aws");
   ("aws.cli.command", Py.VStr cli_command)]
  ++ match words with
     | first :: service :: rest =>
         if String.eqb first "aws" then
           ("aws.service", Py.VStr service)
           :: match rest with
              | operation :: _ => [("aws.operation", Py.VStr operation)]
              | [] => []
              end
         else []
     | _ => []
     end.

(** What a [with] statement whose [__exit__] does not suppress makes of the
    result of its block. *)
Definition scope_result {A} (r : result A) : result (option A) :=
  match r with
  | Ok a => Ok (Some a)
  | Raise e => Raise e
  end.

(** The status that a span of the OTLP backend has at the end of a scope
    whose block ended with [r] and did not set the status itself. *)
Definition scope_status {A} (r : result A) : OTel.Status :=
  match r with
  | Ok _ => {| OTel.status_code := OTel.UNSET; OTel.description := None |}
  | Raise e =>
      if isinstance_Exception e then error_status e
      else {| OTel.status_code := OTel.UNSET; OTel.description := None |}
  end.

(** The attribute of a span for an attribute of a call. *)
Definition stringified (kv : string * Py.value) : string * Py.value :=
  (fst kv, Py.VStr (Py.str (snd kv))).

(** What the caller of a block traced through [TraceManager.trace] receives
    for the result [r] of the block, where [n] is the address of the exception
    that the context manager protocol makes. *)
Definition traced_result {A} (n : nat) (r : result A) : result (option A) :=
  match r with
  | Ok a => Ok (Some a)
  | Raise e =>
      if isinstance_Exception e
      then Raise (Exn n RuntimeError "generator didn't stop after throw()")
      else Raise e
  end.

(** A backend of another class, whose [create_span] fails on entry. *)
Module FailingBackend.

Inductive t := new.

Definition create_span (self : t) (name : string) (attributes : attrs) : ContextManager :=
  contextlib.contextmanager
    (e <- new_exn (OtherError "ConnectionError") "collector unreachable" ;; raise e).

Definition get_resource_spans (self : t) : G json :=
  ret (JDict [("resource", JDict []); ("scopeSpans", JList [])]).

End FailingBackend.

#[export] Instance FailingBackend_TraceBackend : TraceBackend FailingBackend.t :=
  {| create_span := FailingBackend.create_span;
     get_resource_spans := FailingBackend.get_resource_spans |}.

(** What a backend without its library answers to a call. *)
Definition idle_reply (c : call) : reply :=
  match c with
  | CreateSpan _ _ => Yielded (Some HNone)
  | GetResourceSpans => Exported (export_envelope [])
  end.

(** The states in which the block of an X-Ray scope starts: after the root
    operation opened its segment, and after another operation opened a
    subsegment under the innermost entity [top]. *)
Definition segment_entered (attributes : attrs) (w : world) : world :=
  set_xray_recorder
    {| XRay.entities := [opened_segment (next_oid w) "aws_cli_command" attributes];
       XRay.closed := XRay.closed (xray_recorder w) |}
    (set_next_oid (S (next_oid w)) w).

Definition subsegment_entered (name : string) (attributes : attrs)
    (top : XRay.Entity) (w : world) : world :=
  set_xray_recorder
    {| XRay.entities :=
         Entity.on_entity (next_oid w) (routed attributes)
           <$> (XRay.entities (xray_recorder w)
                ++ [Recorder.new_entity (next_oid w) name
                      (Some (default (XRay.id top) (XRay.parent_segment top)))]);
       XRay.closed := XRay.closed (xray_recorder w) |}
    (set_next_oid (S (next_oid w)) w).

(** The state after an entity was closed: the context holds [context], and
    [entity] was sent. *)
Definition entity_closed (context : list XRay.Entity) (entity : XRay.Entity)
    (w : world) : world :=
  set_xray_recorder
    {| XRay.entities := context;
       XRay.closed := XRay.closed (xray_recorder w) ++ [entity] |} w.

(** The subsegment that another operation opens under the segment [p]. *)
Definition opened_subsegment (ref : nat) (name : string) (p : nat)
    (attributes : attrs) : XRay.Entity :=
  routed attributes (Recorder.new_entity ref name (Some p)).

(** The switch of [otel.py]: whether [AWS_XRAY_TRACING_ENABLED] reads
    [true], in any case of the letters. *)
Definition xray_tracing_enabled (w : world) : bool :=
  String.eqb (Py.lower (default "false" (environ w !! "AWS_XRAY_TRACING_ENABLED"))) "true".

(** The manager of [otel.py] with the given exporters, constructed in [w]. *)
Definition otel_manager_with (exporters : list OTel.SpanExporter) (w : world)
  : OTelManager.t :=
  {| OTelManager.tracer_provider := {| OTel.span_processors := exporters |};
     OTelManager.tracer := {| OTel.records := sampler_records w |} |}.

(** Whether [trace_operation] wraps the scope of [name] in an X-Ray
    segment. *)
Definition xray_segment_wanted (name : string) (w : world) : bool :=
  importable w "aws_xray_sdk.core" && importable w "aws_xray_sdk.core.context"
  && String.eqb name "aws_cli_command" && xray_tracing_enabled w.

(** The state after the handler of [trace_operation] saw the fault [e] of
    the block. *)
Definition otel_failed (ref : nat) (e : exn) (w : world) : world :=
  if isinstance_Exception e then
    set_objects
      (<[ref := Span.with_status (error_status e) (objects w !!! ref)]> (objects w))
      (set_log (log w ++ [(ERROR_LEVEL, "Exception in trace operation: " +:+ msg e)]) w)
  else w.

(** The segment that [trace_operation] opens around the root operation, and
    the state in which the block of that scope starts: the span of the scope
    is at [next_oid w], the segment at the address after it. *)
Definition otel_segment (ref : nat) (name : string) (attributes : option attrs)
  : XRay.Entity :=
  routed (OTelManager.items attributes)
    (Entity.with_annotation "service" "aws-api-mcp-server"
       (Entity.with_annotation "operation" name (Recorder.new_entity ref name None))).

Definition otel_segment_entered (tracer : OTel.Tracer) (name : string)
    (attributes : option attrs) (w : world) : world :=
  set_xray_recorder
    {| XRay.entities := [otel_segment (S (next_oid w)) name attributes];
       XRay.closed := XRay.closed (xray_recorder w) |}
    (set_next_oid (S (S (next_oid w)))
       (entered tracer name (OTelManager.items attributes) w)).

(** The fault of the call [segment.add_exception(e)], made in the state
    [w]. *)
Definition missing_stack (w : world) : exn :=
  Exn (next_oid w) (OtherError "TypeError")
    "Entity.add_exception() missing 1 required positional argument: 'stack'".

(** The keyword arguments of the examples: a command of three words, and a
    command that is no string. *)
Definition list_buckets : kwargs := {[ "cli_command" := Py.VStr "aws s3 ls" ]}.

Definition numeric_command : kwargs := {[ "cli_command" := Py.VInt 7 ]}.

(** The attributes of the examples, and a function that answers the exit
    code [0] without touching the state. *)
Definition list_buckets_attributes : attrs :=
  [("mcp.server.name", Py.VStr "aws-api-mcp-server");
   ("mcp.operation", Py.VStr "call_aws");
   ("mcp.tool.name", Py.VStr "call_aws");
   ("aws.cli.command", Py.VStr "aws s3 ls");
   ("aws.service", Py.VStr "s3");
   ("aws.operation", Py.VStr "ls")].

Definition exit_code_zero (args : list Py.value) (kw : kwargs) : G Z := ret 0.

(** A state in which [otel.py] wraps the root operation in an X-Ray
    segment. *)
Definition xray_enabled : world :=
  set_environ {[ "AWS_XRAY_TRACING_ENABLED" := "True" ]} idle.

(** * Properties *)

Local Open Scope N_scope.

(** ** Digits *)

Section Digits.

Variable base : N.
Hypothesis base_ge_2 : 2 <= base.

Lemma digits_le_bound fuel n :
  Forall (fun d => d < base) (Py.digits_le base fuel n).
Proof.
  revert n. induction fuel as [|fuel IH]; intros n; simpl.
  - constructor.
  - constructor.
    + apply N.mod_lt. lia.
    + destruct (n <? base); [constructor | apply IH].
Qed.

Lemma digits_le_length fuel n (k : nat) :
  n < base ^ N.of_nat k -> (1 <= k)%nat ->
  (length (Py.digits_le base fuel n) <= k)%nat.
Proof.
  revert n k. induction fuel as [|fuel IH]; intros n k Hn Hk; simpl.
  - lia.
  - destruct (N.ltb_spec n base) as [Hlt|Hge]; simpl; [lia|].
    destruct k as [|k]; [lia|].
    destruct k as [|k].
    + simpl in Hn. rewrite N.pow_1_r in Hn. lia.
    + specialize (IH (n / base) (S k)).
      assert (n / base < base ^ N.of_nat (S k)).
      { apply N.Div0.div_lt_upper_bound.
        replace (N.of_nat (S (S k))) with (N.succ (N.of_nat (S k))) in Hn by lia.
        rewrite N.pow_succ_r' in Hn. exact Hn. }
      specialize (IH H). lia.
Qed.

Lemma digits_le_value fuel n :
  n < 2 ^ N.of_nat fuel -> Py.value_le base (Py.digits_le base fuel n) = n.
Proof.
  revert n. induction fuel as [|fuel IH]; intros n Hn.
  - simpl in *. assert (n = 0) by lia. subst. reflexivity.
  - cbn [Py.digits_le Py.value_le fold_right].
    destruct (N.ltb_spec n base) as [Hlt|Hge].
    + simpl. rewrite N.mod_small by lia. lia.
    + fold (Py.value_le base (Py.digits_le base fuel (n / base))).
      rewrite IH.
      * rewrite (N.div_mod n base) at 3 by lia. lia.
      * replace (N.of_nat (S fuel)) with (N.succ (N.of_nat fuel)) in Hn by lia.
        rewrite N.pow_succ_r' in Hn.
        apply N.Div0.div_lt_upper_bound.
        nia.
Qed.

Lemma size_nat_gt (p : positive) : N.pos p < 2 ^ N.of_nat (Pos.size_nat p).
Proof.
  induction p as [p IH|p IH|]; cbn [Pos.size_nat].
  - rewrite Nat2N.inj_succ, N.pow_succ_r'. lia.
  - rewrite Nat2N.inj_succ, N.pow_succ_r'. lia.
  - simpl. lia.
Qed.

Lemma fuel_enough n : n < 2 ^ N.of_nat (S (N.size_nat n)).
Proof.
  rewrite Nat2N.inj_succ, N.pow_succ_r'.
  destruct n as [|p]; [simpl; lia|].
  pose proof (size_nat_gt p). simpl N.size_nat. lia.
Qed.

Lemma digits_value n : Py.value_le base (rev (Py.digits base n)) = n.
Proof.
  unfold Py.digits. rewrite rev_involutive.
  apply digits_le_value, fuel_enough.
Qed.

Lemma digits_bound n : Forall (fun d => d < base) (Py.digits base n).
Proof. apply Forall_rev, digits_le_bound. Qed.

Lemma digits_length n (k : nat) :
  n < base ^ N.of_nat k -> (1 <= k)%nat -> (length (Py.digits base n) <= k)%nat.
Proof.
  intros. unfold Py.digits. rewrite length_rev. by apply digits_le_length.
Qed.

Lemma digits_nonempty n : (1 <= length (Py.digits base n))%nat.
Proof. unfold Py.digits. rewrite length_rev. simpl. lia. Qed.

Lemma value_be_rev l : Py.value_be base (rev l) 0 = Py.value_le base l.
Proof.
  induction l as [|d l IH]; [reflexivity|].
  simpl rev. unfold Py.value_be in *. rewrite fold_left_app. simpl.
  rewrite IH. lia.
Qed.

Hypothesis base_le_36 : base <= 36.

Lemma char_digit_digit_char d : d < base -> Py.char_digit (Py.digit_char d) = d.
Proof.
  intros Hd. unfold Py.char_digit, Py.digit_char.
  destruct (N.ltb_spec d 10).
  - rewrite N_ascii_embedding by lia.
    destruct (N.ltb_spec (48 + d) 58); lia.
  - rewrite N_ascii_embedding by lia.
    destruct (N.ltb_spec (87 + d) 58); lia.
Qed.

Lemma string_of_digits_length ds :
  String.length (Py.string_of_digits ds) = length ds.
Proof. induction ds as [|d ds IH]; simpl; [done | by rewrite IH]. Qed.

Lemma string_of_digits_forall ds :
  Forall (fun d => d < base) ds ->
  Py.string_forall (Py.is_digit_of base) (Py.string_of_digits ds).
Proof.
  induction 1 as [|d ds Hd _ IH]; simpl; [done|].
  split; [by exists d | exact IH].
Qed.

Lemma string_of_digits_value ds acc :
  Forall (fun d => d < base) ds ->
  Py.value_of base acc (Py.string_of_digits ds) = Py.value_be base ds acc.
Proof.
  intros H. revert acc. induction H as [|d ds Hd _ IH]; intros acc; simpl; [done|].
  rewrite char_digit_digit_char by done. apply IH.
Qed.

Lemma digits_string_value n :
  Py.value_of base 0 (Py.string_of_digits (Py.digits base n)) = n.
Proof.
  rewrite string_of_digits_value by apply digits_bound.
  rewrite <- (rev_involutive (Py.digits base n)), value_be_rev.
  apply digits_value.
Qed.

End Digits.

(** Padding *)

Lemma append_length s1 s2 :
  String.length (String.append s1 s2) = (String.length s1 + String.length s2)%nat.
Proof. induction s1 as [|c s1 IH]; simpl; [done | by rewrite IH]. Qed.

Lemma string_of_replicate_length n c :
  String.length (String.string_of_list_ascii (replicate n c)) = n.
Proof. induction n as [|n IH]; simpl; [done | by rewrite IH]. Qed.

Lemma rjust_length width c s :
  String.length (Py.rjust width c s) = Nat.max width (String.length s).
Proof.
  unfold Py.rjust. rewrite append_length, string_of_replicate_length. lia.
Qed.

Lemma rjust_forall (P : ascii -> Prop) width c s :
  P c -> Py.string_forall P s -> Py.string_forall P (Py.rjust width c s).
Proof.
  intros Hc Hs. unfold Py.rjust.
  induction (width - String.length s)%nat; simpl; auto.
Qed.

Lemma rjust_zero_value base width s :
  Py.value_of base 0 (Py.rjust width "0"%char s) = Py.value_of base 0 s.
Proof.
  unfold Py.rjust.
  induction (width - String.length s)%nat as [|k IH]; simpl; [done|].
  rewrite N.mul_0_r. exact IH.
Qed.

Lemma zero_is_digit base : 2 <= base -> Py.is_digit_of base "0"%char.
Proof. intros. exists 0. split; [lia | reflexivity]. Qed.

(** [format(n, '0<w>x')] of an [n] below [16 ^ w] has exactly [w] hexadecimal
    digits and reads back as [n]. *)
Lemma format_0x_length (width : nat) n :
  (1 <= width)%nat -> n < 16 ^ N.of_nat width ->
  String.length (Py.format_0x width n) = width.
Proof.
  intros Hw Hn. unfold Py.format_0x.
  rewrite rjust_length, string_of_digits_length.
  pose proof (digits_length 16 ltac:(lia) n width Hn Hw). lia.
Qed.

Lemma format_0x_hex width n :
  Py.string_forall (Py.is_digit_of 16) (Py.format_0x width n).
Proof.
  unfold Py.format_0x. apply rjust_forall.
  - apply zero_is_digit. lia.
  - apply string_of_digits_forall, digits_bound. lia.
Qed.

Lemma format_0x_value width n :
  Py.value_of 16 0 (Py.format_0x width n) = n.
Proof.
  unfold Py.format_0x. rewrite rjust_zero_value.
  apply digits_string_value; lia.
Qed.

Lemma str_N_decimal n : Py.string_forall (Py.is_digit_of 10) (Py.str_N n).
Proof. apply string_of_digits_forall, digits_bound. lia. Qed.

Lemma str_N_value n : Py.value_of 10 0 (Py.str_N n) = n.
Proof. apply digits_string_value; lia. Qed.



Lemma format_0x_is_hex (width : nat) n :
  (1 <= width)%nat -> n < 16 ^ N.of_nat width ->
  Py.is_hex_of width n (Py.format_0x width n).
Proof.
  intros Hw Hn. split; [by apply format_0x_length|].
  split; [apply format_0x_hex | apply format_0x_value].
Qed.

Lemma str_N_nonempty n : Py.str_N n <> EmptyString.
Proof.
  unfold Py.str_N. pose proof (digits_nonempty 10 ltac:(lia) n) as H.
  destruct (Py.digits 10 n); [simpl in H; lia | discriminate].
Qed.

(** A string of decimal digits does not start with a minus sign. *)
Lemma digits_unsigned (s : string) :
  Py.string_forall (Py.is_digit_of 10) s ->
  forall (T : Type) (a : string -> T) (b : T),
    match s with String "-" s' => a s' | _ => b end = b.
Proof.
  intros Hs T a b. destruct s as [|c s']; [reflexivity|].
  destruct Hs as [[d [Hd ->]] _].
  assert (d = 0 \/ d = 1 \/ d = 2 \/ d = 3 \/ d = 4 \/ d = 5 \/ d = 6 \/ d = 7
          \/ d = 8 \/ d = 9) as Hcases by lia.
  repeat (destruct Hcases as [->|Hcases]; [reflexivity|]). by subst.
Qed.

Lemma str_int_is_decimal z : Py.is_decimal (Py.str_int z).
Proof.
  destruct z as [|p|p]; cbn [Py.str_int].
  - unfold Py.is_decimal.
    rewrite (digits_unsigned _ (str_N_decimal _)).
    split; [apply str_N_nonempty | apply str_N_decimal].
  - unfold Py.is_decimal.
    rewrite (digits_unsigned _ (str_N_decimal _)).
    split; [apply str_N_nonempty | apply str_N_decimal].
  - cbn. split; [apply str_N_nonempty | apply str_N_decimal].
Qed.

Lemma int_of_str_int z : Py.int_of_decimal (Py.str_int z) = z.
Proof.
  destruct z as [|p|p]; cbn [Py.str_int].
  - reflexivity.
  - unfold Py.int_of_decimal. cbn [Z.to_N].
    rewrite (digits_unsigned _ (str_N_decimal _)).
    rewrite str_N_value. reflexivity.
  - cbn [Py.int_of_decimal]. rewrite str_N_value. reflexivity.
Qed.

Local Open Scope Z_scope.

(** ** Evaluation of sequenced code *)

(** One step of evaluation of a run; the lookups and updates of the maps of
    the state stay as they are written. *)
Ltac evaluate := cbn -[insert lookup lookup_total].

Ltac evaluate_to_last := cbn -[insert lookup lookup_total last].

Lemma bind_done {A B} (m : G A) (f : A -> G B) w a w' :
  m w = Done (Ok a) w' -> bind m f w = f a w'.
Proof. intros H. unfold bind. by rewrite H. Qed.

(** ** The no-op backend *)

Lemma noop_scope name attributes w :
  with_ (create_span NoOpBackend.new name attributes) (fun h => ret h) w
  = Done (Ok (Some HNone)) w.
Proof. reflexivity. Qed.

Lemma noop_caller calls w :
  caller NoOpBackend.new calls w = Done (Ok (noop_reply <$> calls)) w.
Proof.
  induction calls as [|c calls IH]; [reflexivity|].
  destruct c as [name attributes|]; cbn [caller].
  - unfold bind at 1. rewrite noop_scope. cbn [run_bind].
    unfold bind. rewrite IH. reflexivity.
  - unfold bind at 1. cbn. unfold bind. rewrite IH. reflexivity.
Qed.

(** C8: on the No-op backend every sequence of [create_span] and
    [get_resource_spans] calls yields the inert handle [None], never raises,
    leaves the state as it was, and [get_resource_spans] always answers
    [{'resource': {}, 'scopeSpans': []}]; [get_resource_spans] of the
    segment-recorder backend always answers that same structure. *)
Theorem noop_and_xray_export_nothing :
  (forall name attributes w,
      exists __exit__,
        __enter__ (create_span NoOpBackend.new name attributes) w
        = Done (Ok (HNone, __exit__)) w
        /\ forall w', __exit__ None w' = Done (Ok false) w')
  /\ (forall (self : NoOpBackend.t) w,
        get_resource_spans self w = Done (Ok empty_resource_spans) w)
  /\ (forall calls w,
        caller NoOpBackend.new calls w = Done (Ok (noop_reply <$> calls)) w)
  /\ (forall (self : XRayBackend.t) w,
        get_resource_spans self w = Done (Ok empty_resource_spans) w).
Proof.
  split; [|split; [|split]].
  - intros. eexists. split; reflexivity.
  - reflexivity.
  - apply noop_caller.
  - reflexivity.
Qed.

(** ** The OTLP backend *)

Lemma start_span_eval tracer name w :
  Tracer.start_span tracer name w
  = Done (Ok (next_oid w)) (entered tracer name [] w).
Proof. reflexivity. Qed.

Lemma for_each_set_attribute ref attributes s o w :
  for_each attributes
    (fun kv => Span.set_attribute ref (fst kv) (Py.VStr (Py.str (snd kv))))
    (set_objects (<[ref := s]> o) w)
  = Done (Ok tt) (set_objects (<[ref := with_attributes attributes s]> o) w).
Proof.
  revert s. induction attributes as [|kv attributes IH]; intros s; [reflexivity|].
  cbn [for_each]. erewrite bind_done; [apply IH|].
  unfold Span.set_attribute, Span.update, modify. cbn [objects set_objects].
  rewrite lookup_total_insert_eq, insert_insert_eq. reflexivity.
Qed.

Lemma exn_is_refl e : exn_is e e = true.
Proof. apply Nat.eqb_refl. Qed.

(** A scope of [create_span] around a body that does not yield: the span
    is finalised and appended once, and a fault of the body comes back as it
    was raised. *)
Lemma otlp_scope {A} tracer tp name attributes (body : handle -> G A) w r w2 :
  let self := {| OTLPBackend.tracer_provider := tp; OTLPBackend.tracer := Some tracer |} in
  body (HSpan (next_oid w)) (entered tracer name attributes w) = Done r w2 ->
  with_ (create_span self name attributes) body w =
    match r with
    | Ok a => Done (Ok (Some a)) (finalised (next_oid w) w2)
    | Raise e => Done (Raise e) (finalised (next_oid w) (failed (next_oid w) e w2))
    end.
Proof.
  intros self Hbody. unfold with_.
  cbn [create_span OTLPBackend_TraceBackend OTLPBackend.create_span __enter__ contextlib.contextmanager OTLPBackend.tracer self].
  unfold bind at 1.
  rewrite (bind_done _ _ _ _ _ (start_span_eval tracer name w)).
  unfold entered at 1.
  rewrite (bind_done _ _ _ _ _ (for_each_set_attribute _ _ _ _ _)).
  evaluate. fold (entered tracer name attributes w).
  rewrite Hbody.
  destruct r as [a|e]; unfold finalised, failed, error_status;
    evaluate;
    [|destruct (isinstance_Exception e)];
    evaluate; rewrite ?lookup_total_insert_eq;
    match goal with
    | |- context [OTel.is_sdk_span ?s] => destruct (OTel.is_sdk_span s) eqn:Hsdk
    end;
    evaluate; rewrite ?lookup_total_insert_eq;
    rewrite ?exn_is_refl; reflexivity.
Qed.

(** ** The X-Ray backend *)

Lemma route_id kv e : XRay.id (route kv e) = XRay.id e.
Proof. unfold route. by destruct (_ <=? _)%nat. Qed.

Lemma routed_id attributes e : XRay.id (routed attributes e) = XRay.id e.
Proof.
  revert e. induction attributes as [|kv attributes IH]; intros e; [done|].
  cbn. unfold routed in IH. by rewrite IH, route_id.
Qed.

Lemma record_attribute_eval ref kv es cl w :
  XRayBackend.record_attribute (HEntity ref) kv
    (set_xray_recorder {| XRay.entities := es; XRay.closed := cl |} w)
  = Done (Ok tt)
      (set_xray_recorder
         {| XRay.entities := Entity.on_entity ref (route kv) <$> es; XRay.closed := cl |} w).
Proof.
  destruct kv as [key value]. unfold XRayBackend.record_attribute, route, Entity.on_entity.
  cbn [fst snd]. by destruct (_ <=? _)%nat.
Qed.

Lemma for_each_record_attribute ref attributes es cl w :
  for_each attributes (XRayBackend.record_attribute (HEntity ref))
    (set_xray_recorder {| XRay.entities := es; XRay.closed := cl |} w)
  = Done (Ok tt)
      (set_xray_recorder
         {| XRay.entities := Entity.on_entity ref (routed attributes) <$> es;
            XRay.closed := cl |} w).
Proof.
  revert es. induction attributes as [|kv attributes IH]; intros es.
  - cbn [for_each]. unfold ret. do 3 f_equal.
    induction es as [|e es IHes]; [done|]. cbn. rewrite <- IHes.
    unfold Entity.on_entity. by destruct (_ =? _)%nat.
  - cbn [for_each]. erewrite bind_done by apply record_attribute_eval.
    rewrite IH. do 3 f_equal. rewrite <- list_fmap_compose.
    apply list_fmap_ext. intros _ e _. unfold Entity.on_entity. cbn.
    destruct (XRay.id e =? ref)%nat eqn:Hid.
    + by rewrite route_id, Hid.
    + by rewrite Hid.
Qed.

Lemma on_entity_same ref f e :
  XRay.id e = ref -> Entity.on_entity ref f e = f e.
Proof. intros <-. unfold Entity.on_entity. by rewrite Nat.eqb_refl. Qed.

(** Entering the scope of the root operation. *)
Lemma xray_enter_root r attributes w :
  exists __exit__,
    __enter__ (create_span {| XRayBackend.recorder := Some r |} "aws_cli_command" attributes) w
    = Done (Ok (HEntity (next_oid w), __exit__))
        (set_xray_recorder
           {| XRay.entities := [opened_segment (next_oid w) "aws_cli_command" attributes];
              XRay.closed := XRay.closed (xray_recorder w) |}
           (set_next_oid (S (next_oid w)) w)).
Proof.
  eexists. evaluate.
  erewrite bind_done by apply for_each_record_attribute.
  evaluate.
  rewrite (on_entity_same _ (Entity.with_annotation _ _)) by reflexivity.
  rewrite on_entity_same by reflexivity. reflexivity.
Qed.

(** Entering the scope of another operation. *)
Lemma xray_enter_other r name attributes w :
  name <> "aws_cli_command" ->
  match last (XRay.entities (xray_recorder w)) with
  | Some top =>
      let p := default (XRay.id top) (XRay.parent_segment top) in
      exists __exit__,
        __enter__ (create_span {| XRayBackend.recorder := Some r |} name attributes) w
        = Done (Ok (HEntity (next_oid w), __exit__))
            (set_xray_recorder
               {| XRay.entities :=
                    Entity.on_entity (next_oid w) (routed attributes)
                      <$> (XRay.entities (xray_recorder w)
                           ++ [Recorder.new_entity (next_oid w) name (Some p)]);
                  XRay.closed := XRay.closed (xray_recorder w) |}
               (set_next_oid (S (next_oid w)) w))
  | None =>
      exists __exit__,
        __enter__ (create_span {| XRayBackend.recorder := Some r |} name attributes) w
        = Done (Ok (HNone, __exit__))
            (set_log (log w ++ [(ERROR_LEVEL, "cannot find the current segment/subsegment, please make sure you have a segment open")]) w)
        /\ forall w', __exit__ None w' = Done (Ok false) w'
  end.
Proof.
  intros Hname.
  evaluate. apply String.eqb_neq in Hname. rewrite Hname.
  evaluate_to_last.
  destruct (last (XRay.entities (xray_recorder w))) as [top|] eqn:Hlast.
  - evaluate_to_last. eexists.
    destruct (XRay.parent_segment top) as [p|] eqn:Hp;
      evaluate_to_last; rewrite Hlast; evaluate_to_last; rewrite Hp;
      evaluate_to_last;
      (erewrite bind_done by apply for_each_record_attribute);
      evaluate_to_last; reflexivity.
  - evaluate_to_last. eexists. split; reflexivity.
Qed.

(** The two passes of [replace] normalise every ['.'] and ['-']. *)
Lemma clean_key_normalises key : XRayBackend.clean_key key = normalise_key key.
Proof.
  unfold XRayBackend.clean_key.
  induction key as [|c key IH]; [reflexivity|].
  cbn [Py.replace normalise_key]. rewrite IH. f_equal.
  unfold normalise_char.
  destruct (Ascii.eqb_spec c ".") as [->|Hdot]; [reflexivity|].
  destruct (Ascii.eqb_spec c "-") as [->|Hdash]; [reflexivity|].
  rewrite bool_decide_eq_false_2; [reflexivity | intros [?|?]; congruence].
Qed.

Lemma normalise_key_clean key :
  Py.string_forall (fun c => c <> "."%char /\ c <> "-"%char) (normalise_key key).
Proof.
  induction key as [|c key IH]; [exact I|].
  split; [|exact IH]. unfold normalise_char.
  case_bool_decide as H; [split; discriminate|].
  split; intros ->; apply H; auto.
Qed.

Lemma normalise_key_length key :
  String.length (normalise_key key) = String.length key.
Proof. induction key as [|c key IH]; [done|]. cbn. by rewrite IH. Qed.

Lemma routed_annotations_spec attributes e :
  XRay.annotations (routed attributes e)
  = routed_annotations attributes (XRay.annotations e).
Proof.
  revert e. induction attributes as [|kv attributes IH]; intros e; [reflexivity|].
  cbn [routed routed_annotations fold_left]. unfold routed, routed_annotations in IH.
  rewrite IH. f_equal. unfold route. rewrite clean_key_normalises.
  destruct (Nat.leb_spec (String.length (Py.str kv.2)) 50).
  - by rewrite bool_decide_eq_true_2.
  - by rewrite bool_decide_eq_false_2 by lia.
Qed.

Lemma routed_metadata_spec attributes e :
  XRay.metadata (routed attributes e)
  = routed_metadata attributes (XRay.metadata e).
Proof.
  revert e. induction attributes as [|kv attributes IH]; intros e; [reflexivity|].
  cbn [routed routed_metadata fold_left]. unfold routed, routed_metadata in IH.
  rewrite IH. f_equal. unfold route. rewrite clean_key_normalises.
  destruct (Nat.leb_spec (String.length (Py.str kv.2)) 50).
  - by rewrite bool_decide_eq_false_2 by lia.
  - by rewrite bool_decide_eq_true_2.
Qed.

Lemma routed_name attributes e : XRay.name (routed attributes e) = XRay.name e.
Proof.
  revert e. induction attributes as [|kv attributes IH]; intros e; [done|].
  cbn. unfold routed in IH. rewrite IH. unfold route. by destruct (_ <=? _)%nat.
Qed.

Lemma routed_parent attributes e :
  XRay.parent_segment (routed attributes e) = XRay.parent_segment e.
Proof.
  revert e. induction attributes as [|kv attributes IH]; intros e; [done|].
  cbn. unfold routed in IH. rewrite IH. unfold route. by destruct (_ <=? _)%nat.
Qed.

Lemma segment_open_last w :
  segment_open w <-> is_Some (last (XRay.entities (xray_recorder w))).
Proof.
  unfold segment_open, Recorder.current_segment, Recorder.get_trace_entity.
  cbn. destruct (last _) as [top|]; cbn.
  - split; [eauto|]. intros _. destruct (XRay.parent_segment top); cbn; eauto.
  - split; [intros [p Hp]; discriminate | intros [x Hx]; discriminate].
Qed.

Lemma last_fmap_snoc {A B} (f : A -> B) l x : last (f <$> (l ++ [x])) = Some (f x).
Proof. rewrite fmap_app. apply last_snoc. Qed.

Lemma length_fmap_snoc {A B} (f : A -> B) l x :
  length (f <$> (l ++ [x])) = S (length l).
Proof. rewrite length_fmap, length_app. cbn. lia. Qed.

Lemma xray_opens_subsegment r name attributes w :
  name <> "aws_cli_command" -> segment_open w ->
  opens_subsegment {| XRayBackend.recorder := Some r |} name attributes w.
Proof.
  intros Hname [top Htop]%segment_open_last.
  pose proof (xray_enter_other r name attributes w Hname) as H.
  rewrite Htop in H. cbn zeta in H. destruct H as [__exit__ H].
  eexists _, _, _. split; [exact H|].
  cbn [xray_recorder set_xray_recorder XRay.entities].
  rewrite last_fmap_snoc, length_fmap_snoc.
  rewrite on_entity_same by reflexivity.
  rewrite routed_id, routed_name, routed_annotations_spec, routed_metadata_spec.
  unfold XRay.is_subsegment. rewrite routed_parent.
  repeat split; reflexivity.
Qed.

Lemma xray_inert r name attributes w :
  name <> "aws_cli_command" -> ~ segment_open w ->
  inert_scope {| XRayBackend.recorder := Some r |} name attributes w.
Proof.
  intros Hname Hclosed.
  pose proof (xray_enter_other r name attributes w Hname) as H.
  destruct (last (XRay.entities (xray_recorder w))) as [top|] eqn:Htop.
  - exfalso. apply Hclosed, segment_open_last. eauto.
  - destruct H as (__exit__ & H & Hexit). eexists _, _. eauto.
Qed.

(** C4: on the segment-recorder backend with an available recorder, a
    [create_span] call named after the root operation always opens a new root
    segment, which replaces whatever the context held; a call with any other
    name opens a subsegment if and only if a segment is currently open, and
    otherwise yields the inert handle, raises nothing and leaves the recorder
    as it was. *)
Theorem xray_segment_nesting r name attributes w :
  let self := {| XRayBackend.recorder := Some r |} in
  (name = "aws_cli_command" ->
     exists __exit__ w',
       __enter__ (create_span self name attributes) w
       = Done (Ok (HEntity (next_oid w), __exit__)) w'
       /\ XRay.entities (xray_recorder w') = [opened_segment (next_oid w) name attributes]
       /\ XRay.id (opened_segment (next_oid w) name attributes) = next_oid w
       /\ XRay.name (opened_segment (next_oid w) name attributes) = name
       /\ XRay.is_subsegment (opened_segment (next_oid w) name attributes) = false)
  /\ (name <> "aws_cli_command" ->
        (opens_subsegment self name attributes w <-> segment_open w)
        /\ (~ segment_open w -> inert_scope self name attributes w)).
Proof.
  intros self. split.
  - intros ->. destruct (xray_enter_root r attributes w) as [__exit__ H].
    eexists _, _. split; [exact H|].
    unfold opened_segment, XRay.is_subsegment.
    rewrite routed_id, routed_name, routed_parent. repeat split.
  - intros Hname. split; [split|].
    + intros (__exit__ & w' & sub & Henter & _).
      apply segment_open_last.
      pose proof (xray_enter_other r name attributes w Hname) as H.
      destruct (last _); [eauto|].
      destruct H as (? & H & _). unfold self in Henter. rewrite H in Henter.
      discriminate.
    + by apply xray_opens_subsegment.
    + by apply xray_inert.
Qed.

(** [otel.py] routes attributes by the same code. *)
Lemma otel_record_attribute :
  OTelTraceManager.record_attribute = XRayBackend.record_attribute.
Proof. reflexivity. Qed.

(** The routing rule, attribute by attribute: the last attribute with a
    given normalised key decides what is stored under that key. *)
Lemma routed_annotations_other attributes m k :
  (forall kv, kv ∈ attributes -> normalise_key (fst kv) <> k) ->
  routed_annotations attributes m !! k = m !! k.
Proof.
  revert m. induction attributes as [|kv attributes IH]; intros m Hother; [done|].
  cbn [routed_annotations fold_left]. unfold routed_annotations in IH.
  rewrite IH by (intros; apply Hother; by right).
  case_bool_decide; [|done].
  apply lookup_insert_ne, Hother. by left.
Qed.

Lemma routed_metadata_other attributes m k :
  (forall kv, kv ∈ attributes -> normalise_key (fst kv) <> k) ->
  routed_metadata attributes m !! k = m !! k.
Proof.
  revert m. induction attributes as [|kv attributes IH]; intros m Hother; [done|].
  cbn [routed_metadata fold_left]. unfold routed_metadata in IH.
  rewrite IH by (intros; apply Hother; by right).
  case_bool_decide; [|done].
  apply lookup_insert_ne, Hother. by left.
Qed.

Lemma routed_annotations_app l1 l2 m :
  routed_annotations (l1 ++ l2) m = routed_annotations l2 (routed_annotations l1 m).
Proof. apply fold_left_app. Qed.

Lemma routed_metadata_app l1 l2 m :
  routed_metadata (l1 ++ l2) m = routed_metadata l2 (routed_metadata l1 m).
Proof. apply fold_left_app. Qed.

Lemma routed_lookup before key value after ma mm :
  (forall kv, kv ∈ after -> normalise_key (fst kv) <> normalise_key key) ->
  let attributes := before ++ (key, value) :: after in
  if bool_decide (String.length (Py.str value) <= 50)%nat
  then routed_annotations attributes ma !! normalise_key key = Some (Py.str value)
       /\ routed_metadata attributes mm !! normalise_key key
          = routed_metadata before mm !! normalise_key key
  else routed_metadata attributes mm !! normalise_key key = Some (Py.str value)
       /\ routed_annotations attributes ma !! normalise_key key
          = routed_annotations before ma !! normalise_key key.
Proof.
  intros Hafter attributes. unfold attributes.
  rewrite routed_annotations_app, routed_metadata_app.
  change ((key, value) :: after) with ([(key, value)] ++ after).
  rewrite routed_annotations_app, routed_metadata_app.
  rewrite !routed_annotations_other, !routed_metadata_other by exact Hafter.
  unfold routed_annotations, routed_metadata. cbn [fold_left fst snd].
  case_bool_decide.
  - rewrite bool_decide_eq_false_2 by lia. by rewrite lookup_insert_eq.
  - rewrite bool_decide_eq_true_2 by lia. by rewrite lookup_insert_eq.
Qed.

(** C5: on the segment-recorder backend the entity that a scope opens
    holds, for every attribute, the key with every ['.'] and ['-'] replaced by
    ['_'], among the annotations exactly when the stringified value has at
    most 50 characters and among the metadata otherwise; a value of 50
    characters is an annotation, one of 51 characters is metadata. *)
Theorem xray_attribute_routing r attributes w :
  let self := {| XRayBackend.recorder := Some r |} in
  (exists __exit__ w' segment,
     __enter__ (create_span self "aws_cli_command" attributes) w
     = Done (Ok (HEntity (next_oid w), __exit__)) w'
     /\ XRay.entities (xray_recorder w') = [segment]
     /\ XRay.annotations segment
        = routed_annotations attributes {["service" := "aws-api-mcp-server"]}
     /\ XRay.metadata segment = routed_metadata attributes ∅)
  /\ (forall name,
        name <> "aws_cli_command" -> segment_open w ->
        opens_subsegment self name attributes w)
  /\ (forall key, XRayBackend.clean_key key = normalise_key key
                  /\ String.length (normalise_key key) = String.length key
                  /\ Py.string_forall (fun c => c <> "."%char /\ c <> "-"%char)
                       (normalise_key key))
  /\ (forall before key value after ma mm,
        attributes = before ++ (key, value) :: after ->
        (forall kv, kv ∈ after -> normalise_key (fst kv) <> normalise_key key) ->
        if bool_decide (String.length (Py.str value) <= 50)%nat
        then routed_annotations attributes ma !! normalise_key key = Some (Py.str value)
             /\ routed_metadata attributes mm !! normalise_key key
                = routed_metadata before mm !! normalise_key key
        else routed_metadata attributes mm !! normalise_key key = Some (Py.str value)
             /\ routed_annotations attributes ma !! normalise_key key
                = routed_annotations before ma !! normalise_key key)
  /\ (forall key value m,
        String.length (Py.str value) = 50%nat ->
        routed_annotations [(key, value)] m = <[normalise_key key := Py.str value]> m
        /\ routed_metadata [(key, value)] m = m)
  /\ (forall key value m,
        String.length (Py.str value) = 51%nat ->
        routed_annotations [(key, value)] m = m
        /\ routed_metadata [(key, value)] m = <[normalise_key key := Py.str value]> m).
Proof.
  intros self. split; [|split; [|split; [|split; [|split]]]].
  - destruct (xray_enter_root r attributes w) as [__exit__ H].
    eexists _, _, _. split; [exact H|]. split; [reflexivity|].
    unfold opened_segment. by rewrite routed_annotations_spec, routed_metadata_spec.
  - intros. by apply xray_opens_subsegment.
  - intros key. split; [apply clean_key_normalises|].
    split; [apply normalise_key_length | apply normalise_key_clean].
  - intros before key value after ma mm -> Hafter. by apply routed_lookup.
  - intros key value m Hlen. unfold routed_annotations, routed_metadata. cbn.
    rewrite bool_decide_eq_true_2, bool_decide_eq_false_2 by lia. done.
  - intros key value m Hlen. unfold routed_annotations, routed_metadata. cbn.
    rewrite bool_decide_eq_false_2, bool_decide_eq_true_2 by lia. done.
Qed.

(** ** Export of the span buffer *)

Lemma otlp_get_resource_spans (self : OTLPBackend.t) w :
  get_resource_spans self w
  = Done (Ok (export_envelope (OTLPBackend.span_json (clock w) <$> spans w)))
      (set_spans [] w).
Proof. reflexivity. Qed.

Lemma exported_spans_envelope records :
  exported_spans (export_envelope records) = Some records.
Proof. reflexivity. Qed.

Lemma span_json_record now span :
  valid_context span -> export_record now span (OTLPBackend.span_json now span).
Proof.
  intros [Htrace Hspan]. unfold export_record, OTLPBackend.span_json.
  eexists _, _, _, _, _. split; [reflexivity|].
  split; [by apply (format_0x_is_hex 32); [lia|]|].
  split; [by apply (format_0x_is_hex 16); [lia|]|].
  split; [apply str_int_is_decimal|].
  split; [apply int_of_str_int|].
  split; [apply str_int_is_decimal|].
  rewrite int_of_str_int. reflexivity.
Qed.

(** C7: [get_resource_spans] of the OTLP backend turns every buffered span
    into a record with a 32-digit hexadecimal [traceId], a 16-digit
    hexadecimal [spanId], the name, the kind ["SPAN_KIND_INTERNAL"], the start
    and end times as decimal numerals, and the attributes as a list of
    [{key, value: {stringValue}}]; the records are nested under the fixed
    resource block and a single scope block of the same name and version. *)
Theorem otlp_export_shape (self : OTLPBackend.t) w :
  Forall valid_context (spans w) ->
  exists records,
    outcome (get_resource_spans self w) = Some (Ok (export_envelope records))
    /\ Forall2 (export_record (clock w)) (spans w) records.
Proof.
  intros Hvalid. eexists. split; [reflexivity|].
  apply Forall2_fmap_r, Forall_Forall2_diag.
  eapply Forall_impl; [exact Hvalid|]. intros span. apply span_json_record.
Qed.

Lemma started_span_valid tracer name w : valid_context (started_span tracer name w).
Proof. split; cbn; apply N.mod_lt; lia. Qed.

(** ** Scopes and exports, one after the other *)

Lemma with_attribute_sdk key v s :
  OTel.is_sdk_span (Span.with_attribute key v s) = OTel.is_sdk_span s.
Proof. unfold Span.with_attribute. by destruct (Span.is_mutable s). Qed.

Lemma with_attribute_name key v s :
  OTel.name (Span.with_attribute key v s) = OTel.name s.
Proof. unfold Span.with_attribute. by destruct (Span.is_mutable s). Qed.

Lemma with_attribute_context key v s :
  OTel.get_span_context (Span.with_attribute key v s) = OTel.get_span_context s.
Proof. unfold Span.with_attribute. by destruct (Span.is_mutable s). Qed.

Lemma with_attributes_sdk attributes s :
  OTel.is_sdk_span (with_attributes attributes s) = OTel.is_sdk_span s.
Proof.
  revert s. induction attributes as [|kv attributes IH]; intros s; [done|].
  cbn. unfold with_attributes in IH. by rewrite IH, with_attribute_sdk.
Qed.

Lemma with_attributes_name attributes s :
  OTel.name (with_attributes attributes s) = OTel.name s.
Proof.
  revert s. induction attributes as [|kv attributes IH]; intros s; [done|].
  cbn. unfold with_attributes in IH. by rewrite IH, with_attribute_name.
Qed.

Lemma with_attributes_context attributes s :
  OTel.get_span_context (with_attributes attributes s) = OTel.get_span_context s.
Proof.
  revert s. induction attributes as [|kv attributes IH]; intros s; [done|].
  cbn. unfold with_attributes in IH. by rewrite IH, with_attribute_context.
Qed.

Lemma ended_at_sdk t s : OTel.is_sdk_span (Span.ended_at t s) = OTel.is_sdk_span s.
Proof. unfold Span.ended_at. by destruct (Span.is_mutable s). Qed.

Lemma ended_at_name t s : OTel.name (Span.ended_at t s) = OTel.name s.
Proof. unfold Span.ended_at. by destruct (Span.is_mutable s). Qed.

Lemma ended_at_context t s :
  OTel.get_span_context (Span.ended_at t s) = OTel.get_span_context s.
Proof. unfold Span.ended_at. by destruct (Span.is_mutable s). Qed.

(** A scope with an empty body: the buffer grows by the span of the scope
    when the tracer records, and not at all otherwise. *)
Lemma otlp_empty_scope (self : OTLPBackend.t) name attributes w :
  exists h w' completed,
    with_ (create_span self name attributes) (fun h => ret h) w = Done (Ok (Some h)) w'
    /\ spans w' = spans w ++ completed
    /\ clock w' = clock w
    /\ OTel.name <$> completed = (if recording self then [name] else [])
    /\ Forall valid_context completed.
Proof.
  destruct self as [tp [tracer|]].
  - pose proof (otlp_scope tracer tp name attributes (fun h => ret h) w (Ok _) _
                  eq_refl) as Hscope.
    cbn zeta in Hscope.
    set (s := Span.ended_at (clock w) (with_attributes attributes (started_span tracer name w))).
    assert (OTel.is_sdk_span s = OTel.records tracer) as Hsdk
      by (unfold s; by rewrite ended_at_sdk, with_attributes_sdk).
    exists (HSpan (next_oid w)), (finalised (next_oid w) (entered tracer name attributes w)),
      (if OTel.records tracer then [s] else []).
    split; [exact Hscope|].
    unfold finalised, entered, recording.
    evaluate. rewrite lookup_total_insert_eq. fold s. rewrite Hsdk.
    destruct (OTel.records tracer); evaluate.
    + split; [reflexivity|]. split; [reflexivity|].
      unfold s. rewrite ended_at_name, with_attributes_name. split; [reflexivity|].
      repeat constructor; evaluate;
        rewrite ended_at_context, with_attributes_context; cbn; apply N.mod_lt; lia.
    + rewrite app_nil_r. repeat split; constructor.
  - exists HNone, w, []. rewrite app_nil_r. repeat split; constructor.
Qed.

Lemma received_records_yielded h replies :
  received_records (Yielded h :: replies) = received_records replies.
Proof. reflexivity. Qed.

Lemma received_records_exported records replies :
  received_records (Exported (export_envelope records) :: replies)
  = records ++ received_records replies.
Proof. reflexivity. Qed.

(** Conservation of spans: what the caller received so far, followed by
    what is still buffered, is the initial buffer followed by the spans of
    the scopes, each exactly once and in order. *)
Lemma otlp_caller (self : OTLPBackend.t) calls w :
  exists replies w' completed,
    caller self calls w = Done (Ok replies) w'
    /\ received_records replies ++ (OTLPBackend.span_json (clock w) <$> spans w')
       = OTLPBackend.span_json (clock w) <$> (spans w ++ completed)
    /\ OTel.name <$> completed = (if recording self then created_names calls else [])
    /\ clock w' = clock w.
Proof.
  revert w. induction calls as [|c calls IH]; intros w.
  - exists [], w, []. rewrite app_nil_r. split; [reflexivity|].
    split; [reflexivity|]. split; [|reflexivity]. by destruct (recording self).
  - destruct c as [name attributes|]; cbn [caller].
    + destruct (otlp_empty_scope self name attributes w)
        as (h & w1 & added & Hscope & Hspans & Hclock & Hnames & _).
      destruct (IH w1) as (replies & w' & completed & Hrun & Hrec & Hnames' & Hclock').
      exists (Yielded (Some h) :: replies), w', (added ++ completed).
      split.
      { erewrite bind_done by exact Hscope.
        erewrite bind_done by exact Hrun. reflexivity. }
      rewrite received_records_yielded. rewrite Hclock in Hrec.
      rewrite Hrec, Hspans, <- app_assoc. split; [reflexivity|].
      rewrite fmap_app, Hnames, Hnames'. split; [|congruence].
      cbn. by destruct (recording self).
    + destruct (IH (set_spans [] w))
        as (replies & w' & completed & Hrun & Hrec & Hnames' & Hclock').
      exists (Exported (export_envelope (OTLPBackend.span_json (clock w) <$> spans w))
                :: replies), w', completed.
      split.
      { erewrite bind_done by apply otlp_get_resource_spans.
        erewrite bind_done by exact Hrun. reflexivity. }
      rewrite received_records_exported, <- app_assoc.
      cbn [clock spans set_spans] in Hrec, Hclock'. rewrite Hrec.
      split; [cbn [app]; by rewrite fmap_app|]. split; [|exact Hclock'].
      rewrite Hnames'. reflexivity.
Qed.

(** The identifiers in the buffer stay within 128 and 64 bits. *)
Lemma otlp_caller_valid (self : OTLPBackend.t) calls w :
  Forall valid_context (spans w) ->
  Forall valid_context (spans (final (caller self calls w))).
Proof.
  revert w. induction calls as [|c calls IH]; intros w Hvalid; [exact Hvalid|].
  destruct c as [name attributes|]; cbn [caller].
  - destruct (otlp_empty_scope self name attributes w)
      as (h & w1 & added & Hscope & Hspans & _ & _ & Hadded).
    erewrite bind_done by exact Hscope.
    assert (Forall valid_context (spans w1)) as Hvalid1
      by (rewrite Hspans; by apply Forall_app).
    specialize (IH w1 Hvalid1).
    unfold bind. destruct (caller self calls w1) as [[replies|e] w'|]; exact IH.
  - erewrite bind_done by apply otlp_get_resource_spans.
    specialize (IH (set_spans [] w) (Forall_nil_2 _)).
    unfold bind. destruct (caller self calls (set_spans [] w)) as [[replies|e] w'|]; exact IH.
Qed.

(** C3: [get_resource_spans] of the OTLP backend empties the buffer: after
    one call the buffer is empty, a second call with no scope in between
    returns an empty span list, and over any sequence of scopes and exports
    every span is exported at most once. *)
Theorem otlp_export_drains_buffer (self : OTLPBackend.t) :
  (forall w,
      exists j w',
        get_resource_spans self w = Done (Ok j) w'
        /\ exported_spans j = Some (OTLPBackend.span_json (clock w) <$> spans w)
        /\ spans w' = [])
  /\ (forall w,
        exists j w',
          (get_resource_spans self ;; get_resource_spans self) w = Done (Ok j) w'
          /\ exported_spans j = Some []
          /\ spans w' = [])
  /\ (forall calls w,
        exists replies w' completed,
          caller self calls w = Done (Ok replies) w'
          /\ received_records replies ++ (OTLPBackend.span_json (clock w) <$> spans w')
             = OTLPBackend.span_json (clock w) <$> (spans w ++ completed)
          /\ OTel.name <$> completed
             = (if recording self then created_names calls else [])).
Proof.
  split; [|split].
  - intros w. eexists _, _. split; [apply otlp_get_resource_spans|]. by split.
  - intros w. eexists _, _. split.
    { erewrite bind_done by apply otlp_get_resource_spans.
      apply otlp_get_resource_spans. }
    by split.
  - intros calls w.
    destruct (otlp_caller self calls w) as (replies & w' & completed & H1 & H2 & H3 & _).
    eauto 10.
Qed.

(** ** The status of an exported span *)

(** C1, evaluated on the code: the record that [get_resource_spans] builds
    has the status code ["STATUS_CODE_OK"] whatever the status of the span;
    a scope that fails leaves a span of status [ERROR] in the buffer, which is
    exported as ["STATUS_CODE_OK"], where the serialiser of [otel.py] answers
    ["STATUS_CODE_ERROR"]. *)
Theorem otlp_export_ignores_status :
  (forall now span,
      exported_status_code (OTLPBackend.span_json now span) = Some "STATUS_CODE_OK")
  /\ exists span w1 j w2,
       with_ (create_span otlp_backend "op" []) (fun _ => raise (A := unit) boom) idle
       = Done (Raise boom) w1
       /\ spans w1 = [span]
       /\ OTel.status span = error_status boom
       /\ get_resource_spans otlp_backend w1 = Done (Ok j) w2
       /\ (exported_spans j ≫= fun l => l !! 0%nat ≫= exported_status_code)
          = Some "STATUS_CODE_OK"
       /\ exported_status_code (OTelTraceManager.span_to_otlp_json (clock w1) span)
          = Some "STATUS_CODE_ERROR".
Proof.
  split; [reflexivity|].
  eexists _, _, _, _.
  split; [exact (otlp_scope _ _ "op" [] (fun _ => raise boom) idle (Raise boom) _ eq_refl)|].
  split; [reflexivity|].
  split; [reflexivity|].
  split; [exact (otlp_get_resource_spans _ _)|].
  split; reflexivity.
Qed.

(** ** Faults of the traced operation *)

(** Through [TraceManager.trace] a fault of the body that is an instance of
    [Exception] is caught by the handler around the [yield], the handler
    yields a second time, and [__exit__] raises [replaced_fault]; a
    [BaseException] that is no [Exception] passes unchanged. *)
Lemma trace_noop_scope {A} operation attributes (body : handle -> G A) w r w2 :
  body HNone w = Done r w2 ->
  with_ (TraceManager.trace (TraceManager.__init__ noop_backend) operation attributes) body w =
    match r with
    | Ok a => Done (Ok (Some a)) w2
    | Raise e =>
        if isinstance_Exception e
        then Done (Raise (replaced_fault (set_log (log w2 ++ [(DEBUG, "Tracing failed for " +:+ operation +:+ ": " +:+ msg e)]) w2))) (trace_failed operation e w2)
        else Done (Raise e) w2
    end.
Proof.
  intros Hbody. unfold with_. cbn. rewrite Hbody.
  destruct r as [a|e]; cbn; [reflexivity|].
  rewrite exn_is_refl. cbn.
  destruct (isinstance_Exception e); cbn.
  - reflexivity.
  - rewrite exn_is_refl. reflexivity.
Qed.

Lemma trace_otlp_scope {A} tracer tp operation attributes (body : handle -> G A) w r w2 :
  let self := {| OTLPBackend.tracer_provider := tp; OTLPBackend.tracer := Some tracer |} in
  let ref := next_oid w in
  body (HSpan ref) (entered tracer operation attributes w) = Done r w2 ->
  with_ (TraceManager.trace (TraceManager.__init__ (OTLP self)) operation attributes) body w =
    match r with
    | Ok a => Done (Ok (Some a)) (finalised ref w2)
    | Raise e =>
        let w3 := finalised ref (failed ref e w2) in
        if isinstance_Exception e
        then Done (Raise (replaced_fault w3)) (trace_failed operation e w3)
        else Done (Raise e) w3
    end.
Proof.
  intros self ref Hbody. unfold with_.
  evaluate.
  erewrite bind_done by apply for_each_set_attribute.
  evaluate. 
  change (set_objects _ _) with (entered tracer operation attributes w).
  fold ref. rewrite Hbody.
  destruct r as [a|e]; unfold finalised, failed, error_status, trace_failed, replaced_fault;
    evaluate;
    [|destruct (isinstance_Exception e) eqn:Hexc];
    evaluate; rewrite ?lookup_total_insert_eq;
    match goal with
    | |- context [OTel.is_sdk_span ?s] => destruct (OTel.is_sdk_span s) eqn:Hsdk
    end;
    evaluate; rewrite ?lookup_total_insert_eq;
    rewrite ?exn_is_refl; evaluate; rewrite ?Hexc; 
    evaluate; rewrite ?exn_is_refl; try reflexivity.
Qed.

(** On the X-Ray backend a fault of the body is replaced as well, already by
    [create_span]. *)
Lemma xray_root_scope_fault {A} r attributes (body : handle -> G A) w e w2 :
  body (HEntity (next_oid w))
    (set_xray_recorder
       {| XRay.entities := [opened_segment (next_oid w) "aws_cli_command" attributes];
          XRay.closed := XRay.closed (xray_recorder w) |}
       (set_next_oid (S (next_oid w)) w))
  = Done (Raise e) w2 ->
  isinstance_Exception e = true ->
  exists n w',
    with_ (create_span {| XRayBackend.recorder := Some r |} "aws_cli_command" attributes)
      body w
    = Done (Raise (Exn n RuntimeError "generator didn't stop after throw()")) w'.
Proof.
  intros Hbody Hexc. unfold with_, bind.
  destruct (xray_enter_root r attributes w) as [__exit__ Henter].
  cbn -[insert last] in Henter |- *.
  erewrite bind_done in Henter |- * by apply for_each_record_attribute.
  cbn -[insert last] in Henter |- *.
  rewrite (on_entity_same _ (Entity.with_annotation _ _)) by reflexivity.
  rewrite on_entity_same by reflexivity.
  match goal with
  | |- context [body ?h ?w0] =>
      replace (body h w0) with (Done (A := A) (Raise e) w2) by (rewrite <- Hbody; reflexivity)
  end.
  evaluate_to_last.
  destruct (last _) as [top|]; evaluate_to_last; rewrite Hexc; evaluate_to_last;
    eexists _, _; reflexivity.
Qed.

(** C2, evaluated on the code: when the body of a [trace] scope raises
    [ValueError('boom')], the caller receives a [RuntimeError] made by the
    context manager protocol, on every backend, although the span or segment
    of the scope was finalised once with the fault recorded; through
    [create_span] of the OTLP backend the same fault comes back unchanged.
    On the No-op and OTLP backends, in every state, a fault of the body
    comes out of [trace] unchanged exactly when it is no instance of
    [Exception]. *)
Theorem trace_replaces_the_fault :
  outcome (failing_trace noop_backend "op")
  = Some (Raise (Exn 1 RuntimeError "generator didn't stop after throw()"))
  /\ outcome (failing_trace otlp_backend "op")
     = Some (Raise (Exn 2 RuntimeError "generator didn't stop after throw()"))
  /\ OTel.status <$> spans (final (failing_trace otlp_backend "op")) = [error_status boom]
  /\ outcome (failing_trace xray_backend "aws_cli_command")
     = Some (Raise (Exn 4 RuntimeError "generator didn't stop after throw()"))
  /\ XRay.exceptions <$> XRay.closed (xray_recorder (final (failing_trace xray_backend "aws_cli_command")))
     = [[boom]]
  /\ outcome (failing_span otlp_backend "op") = Some (Raise boom)
  /\ OTel.status <$> spans (final (failing_span otlp_backend "op")) = [error_status boom]
  /\ outcome (failing_span xray_backend "aws_cli_command")
     = Some (Raise (Exn 2 RuntimeError "generator didn't stop after throw()"))
  /\ (forall operation attributes e w,
        outcome (with_ (TraceManager.trace (TraceManager.__init__ noop_backend)
                          operation attributes)
                   (fun _ => raise (A := unit) e) w)
        = Some (Raise (if isinstance_Exception e
                       then Exn (next_oid w) RuntimeError
                              "generator didn't stop after throw()"
                       else e)))
  /\ (forall provider tracer operation attributes e w,
        outcome (with_ (TraceManager.trace
                          (TraceManager.__init__
                             (OTLP {| OTLPBackend.tracer_provider := provider;
                                      OTLPBackend.tracer := Some tracer |}))
                          operation attributes)
                   (fun _ => raise (A := unit) e) w)
        = Some (Raise (if isinstance_Exception e
                       then Exn (S (next_oid w)) RuntimeError
                              "generator didn't stop after throw()"
                       else e))).
Proof.
  repeat match goal with |- _ /\ _ => split end;
    try (vm_compute; reflexivity).
  - intros operation attributes e w.
    rewrite (trace_noop_scope operation attributes (fun _ => raise e) w (Raise e) w eq_refl).
    by destruct (isinstance_Exception e).
  - intros provider tracer operation attributes e w.
    rewrite (trace_otlp_scope tracer provider operation attributes (fun _ => raise e) w
               (Raise e) _ eq_refl).
    cbn zeta. unfold finalised, failed, replaced_fault.
    destruct (isinstance_Exception e); evaluate.
    + match goal with
      | |- context [OTel.is_sdk_span ?s] => destruct (OTel.is_sdk_span s)
      end; reflexivity.
    + reflexivity.
Qed.

(** ** Construction of the backends *)

Lemma otlp_init_installed w :
  otel_installed w = true ->
  OTLPBackend.__init__ w =
    match exporter_failure w (otlp_endpoint w) with
    | None =>
        Done (Ok {| OTLPBackend.tracer_provider :=
                      Some {| OTel.span_processors :=
                                [OTel.ConsoleSpanExporter;
                                 OTel.OTLPSpanExporter (otlp_endpoint w)] |};
                    OTLPBackend.tracer := Some {| OTel.records := sampler_records w |} |})
          (set_spans [] w)
    | Some (c, m) =>
        if is_Exception c
        then Done (Ok {| OTLPBackend.tracer_provider :=
                           Some {| OTel.span_processors := [OTel.ConsoleSpanExporter] |};
                         OTLPBackend.tracer :=
                           Some {| OTel.records := sampler_records w |} |})
               (set_next_oid (S (next_oid w)) (set_spans [] w))
        else Done (Raise (Exn (next_oid w) c m))
               (set_next_oid (S (next_oid w)) (set_spans [] w))
    end.
Proof.
  unfold otel_installed. intros H.
  apply andb_prop in H as [H H4]. apply andb_prop in H as [H H3].
  apply andb_prop in H as [H1 H2].
  unfold OTLPBackend.__init__, import_. evaluate.
  rewrite H1. evaluate. rewrite H2. evaluate. rewrite H3. evaluate.
  rewrite H4. evaluate. fold (otlp_endpoint w).
  destruct (exporter_failure w (otlp_endpoint w)) as [[c m]|]; evaluate; [|reflexivity].
  unfold isinstance_Exception. evaluate.
  destruct (is_Exception c) eqn:Hc; evaluate.
  - reflexivity.
  - destruct c; try discriminate Hc; reflexivity.
Qed.

Lemma otlp_init_missing w :
  otel_installed w = false ->
  exists w',
    OTLPBackend.__init__ w
    = Done (Ok {| OTLPBackend.tracer_provider := None; OTLPBackend.tracer := None |}) w'
    /\ spans w' = [].
Proof.
  unfold otel_installed. intros H.
  unfold OTLPBackend.__init__, import_. evaluate.
  destruct (importable w "opentelemetry"); evaluate; [|eauto].
  destruct (importable w "opentelemetry.exporter.otlp.proto.grpc.trace_exporter");
    evaluate; [|eauto].
  destruct (importable w "opentelemetry.sdk.trace"); evaluate; [|eauto].
  destruct (importable w "opentelemetry.sdk.trace.export"); evaluate; [|eauto].
  discriminate.
Qed.

(** C9, amended: the construction of the OTLP backend does not fail when
    the network exporter can be built or fails with an [Exception]; where the
    OpenTelemetry packages are installed the console exporter is attached,
    followed by the network exporter towards the configured endpoint (default
    [http://localhost:4317]) unless its construction failed; where they are
    not installed the backend is constructed with no exporter and no
    tracer. *)
Theorem otlp_construction w :
  exporter_fails_softly w ->
  exists self w',
    constructs w self w'
    /\ spans w' = []
    /\ (otel_installed w = true ->
          exporters self
          = OTel.ConsoleSpanExporter ::
            match exporter_failure w (otlp_endpoint w) with
            | None => [OTel.OTLPSpanExporter (otlp_endpoint w)]
            | Some _ => []
            end
          /\ OTLPBackend.tracer self = Some {| OTel.records := sampler_records w |})
    /\ (otel_installed w = false ->
          exporters self = [] /\ OTLPBackend.tracer self = None).
Proof.
  unfold exporter_fails_softly, constructs. intros Hsoft.
  destruct (otel_installed w) eqn:Hinst.
  - rewrite (otlp_init_installed w Hinst).
    destruct (exporter_failure w (otlp_endpoint w)) as [[c m]|].
    + rewrite Hsoft. eexists _, _. split; [reflexivity|]. split; [reflexivity|].
      split; [intros _; by split | discriminate].
    + eexists _, _. split; [reflexivity|]. split; [reflexivity|].
      split; [intros _; by split | discriminate].
  - destruct (otlp_init_missing w Hinst) as (w' & Hrun & Hspans).
    eexists _, _. split; [exact Hrun|]. split; [exact Hspans|].
    split; [discriminate | intros _; by split].
Qed.

(** C9 as stated fails where the OpenTelemetry packages are missing: the
    backend is constructed, with no exporter at all. *)
Lemma console_exporter_not_always_attached :
  ~ (exists self w',
        constructs bare self w' /\ OTel.ConsoleSpanExporter ∈ exporters self).
Proof.
  intros (self & w' & Hrun & Hin).
  destruct (otlp_init_missing bare eq_refl) as (w'' & Hrun' & _).
  unfold constructs in Hrun. rewrite Hrun' in Hrun.
  injection Hrun as <- _. by apply elem_of_nil in Hin.
Qed.

(** [except Exception] lets a [BaseException] of the exporter through: the
    hypothesis on the exporter cannot be dropped. *)
Lemma interrupt_escapes_construction :
  outcome (OTLPBackend.__init__ interrupted) = Some (Raise (Exn 1 KeyboardInterrupt "")).
Proof. reflexivity. Qed.

Lemma xray_init w :
  exists w',
    XRayBackend.__init__ w
    = Done (Ok {| XRayBackend.recorder :=
                    if importable w "aws_xray_sdk.core"
                    then Some XRayBackend.xray_recorder_ref else None |}) w'.
Proof.
  unfold XRayBackend.__init__, import_. cbn.
  destruct (importable w "aws_xray_sdk.core"); cbn; eauto.
Qed.

(** ** Selection of the backend *)

Lemma get_trace_backend_eval w :
  get_trace_backend w =
    if String.eqb (Py.lower (backend_setting w)) "otlp"
    then (b <- OTLPBackend.__init__ ;; ret (OTLP b)) w
    else if String.eqb (Py.lower (backend_setting w)) "xray"
    then (b <- XRayBackend.__init__ ;; ret (XRay b)) w
    else Done (Ok noop_backend) w.
Proof.
  unfold get_trace_backend, getenv, backend_setting. cbn -[lookup Py.lower String.eqb].
  destruct (String.eqb _ "otlp"); [reflexivity|].
  destruct (String.eqb _ "xray"); reflexivity.
Qed.

Lemma lower_char_idempotent c : Py.lower_char (Py.lower_char c) = Py.lower_char c.
Proof. destruct c as [[] [] [] [] [] [] [] []]; vm_compute; reflexivity. Qed.

Lemma lower_idempotent s : Py.lower (Py.lower s) = Py.lower s.
Proof.
  induction s as [|c s IH]; [reflexivity|].
  cbn. by rewrite IH, lower_char_idempotent.
Qed.

Lemma backend_setting_configured value w : backend_setting (configured value w) = value.
Proof. unfold backend_setting, configured. evaluate. by rewrite lookup_insert_eq. Qed.

Lemma otlp_endpoint_configured value w : otlp_endpoint (configured value w) = otlp_endpoint w.
Proof.
  unfold otlp_endpoint, configured. cbn -[lookup insert].
  by rewrite lookup_insert_ne.
Qed.

(** The construction of a backend does not read the backend setting. *)
Lemma otlp_init_configured value w :
  outcome (OTLPBackend.__init__ (configured value w)) = outcome (OTLPBackend.__init__ w).
Proof.
  destruct (otel_installed w) eqn:Hinst.
  - rewrite (otlp_init_installed w Hinst), (otlp_init_installed (configured value w) Hinst).
    rewrite otlp_endpoint_configured.
    change (exporter_failure (configured value w)) with (exporter_failure w).
    destruct (exporter_failure w (otlp_endpoint w)) as [[c m]|]; [|reflexivity].
    destruct (is_Exception c); reflexivity.
  - destruct (otlp_init_missing w Hinst) as (w1 & -> & _).
    destruct (otlp_init_missing (configured value w) Hinst) as (w2 & -> & _).
    reflexivity.
Qed.

Lemma xray_init_configured value w :
  outcome (XRayBackend.__init__ (configured value w)) = outcome (XRayBackend.__init__ w).
Proof.
  destruct (xray_init w) as (w1 & ->). destruct (xray_init (configured value w)) as (w2 & ->).
  reflexivity.
Qed.

Lemma outcome_bind_ret {A B} (m : G A) (f : A -> B) w :
  is_Some (outcome (m w)) ->
  outcome ((b <- m ;; ret (f b)) w)
  = (fun r => match r with Ok b => Ok (f b) | Raise e => Raise e end) <$> outcome (m w).
Proof.
  unfold bind. destruct (m w) as [[b|e] w'|]; cbn; [reflexivity..|].
  intros [? ?]; discriminate.
Qed.

Lemma otlp_init_done w : is_Some (outcome (OTLPBackend.__init__ w)).
Proof.
  destruct (otel_installed w) eqn:Hinst.
  - rewrite (otlp_init_installed w Hinst).
    destruct (exporter_failure w (otlp_endpoint w)) as [[c m]|]; [|by eexists].
    destruct (is_Exception c); by eexists.
  - destruct (otlp_init_missing w Hinst) as (w1 & -> & _). by eexists.
Qed.

Lemma xray_init_done w : is_Some (outcome (XRayBackend.__init__ w)).
Proof. destruct (xray_init w) as (w1 & ->). by eexists. Qed.

(** C10: the selection of the backend ignores case: a value and its
    lower-case form select the same backend; ['OTLP'] selects the OTLP
    backend and ['XRay'] the segment-recorder backend. *)
Theorem backend_selection_ignores_case :
  (forall value w,
      outcome (get_trace_backend (configured value w))
      = outcome (get_trace_backend (configured (Py.lower value) w)))
  /\ (exists self w',
        get_trace_backend (configured "OTLP" idle) = Done (Ok (OTLP self)) w')
  /\ (exists self w',
        get_trace_backend (configured "XRay" idle) = Done (Ok (XRay self)) w').
Proof.
  split; [|split].
  - intros value w. rewrite !get_trace_backend_eval, !backend_setting_configured.
    rewrite lower_idempotent.
    destruct (String.eqb (Py.lower value) "otlp").
    { rewrite !outcome_bind_ret by apply otlp_init_done.
      by rewrite !otlp_init_configured. }
    destruct (String.eqb (Py.lower value) "xray"); [|reflexivity].
    rewrite !outcome_bind_ret by apply xray_init_done.
    by rewrite !xray_init_configured.
  - eexists _, _. vm_compute. reflexivity.
  - eexists _, _. vm_compute. reflexivity.
Qed.

(** ** A change of the backend setting and the code of a scope

    The code that runs inside a scope never reads
    [AWS_MCP_TRACING_BACKEND]: started in a state where the setting was
    changed, it goes in step with its run from the state itself. *)
Section Setting.

Variable value : string.

Local Abbreviation steady := (unaffected (configured value)).
Local Abbreviation alike := (in_step (configured value)).

Lemma in_step_done {A} (r : result A) w w1 :
  w1 = configured value w -> alike eq (Done r w) (Done r w1).
Proof. intros ->. destruct r; by constructor. Qed.

Lemma in_step_run_bind {A B} (R : A -> A -> Prop) (S : B -> B -> Prop) (r r' : run A)
    (g g' : result A -> G B) :
  alike R r r' ->
  (forall a a', R a a' -> steady S (g (Ok a)) (g' (Ok a'))) ->
  (forall e, steady S (g (Raise e)) (g' (Raise e))) ->
  alike S (run_bind r g) (run_bind r' g').
Proof.
  intros Hr Hok Hraise.
  induction Hr as [a a' w Ha|e w|y w k k' _ IH]; cbn [run_bind].
  - by apply Hok.
  - apply Hraise.
  - constructor. exact IH.
Qed.

Lemma steady_ret {A} (a : A) : steady eq (ret a) (ret a).
Proof. intros w. by constructor. Qed.

Lemma steady_raise {A} (S : A -> A -> Prop) e : steady S (raise e) (raise e).
Proof. intros w. constructor. Qed.

Lemma steady_bind {A B} (S : B -> B -> Prop) (m m' : G A) (g g' : A -> G B) :
  steady eq m m' ->
  (forall a, steady S (g a) (g' a)) ->
  steady S (bind m g) (bind m' g').
Proof.
  intros Hm Hg w. unfold bind. apply (in_step_run_bind eq).
  - apply Hm.
  - intros a _ <-. apply Hg.
  - intros e. apply steady_raise.
Qed.

Lemma steady_try_except {A} (body body' : G A) matches (handler handler' : exn -> G A) :
  steady eq body body' ->
  (forall e, steady eq (handler e) (handler' e)) ->
  steady eq (try_except body matches handler) (try_except body' matches handler').
Proof.
  intros Hbody Hhandler w. unfold try_except. apply (in_step_run_bind eq).
  - apply Hbody.
  - intros a _ <-. apply steady_ret.
  - intros e. destruct (matches e); [apply Hhandler | apply steady_raise].
Qed.

Lemma steady_try_finally {A} (body body' : G A) (final final' : G unit) :
  steady eq body body' ->
  steady eq final final' ->
  steady eq (try_finally body final) (try_finally body' final').
Proof.
  intros Hbody Hfinal w. unfold try_finally. apply (in_step_run_bind eq).
  - apply Hbody.
  - intros a _ <-. apply steady_bind; [exact Hfinal | intros _; apply steady_ret].
  - intros e. apply steady_bind; [exact Hfinal | intros _; apply steady_raise].
Qed.

Lemma steady_yield y : steady eq (yield_ y) (yield_ y).
Proof. intros w. constructor. intros [|e] w'; by constructor. Qed.

(** Code that reads the state through [get] is unaffected when what it does
    with the state is. *)
Lemma steady_get {A} (S : A -> A -> Prop) (g g' : world -> G A) :
  (forall w, steady S (g w) (g' (configured value w))) ->
  steady S (bind get g) (bind get g').
Proof. intros Hg w. apply Hg. Qed.

Lemma steady_modify (g : world -> world) :
  (forall w, g (configured value w) = configured value (g w)) ->
  steady eq (modify g) (modify g).
Proof. intros Hg w. unfold modify. rewrite Hg. by constructor. Qed.

Lemma steady_alloc : steady eq alloc alloc.
Proof. intros w. exact (in_step_done _ _ _ eq_refl). Qed.

Lemma steady_new_exn c m : steady eq (new_exn c m) (new_exn c m).
Proof. intros w. exact (in_step_done _ _ _ eq_refl). Qed.

Lemma steady_logger level m : steady eq (logger level m) (logger level m).
Proof. by apply steady_modify. Qed.

Lemma steady_time_ns : steady eq time_ns time_ns.
Proof. intros w. exact (in_step_done _ _ _ eq_refl). Qed.

Lemma steady_getrandbits k : steady eq (getrandbits k) (getrandbits k).
Proof. intros w. exact (in_step_done _ _ _ eq_refl). Qed.

Lemma steady_for_each {A} (l : list A) (body : A -> G unit) :
  (forall x, steady eq (body x) (body x)) ->
  steady eq (for_each l body) (for_each l body).
Proof.
  intros Hbody. induction l as [|x l IH]; cbn [for_each].
  - apply steady_ret.
  - apply steady_bind; [apply Hbody | intros _; exact IH].
Qed.

(** What can be observed of two runs in step: the same outcome, in states
    that differ by the setting alone. *)
Lemma in_step_observed {A} (r r' : run A) :
  alike eq r r' ->
  outcome r' = outcome r /\ final r' = configured value (final r).
Proof. intros [a a' w <-|e w|y w k k' _]; split; reflexivity. Qed.

(** *** Context managers *)

Lemma steady_with {A} cm cm' (suite suite' : handle -> G A) :
  unaffected (configured value) (same_scope (configured value))
    (__enter__ cm) (__enter__ cm') ->
  (forall h, steady eq (suite h) (suite' h)) ->
  steady eq (with_ cm suite) (with_ cm' suite').
Proof.
  intros Henter Hsuite w. unfold with_, bind at 1 4.
  apply (in_step_run_bind (same_scope (configured value))).
  - apply Henter.
  - intros [h ex] [h' ex'] [Hh Hex]. cbn in Hh, Hex. subst h'.
    intros w'. apply (in_step_run_bind eq).
    + apply Hsuite.
    + intros a _ <-. apply steady_bind; [apply Hex | intros _; apply steady_ret].
    + intros e. apply steady_bind; [apply Hex|].
      intros [|]; [apply steady_ret | apply steady_raise].
  - intros e. apply steady_raise.
Qed.

Lemma steady_close (gen gen' : resume -> G unit) :
  (forall rs, steady eq (gen rs) (gen' rs)) ->
  steady eq (contextlib.close gen) (contextlib.close gen').
Proof.
  intros Hgen. unfold contextlib.close.
  apply steady_bind; [apply steady_new_exn|].
  intros ge w. generalize (Hgen (Throw ge) w).
  generalize (gen (Throw ge) w) (gen' (Throw ge) (configured value w)).
  intros r r' Hr. destruct Hr as [[] a' w0 _|e w0|y w0 k k' _].
  - by constructor.
  - destruct (cls e); by constructor.
  - exact (in_step_done _ _ _ eq_refl).
Qed.

Lemma steady_generator_exit (gen gen' : resume -> G unit) exc :
  (forall rs, steady eq (gen rs) (gen' rs)) ->
  steady eq (contextlib.generator_exit gen exc) (contextlib.generator_exit gen' exc).
Proof.
  intros Hgen w. unfold contextlib.generator_exit.
  destruct exc as [x|].
  - generalize (Hgen (Throw x) w).
    generalize (gen (Throw x) w) (gen' (Throw x) (configured value w)).
    intros r r' Hr. destruct Hr as [[] a' w0 _|e w0|y w0 k k' Hk].
    + by constructor.
    + destruct (exn_is e x); by constructor.
    + apply steady_bind; [apply steady_new_exn|]. intros e.
      apply steady_try_finally; [apply steady_raise|].
      apply steady_close. exact Hk.
  - generalize (Hgen Next w).
    generalize (gen Next w) (gen' Next (configured value w)).
    intros r r' Hr. destruct Hr as [[] a' w0 _|e w0|y w0 k k' Hk].
    + by constructor.
    + by constructor.
    + apply steady_bind; [apply steady_new_exn|]. intros e.
      apply steady_try_finally; [apply steady_raise|].
      apply steady_close. exact Hk.
Qed.

Lemma steady_contextmanager (body body' : G unit) :
  steady eq body body' ->
  unaffected (configured value) (same_scope (configured value))
    (__enter__ (contextlib.contextmanager body))
    (__enter__ (contextlib.contextmanager body')).
Proof.
  intros Hbody w. cbn [__enter__ contextlib.contextmanager].
  generalize (Hbody w). generalize (body w) (body' (configured value w)).
  intros r r' Hr. destruct Hr as [[] a' w0 _|e w0|y w0 k k' Hk].
  - exact (in_step_raise _ _ _ _).
  - constructor.
  - constructor. split; [reflexivity|].
    intros exc. cbn [snd]. apply steady_generator_exit. exact Hk.
Qed.

(** *** The SDKs *)

Lemma steady_span_update ref g : steady eq (Span.update ref g) (Span.update ref g).
Proof. by apply steady_modify. Qed.

Lemma steady_span_end ref : steady eq (Span.end_ ref) (Span.end_ ref).
Proof.
  apply steady_bind; [apply steady_time_ns | intros t; apply steady_span_update].
Qed.

Lemma steady_start_span tracer name :
  steady eq (Tracer.start_span tracer name) (Tracer.start_span tracer name).
Proof.
  unfold Tracer.start_span.
  apply steady_bind; [apply steady_getrandbits | intros trace_id].
  apply steady_bind; [apply steady_getrandbits | intros span_id].
  apply steady_bind; [apply steady_time_ns | intros t].
  apply steady_bind; [apply steady_alloc | intros ref].
  apply steady_bind; [by apply steady_modify | intros _; apply steady_ret].
Qed.

Lemma steady_recorder_update g : steady eq (Recorder.update g) (Recorder.update g).
Proof. by apply steady_modify. Qed.

Lemma steady_get_trace_entity :
  steady eq Recorder.get_trace_entity Recorder.get_trace_entity.
Proof.
  apply steady_get. intros w. cbn -[last].
  destruct (last (XRay.entities (xray_recorder w))); [apply steady_ret|].
  apply steady_bind; [apply steady_logger | intros _; apply steady_ret].
Qed.

Lemma steady_current_segment :
  steady eq Recorder.current_segment Recorder.current_segment.
Proof.
  apply steady_bind; [apply steady_get_trace_entity|].
  intros [e|]; [|apply steady_ret].
  destruct (XRay.parent_segment e); apply steady_ret.
Qed.

Lemma steady_begin_segment name :
  steady eq (Recorder.begin_segment name) (Recorder.begin_segment name).
Proof.
  apply steady_bind; [apply steady_alloc | intros ref].
  apply steady_bind; [apply steady_recorder_update | intros _; apply steady_ret].
Qed.

Lemma steady_end_segment : steady eq Recorder.end_segment Recorder.end_segment.
Proof.
  apply steady_bind; [apply steady_get_trace_entity|].
  intros [e|]; [apply steady_recorder_update | apply steady_logger].
Qed.

Lemma steady_begin_subsegment name :
  steady eq (Recorder.begin_subsegment name) (Recorder.begin_subsegment name).
Proof.
  apply steady_bind; [apply steady_current_segment|].
  intros [|ref|p].
  1, 2: apply steady_bind; [apply steady_logger | intros _; apply steady_ret].
  apply steady_bind; [apply steady_alloc | intros ref].
  apply steady_bind; [apply steady_recorder_update | intros _; apply steady_ret].
Qed.

Lemma steady_end_subsegment : steady eq Recorder.end_subsegment Recorder.end_subsegment.
Proof.
  apply steady_bind; [apply steady_get_trace_entity|].
  intros [e|]; [|apply steady_logger].
  destruct (XRay.is_subsegment e); [apply steady_recorder_update | apply steady_logger].
Qed.

Lemma steady_method h attr (call : nat -> G unit) :
  (forall ref, steady eq (call ref) (call ref)) ->
  steady eq (Entity.method h attr call) (Entity.method h attr call).
Proof.
  intros Hcall. destruct h as [|ref|ref]; cbn [Entity.method].
  1, 2: apply steady_bind; [apply steady_new_exn | intros e; apply steady_raise].
  apply Hcall.
Qed.

Lemma steady_put_annotation h key v :
  steady eq (Entity.put_annotation h key v) (Entity.put_annotation h key v).
Proof. apply steady_method. intros ref. apply steady_recorder_update. Qed.

Lemma steady_put_metadata h key v :
  steady eq (Entity.put_metadata h key v) (Entity.put_metadata h key v).
Proof. apply steady_method. intros ref. apply steady_recorder_update. Qed.

Lemma steady_add_exception h x :
  steady eq (Entity.add_exception h x) (Entity.add_exception h x).
Proof. apply steady_method. intros ref. apply steady_recorder_update. Qed.

Lemma steady_segment_exit segment exc :
  steady eq (Recorder_cm.segment_exit segment exc) (Recorder_cm.segment_exit segment exc).
Proof.
  assert (steady eq
            (match exc with Some e => Entity.add_exception segment e | None => ret tt end)
            (match exc with Some e => Entity.add_exception segment e | None => ret tt end))
    as Hexc by (destruct exc; [apply steady_add_exception | apply steady_ret]).
  destruct segment as [|ref|ref]; cbn [Recorder_cm.segment_exit]; [apply steady_ret| |].
  all: apply steady_bind; [exact Hexc | intros _].
  all: apply steady_bind; [apply steady_end_segment | intros _; apply steady_ret].
Qed.

Lemma steady_subsegment_exit subsegment exc :
  steady eq (Recorder_cm.subsegment_exit subsegment exc)
    (Recorder_cm.subsegment_exit subsegment exc).
Proof.
  assert (steady eq
            (match exc with Some e => Entity.add_exception subsegment e | None => ret tt end)
            (match exc with Some e => Entity.add_exception subsegment e | None => ret tt end))
    as Hexc by (destruct exc; [apply steady_add_exception | apply steady_ret]).
  destruct subsegment as [|ref|ref]; cbn [Recorder_cm.subsegment_exit]; [apply steady_ret| |].
  all: apply steady_bind; [exact Hexc | intros _].
  all: apply steady_bind; [apply steady_end_subsegment | intros _; apply steady_ret].
Qed.

Lemma steady_entered {A} (m : G A) (scope : A -> handle * (option exn -> G bool)) :
  steady eq m m ->
  (forall a exc, steady eq (snd (scope a) exc) (snd (scope a) exc)) ->
  unaffected (configured value) (same_scope (configured value))
    (a <- m ;; ret (scope a)) (a <- m ;; ret (scope a)).
Proof.
  intros Hm Hscope. apply steady_bind; [exact Hm|].
  intros a w. constructor. split; [reflexivity | apply Hscope].
Qed.

Lemma steady_in_segment name :
  unaffected (configured value) (same_scope (configured value))
    (__enter__ (Recorder_cm.in_segment name)) (__enter__ (Recorder_cm.in_segment name)).
Proof.
  apply (steady_entered _ (fun segment => (segment, Recorder_cm.segment_exit segment))).
  - apply steady_begin_segment.
  - intros segment exc. apply steady_segment_exit.
Qed.

Lemma steady_in_subsegment name :
  unaffected (configured value) (same_scope (configured value))
    (__enter__ (Recorder_cm.in_subsegment name))
    (__enter__ (Recorder_cm.in_subsegment name)).
Proof.
  apply (steady_entered _
           (fun subsegment => (subsegment, Recorder_cm.subsegment_exit subsegment))).
  - apply steady_begin_subsegment.
  - intros subsegment exc. apply steady_subsegment_exit.
Qed.

(** *** The backends and the manager *)

Lemma steady_noop_create_span self name attributes :
  unaffected (configured value) (same_scope (configured value))
    (__enter__ (NoOpBackend.create_span self name attributes))
    (__enter__ (NoOpBackend.create_span self name attributes)).
Proof. apply steady_contextmanager, steady_yield. Qed.

Lemma steady_isinstance_SDKSpan span :
  steady eq (OTLPBackend.isinstance_SDKSpan span) (OTLPBackend.isinstance_SDKSpan span).
Proof. intros w. exact (in_step_done _ _ _ eq_refl). Qed.

Lemma steady_otlp_create_span self name attributes :
  unaffected (configured value) (same_scope (configured value))
    (__enter__ (OTLPBackend.create_span self name attributes))
    (__enter__ (OTLPBackend.create_span self name attributes)).
Proof.
  apply steady_contextmanager.
  destruct (OTLPBackend.tracer self) as [tracer|]; [|apply steady_yield].
  apply steady_bind; [apply steady_start_span | intros span].
  apply steady_bind; [apply steady_for_each; intros kv; apply steady_span_update | intros _].
  apply steady_try_finally.
  - apply steady_try_except; [apply steady_yield | intros e].
    apply steady_bind; [apply steady_span_update | intros _; apply steady_raise].
  - apply steady_bind; [apply steady_span_end | intros _].
    apply steady_bind; [apply steady_isinstance_SDKSpan|].
    intros [|]; [by apply steady_modify | apply steady_ret].
Qed.

Lemma steady_record_attribute entity kv :
  steady eq (XRayBackend.record_attribute entity kv)
    (XRayBackend.record_attribute entity kv).
Proof.
  destruct kv as [key v]. cbn [XRayBackend.record_attribute].
  destruct (String.length (Py.str v) <=? 50)%nat;
    [apply steady_put_annotation | apply steady_put_metadata].
Qed.

Lemma steady_xray_create_span self name attributes :
  unaffected (configured value) (same_scope (configured value))
    (__enter__ (XRayBackend.create_span self name attributes))
    (__enter__ (XRayBackend.create_span self name attributes)).
Proof.
  apply steady_contextmanager.
  destruct (XRayBackend.recorder self) as [recorder|]; [|apply steady_yield].
  destruct (String.eqb name "aws_cli_command").
  - apply steady_try_except.
    + apply steady_bind; [|intros _; apply steady_ret].
      apply steady_with; [apply steady_in_segment | intros segment].
      apply steady_bind; [apply steady_put_annotation | intros _].
      apply steady_bind; [|intros _; apply steady_yield].
      apply steady_for_each. intros kv. apply steady_record_attribute.
    + intros e. apply steady_bind; [apply steady_logger | intros _; apply steady_yield].
  - apply steady_try_except.
    + apply steady_bind; [apply steady_current_segment | intros current_segment].
      destruct (XRayBackend.truthy current_segment); [|apply steady_yield].
      apply steady_bind; [|intros _; apply steady_ret].
      apply steady_with; [apply steady_in_subsegment | intros subsegment].
      apply steady_bind; [|intros _; apply steady_yield].
      apply steady_for_each. intros kv. apply steady_record_attribute.
    + intros e. apply steady_bind; [apply steady_logger | intros _; apply steady_yield].
Qed.

Lemma steady_create_span (backend : Backend) name attributes :
  unaffected (configured value) (same_scope (configured value))
    (__enter__ (create_span backend name attributes))
    (__enter__ (create_span backend name attributes)).
Proof.
  destruct backend as [b|b|b].
  - apply steady_noop_create_span.
  - apply steady_otlp_create_span.
  - apply steady_xray_create_span.
Qed.

Lemma steady_trace (self : TraceManager.t) operation attributes :
  unaffected (configured value) (same_scope (configured value))
    (__enter__ (TraceManager.trace self operation attributes))
    (__enter__ (TraceManager.trace self operation attributes)).
Proof.
  apply steady_contextmanager, steady_try_except.
  - apply steady_bind; [|intros _; apply steady_ret].
    apply steady_with; [apply steady_create_span | intros span; apply steady_yield].
  - intros e. apply steady_bind; [apply steady_logger | intros _; apply steady_yield].
Qed.

(** A whole [with] statement on a scope of the manager, for a block that is
    itself unaffected. *)
Lemma steady_traced_block {A} (self : TraceManager.t) operation attributes
    (block : handle -> G A) :
  (forall h, steady eq (block h) (block h)) ->
  steady eq (with_ (TraceManager.trace self operation attributes) block)
    (with_ (TraceManager.trace self operation attributes) block).
Proof. intros Hblock. apply steady_with; [apply steady_trace | exact Hblock]. Qed.

End Setting.

Lemma get_resource_spans_configured (m : TraceManager.t) value w :
  outcome (TraceManager.get_resource_spans m (configured value w))
  = outcome (TraceManager.get_resource_spans m w)
  /\ final (TraceManager.get_resource_spans m (configured value w))
     = configured value (final (TraceManager.get_resource_spans m w)).
Proof. destruct m as [[b|b|b]]; split; reflexivity. Qed.

(** C6, amended: the factory maps a value whose lower-case form is
    ['otlp'] to the OTLP backend that its constructor returns, a value whose
    lower-case form is ['xray'] to the segment-recorder backend, and every
    other value, ['disabled'] included, to the No-op backend; the manager
    holds the backend it was constructed with, and a later change of the
    setting changes nothing in what the manager does, on any of the three
    backends: [get_resource_spans] answers the same, a scope of [trace]
    yields the same handle or raises the same exception and is finalised in
    the same way, and a [with] statement on such a scope, around any block
    that does not itself depend on the setting, ends with the same outcome;
    the states reached differ by the setting alone. *)
Theorem backend_selection w :
  (Py.lower (backend_setting w) = "otlp" ->
     forall self w', constructs w self w' ->
       get_trace_backend w = Done (Ok (OTLP self)) w')
  /\ (Py.lower (backend_setting w) = "xray" ->
        exists self w', get_trace_backend w = Done (Ok (XRay self)) w')
  /\ (Py.lower (backend_setting w) <> "otlp" ->
      Py.lower (backend_setting w) <> "xray" ->
        get_trace_backend w = Done (Ok noop_backend) w)
  /\ (backend_setting w = "disabled" -> get_trace_backend w = Done (Ok noop_backend) w)
  /\ (forall backend, TraceManager.backend (TraceManager.__init__ backend) = backend)
  /\ (forall (m : TraceManager.t) value,
        outcome (TraceManager.get_resource_spans m (configured value w))
        = outcome (TraceManager.get_resource_spans m w)
        /\ final (TraceManager.get_resource_spans m (configured value w))
           = configured value (final (TraceManager.get_resource_spans m w)))
  /\ (forall (m : TraceManager.t) operation attributes value,
        unaffected (configured value) (same_scope (configured value))
          (__enter__ (TraceManager.trace m operation attributes))
          (__enter__ (TraceManager.trace m operation attributes)))
  /\ (forall (m : TraceManager.t) operation attributes value
             (A : Type) (block : handle -> G A),
        (forall h, unaffected (configured value) eq (block h) (block h)) ->
        outcome (with_ (TraceManager.trace m operation attributes) block
                   (configured value w))
        = outcome (with_ (TraceManager.trace m operation attributes) block w)
        /\ final (with_ (TraceManager.trace m operation attributes) block
                    (configured value w))
           = configured value
               (final (with_ (TraceManager.trace m operation attributes) block w))).
Proof.
  rewrite get_trace_backend_eval.
  split; [|split; [|split; [|split; [|split; [|split; [|split]]]]]].
  - intros -> self w' Hrun. cbn [String.eqb Ascii.eqb Bool.eqb].
    by erewrite bind_done by exact Hrun.
  - intros ->. cbn [String.eqb Ascii.eqb Bool.eqb].
    destruct (xray_init w) as (w' & Hrun). eexists _, _.
    by erewrite bind_done by exact Hrun.
  - intros Hotlp Hxray.
    apply String.eqb_neq in Hotlp, Hxray. by rewrite Hotlp, Hxray.
  - intros ->. reflexivity.
  - reflexivity.
  - intros m value. apply get_resource_spans_configured.
  - intros m operation attributes value. apply steady_trace.
  - intros m operation attributes value A block Hblock.
    apply in_step_observed, steady_traced_block, Hblock.
Qed.

(** C6 as stated fails at the value ['OTLP'], which is none of the three
    recognised spellings and does not select the no-op backend. *)
Lemma uppercase_setting_is_not_disabled :
  ~ ("OTLP" <> "disabled" -> "OTLP" <> "otlp" -> "OTLP" <> "xray" ->
     outcome (get_trace_backend (configured "OTLP" idle)) = Some (Ok noop_backend)).
Proof.
  intros H. specialize (H ltac:(discriminate) ltac:(discriminate) ltac:(discriminate)).
  vm_compute in H. discriminate H.
Qed.

(** ** The theorems at concrete inputs *)

(** The shape of the export, for the buffer left by one scope. *)
Lemma otlp_export_shape_witness :
  Forall valid_context (spans buffered)
  /\ exists records,
       outcome (get_resource_spans otlp_backend buffered)
       = Some (Ok (export_envelope records))
       /\ Forall2 (export_record (clock buffered)) (spans buffered) records.
Proof.
  assert (Forall valid_context (spans buffered)) as H.
  { repeat constructor; vm_compute; reflexivity. }
  split; [exact H|].
  exact (otlp_export_shape _ buffered H).
Defined.

(** The construction with a network exporter that cannot be built. *)
Lemma otlp_construction_witness :
  exporter_fails_softly unreachable
  /\ exists self w',
       constructs unreachable self w'
       /\ spans w' = []
       /\ (otel_installed unreachable = true ->
             exporters self
             = OTel.ConsoleSpanExporter ::
               match exporter_failure unreachable (otlp_endpoint unreachable) with
               | None => [OTel.OTLPSpanExporter (otlp_endpoint unreachable)]
               | Some _ => []
               end
             /\ OTLPBackend.tracer self
                = Some {| OTel.records := sampler_records unreachable |})
       /\ (otel_installed unreachable = false ->
             exporters self = [] /\ OTLPBackend.tracer self = None).
Proof.
  split; [reflexivity|].
  apply (otlp_construction unreachable). reflexivity.
Defined.

Lemma traced_segment_open : segment_open traced.
Proof. exists 1%nat. reflexivity. Qed.

Lemma idle_no_segment : ~ segment_open idle.
Proof. intros [p Hp]. vm_compute in Hp. discriminate Hp. Qed.

(** The nesting rule inside and outside of the root operation. *)
Lemma xray_segment_nesting_witness :
  let self := {| XRayBackend.recorder := Some XRayBackend.xray_recorder_ref |} in
  let attributes := [("aws.service", Py.VStr "s3")] in
  (exists __exit__ w',
      __enter__ (create_span self "aws_cli_command" attributes) traced
      = Done (Ok (HEntity (next_oid traced), __exit__)) w'
      /\ XRay.entities (xray_recorder w')
         = [opened_segment (next_oid traced) "aws_cli_command" attributes]
      /\ XRay.id (opened_segment (next_oid traced) "aws_cli_command" attributes)
         = next_oid traced
      /\ XRay.name (opened_segment (next_oid traced) "aws_cli_command" attributes)
         = "aws_cli_command"
      /\ XRay.is_subsegment (opened_segment (next_oid traced) "aws_cli_command" attributes)
         = false)
  /\ ("parse" <> "aws_cli_command"
      /\ segment_open traced
      /\ opens_subsegment self "parse" attributes traced)
  /\ (~ segment_open idle /\ inert_scope self "parse" attributes idle).
Proof.
  intros self attributes.
  assert ("parse" <> "aws_cli_command") as Hname by discriminate.
  split; [|split].
  - exact (proj1 (xray_segment_nesting XRayBackend.xray_recorder_ref
                    "aws_cli_command" attributes traced) eq_refl).
  - split; [exact Hname|]. split; [exact traced_segment_open|].
    exact (proj2 (proj1 (proj2 (xray_segment_nesting XRayBackend.xray_recorder_ref
                                  "parse" attributes traced) Hname))
             traced_segment_open).
  - split; [exact idle_no_segment|].
    exact (proj2 (proj2 (xray_segment_nesting XRayBackend.xray_recorder_ref
                           "parse" attributes idle) Hname)
             idle_no_segment).
Defined.

(** The routing rule for a value of 50 and a value of 51 characters. *)
Lemma xray_attribute_routing_witness :
  let self := {| XRayBackend.recorder := Some XRayBackend.xray_recorder_ref |} in
  let attributes := [("aws.cli-command", Py.VStr fifty); ("aws.service", Py.VStr fifty_one)] in
  ("parse" <> "aws_cli_command"
   /\ segment_open traced
   /\ opens_subsegment self "parse" attributes traced)
  /\ (attributes = [] ++ ("aws.cli-command", Py.VStr fifty) :: [("aws.service", Py.VStr fifty_one)]
      /\ (forall kv, kv ∈ [("aws.service", Py.VStr fifty_one)] ->
            normalise_key (fst kv) <> normalise_key "aws.cli-command")
      /\ routed_annotations attributes ∅ !! "aws_cli_command" = Some fifty
      /\ routed_metadata attributes ∅ !! "aws_cli_command" = None)
  /\ (String.length (Py.str (Py.VStr fifty)) = 50%nat
      /\ routed_annotations [("aws.cli-command", Py.VStr fifty)] ∅
         = {[ normalise_key "aws.cli-command" := fifty ]})
  /\ (String.length (Py.str (Py.VStr fifty_one)) = 51%nat
      /\ routed_metadata [("aws.service", Py.VStr fifty_one)] ∅
         = {[ normalise_key "aws.service" := fifty_one ]}).
Proof.
  intros self attributes.
  pose proof (xray_attribute_routing XRayBackend.xray_recorder_ref attributes traced)
    as (_ & Hsub & _ & Hlookup & H50 & H51).
  assert ("parse" <> "aws_cli_command") as Hname by discriminate.
  assert (forall kv, kv ∈ [("aws.service", Py.VStr fifty_one)] ->
            normalise_key (fst kv) <> normalise_key "aws.cli-command") as Hafter.
  { intros kv ->%list_elem_of_singleton. discriminate. }
  split; [|split; [|split]].
  - split; [exact Hname|]. split; [exact traced_segment_open|].
    exact (Hsub "parse" Hname traced_segment_open).
  - split; [reflexivity|]. split; [exact Hafter|].
    exact (Hlookup [] "aws.cli-command" (Py.VStr fifty) [("aws.service", Py.VStr fifty_one)]
             ∅ ∅ eq_refl Hafter).
  - split; [reflexivity|].
    exact (proj1 (H50 "aws.cli-command" (Py.VStr fifty) ∅ eq_refl)).
  - split; [reflexivity|].
    exact (proj2 (H51 "aws.service" (Py.VStr fifty_one) ∅ eq_refl)).
Defined.

(** The selection for the settings [Otlp], [XRAY], [console] and none, and a
    root scope of a manager of the segment-recorder backend after the setting
    was changed to [disabled]. *)
Lemma backend_selection_witness :
  (Py.lower (backend_setting (configured "Otlp" idle)) = "otlp"
   /\ exists self w',
        constructs (configured "Otlp" idle) self w'
        /\ get_trace_backend (configured "Otlp" idle) = Done (Ok (OTLP self)) w')
  /\ (Py.lower (backend_setting (configured "XRAY" idle)) = "xray"
      /\ exists self w',
           get_trace_backend (configured "XRAY" idle) = Done (Ok (XRay self)) w')
  /\ (Py.lower (backend_setting (configured "console" idle)) <> "otlp"
      /\ Py.lower (backend_setting (configured "console" idle)) <> "xray"
      /\ get_trace_backend (configured "console" idle)
         = Done (Ok noop_backend) (configured "console" idle))
  /\ (backend_setting idle = "disabled"
      /\ get_trace_backend idle = Done (Ok noop_backend) idle)
  /\ (outcome (with_ (TraceManager.trace (TraceManager.__init__ xray_backend)
                        "aws_cli_command" [("k", Py.VStr "v")])
                 (fun h => ret h) (configured "disabled" traced))
      = outcome (with_ (TraceManager.trace (TraceManager.__init__ xray_backend)
                          "aws_cli_command" [("k", Py.VStr "v")])
                   (fun h => ret h) traced)
      /\ final (with_ (TraceManager.trace (TraceManager.__init__ xray_backend)
                         "aws_cli_command" [("k", Py.VStr "v")])
                  (fun h => ret h) (configured "disabled" traced))
         = configured "disabled"
             (final (with_ (TraceManager.trace (TraceManager.__init__ xray_backend)
                              "aws_cli_command" [("k", Py.VStr "v")])
                       (fun h => ret h) traced))).
Proof.
  split; [|split; [|split; [|split]]].
  - split; [reflexivity|].
    assert (exists self w', constructs (configured "Otlp" idle) self w')
      as (self & w' & Hrun).
    { eexists _, _. unfold constructs.
      rewrite (otlp_init_installed (configured "Otlp" idle) eq_refl). reflexivity. }
    exists self, w'. split; [exact Hrun|].
    exact (proj1 (backend_selection (configured "Otlp" idle)) eq_refl self w' Hrun).
  - split; [reflexivity|].
    exact (proj1 (proj2 (backend_selection (configured "XRAY" idle))) eq_refl).
  - assert (Py.lower (backend_setting (configured "console" idle)) <> "otlp") as H1
      by discriminate.
    assert (Py.lower (backend_setting (configured "console" idle)) <> "xray") as H2
      by discriminate.
    split; [exact H1|]. split; [exact H2|].
    exact (proj1 (proj2 (proj2 (backend_selection (configured "console" idle)))) H1 H2).
  - split; [reflexivity|].
    exact (proj1 (proj2 (proj2 (proj2 (backend_selection idle)))) eq_refl).
  - exact (proj2 (proj2 (proj2 (proj2 (proj2 (proj2 (proj2 (backend_selection traced)))))))
             (TraceManager.__init__ xray_backend) "aws_cli_command" [("k", Py.VStr "v")]
             "disabled" handle (fun h => ret h) (fun h => steady_ret "disabled" h)).
Defined.

(** ** Examples *)

Example str_int_samples :
  Py.str_int 0 = "0" /\ Py.str_int 1700000000123456789 = "1700000000123456789"
  /\ Py.str_int (-42) = "-42".
Proof. repeat split; reflexivity. Qed.

Example format_0x_samples :
  Py.format_0x 16 255 = "00000000000000ff"
  /\ Py.format_0x 4 0 = "0000"
  /\ Py.format_0x 2 4096 = "1000".
Proof. repeat split; reflexivity. Qed.

Example lower_samples :
  Py.lower "OTLP" = "otlp" /\ Py.lower "XRay" = "xray" /\ Py.lower "a-B_9" = "a-b_9".
Proof. repeat split; reflexivity. Qed.

Example clean_key_sample :
  XRayBackend.clean_key "aws.cli-command.x" = "aws_cli_command_x".
Proof. reflexivity. Qed.

(** The end-to-end scenario of the specification. *)
Example end_to_end_export :
  exists record w',
    end_to_end (configured "otlp" unreachable) = Done (Ok (export_envelope [record])) w'
    /\ json_get "attributes" record
       = Some (JList [JDict [("key", JStr "k");
                             ("value", JDict [("stringValue", JStr "v")])]])
    /\ json_get "name" record = Some (JStr "op")
    /\ exported_status_code record = Some "STATUS_CODE_OK"
    /\ spans w' = [].
Proof. eexists _, _. split; [vm_compute; reflexivity|]. repeat split. Qed.

(** A value of 50 characters is an annotation, a value of 51 characters is
    metadata, both under the normalised key. *)
Example routing_boundary :
  exists segment,
    boundary_segment = Some segment
    /\ XRay.annotations segment !! "aws_cli_command" = Some fifty
    /\ XRay.metadata segment !! "aws_cli_command" = None
    /\ XRay.metadata segment !! "aws_service" = Some fifty_one
    /\ XRay.annotations segment !! "aws_service" = None
    /\ XRay.annotations segment !! "service" = Some "aws-api-mcp-server".
Proof. eexists. split; [vm_compute; reflexivity|]. repeat split. Qed.

(** * Further properties *)

(** ** Words of a command line *)

Lemma append_cons c (s1 s2 : string) : String c s1 +:+ s2 = String c (s1 +:+ s2).
Proof. reflexivity. Qed.

Lemma append_nil_r (s : string) : s +:+ EmptyString = s.
Proof. induction s as [|c s IH]; [done|]. by rewrite append_cons, IH. Qed.

Lemma append_assoc (s1 s2 s3 : string) : (s1 +:+ s2) +:+ s3 = s1 +:+ (s2 +:+ s3).
Proof. induction s1 as [|c s1 IH]; [done|]. by rewrite !append_cons, IH. Qed.

(** A run of characters that are no whitespace is read into the current
    word. *)
Lemma split_from_word u word rest :
  Py.string_forall (fun c => PyStr.isspace c = false) u ->
  PyStr.split_from word (u +:+ rest) = PyStr.split_from (word +:+ u) rest.
Proof.
  revert word. induction u as [|c u IH]; intros word Hu.
  - by rewrite append_nil_r.
  - destruct Hu as [Hc Hu]. rewrite append_cons. cbn [PyStr.split_from]. rewrite Hc.
    rewrite IH by exact Hu. by rewrite append_assoc.
Qed.

(** Whitespace after a word ends the word; further whitespace is skipped. *)
Lemma split_from_spaces sep rest :
  Py.string_forall (fun c => PyStr.isspace c = true) sep ->
  PyStr.split_from EmptyString (sep +:+ rest) = PyStr.split_from EmptyString rest.
Proof.
  induction sep as [|c sep IH]; intros Hsep; [done|].
  destruct Hsep as [Hc Hsep]. rewrite append_cons. cbn [PyStr.split_from]. rewrite Hc.
  by apply IH.
Qed.

Lemma split_from_separator word sep rest :
  word <> EmptyString -> sep <> EmptyString ->
  Py.string_forall (fun c => PyStr.isspace c = true) sep ->
  PyStr.split_from word (sep +:+ rest) = word :: PyStr.split_from EmptyString rest.
Proof.
  intros Hword Hne Hsep. destruct sep as [|c sep]; [done|].
  destruct Hsep as [Hc Hsep]. rewrite append_cons. cbn [PyStr.split_from]. rewrite Hc.
  destruct word; [done|]. f_equal. by apply split_from_spaces.
Qed.

(** [sep.join(words).split()] gives the words back. *)
Lemma split_join sep words :
  is_separator sep -> Forall is_word words ->
  PyStr.split (PyStr.join sep words) = words.
Proof.
  intros [Hne Hsep] Hwords. unfold PyStr.split, PyStr.join.
  induction Hwords as [|word words [Hword Hfree] Hwords IH]; [done|].
  destruct words as [|word' words].
  - cbn [String.concat]. rewrite <- (append_nil_r word) at 1.
    rewrite split_from_word by exact Hfree. cbn. by destruct word.
  - change (String.concat sep (word :: word' :: words))
      with (word +:+ (sep +:+ String.concat sep (word' :: words))).
    rewrite split_from_word by exact Hfree. change (EmptyString +:+ word) with word.
    rewrite split_from_separator by done. by rewrite IH.
Qed.

(** ** The standard attributes of an instrumented call *)

(** What [_get_standard_attributes] answers for a command that is a string:
    the attributes of its words. *)
Lemma standard_attributes_eval self operation_name args (kw : kwargs) cli_command w :
  kw !! "cli_command" = Some (Py.VStr cli_command) ->
  Instrument._get_standard_attributes self operation_name args kw w
  = Done (Ok (command_attributes operation_name cli_command (PyStr.split cli_command))) w.
Proof.
  intros Hkw. unfold Instrument._get_standard_attributes, command_attributes.
  rewrite Hkw.
  cbn -[PyStr.split bool_decide lookup lookup_total String.eqb].
  destruct (PyStr.split cli_command) as [|first [|service [|operation rest]]];
    cbn -[bool_decide String.eqb]; try reflexivity.
  - destruct (String.eqb_spec first "aws") as [->|Hne].
    + reflexivity.
    + rewrite bool_decide_eq_false_2 by congruence. reflexivity.
  - destruct (String.eqb_spec first "aws") as [->|Hne].
    + reflexivity.
    + rewrite bool_decide_eq_false_2 by congruence. reflexivity.
Qed.

(** The keys of the standard attributes are among the six fixed keys, in
    their order, and stay distinct after the normalisation of the X-Ray
    backend, where none of them meets the keys [service] and [operation] of
    the segment. *)
Lemma command_attributes_keys operation_name cli_command words :
  let keys := fst <$> command_attributes operation_name cli_command words in
  sublist keys standard_keys
  /\ NoDup (normalise_key <$> keys)
  /\ ("service" ∉ normalise_key <$> keys)
  /\ ("operation" ∉ normalise_key <$> keys).
Proof.
  unfold command_attributes.
  destruct words as [|first [|service [|operation rest]]];
    [| |destruct (String.eqb first "aws")..];
    cbn [fmap list_fmap fst app];
    (split;
     [unfold standard_keys;
      repeat first [apply sublist_nil | apply sublist_skip | apply sublist_cons]|]);
    repeat split; apply (bool_decide_unpack _); vm_compute; reflexivity.
Qed.

(** ** The span of a scope of the OTLP backend *)

Lemma dict_set_fresh {V} key (v : V) d :
  key ∉ (fst <$> d) -> dict_set key v d = d ++ [(key, v)].
Proof.
  induction d as [|[k x] d IH]; intros Hfresh; [done|].
  cbn [dict_set]. destruct (String.eqb_spec k key) as [->|Hne].
  - exfalso. apply Hfresh. left.
  - cbn. rewrite IH; [done|]. intros Hin. apply Hfresh. by right.
Qed.

Lemma with_attribute_mutable key v s :
  Span.is_mutable (Span.with_attribute key v s) = Span.is_mutable s.
Proof.
  unfold Span.with_attribute. by destruct (Span.is_mutable s) eqn:H.
Qed.

(** The attributes of a call with distinct keys, none of which the span
    holds, are appended in their order, each as a string. *)
Lemma with_attributes_fresh attributes s :
  Span.is_mutable s = true ->
  NoDup (fst <$> attributes) ->
  (forall k, k ∈ (fst <$> attributes) -> k ∉ (fst <$> OTel.attributes s)) ->
  OTel.attributes (with_attributes attributes s)
  = OTel.attributes s ++ (stringified <$> attributes).
Proof.
  revert s. induction attributes as [|[k v] attributes IH]; intros s Hmut Hnodup Hfresh.
  - cbn. by rewrite app_nil_r.
  - cbn [with_attributes fold_left]. fold (with_attributes attributes).
    apply NoDup_cons in Hnodup as [Hk Hnodup].
    rewrite IH.
    + unfold Span.with_attribute at 1. rewrite Hmut. cbn [OTel.attributes fst snd].
      rewrite dict_set_fresh by (apply Hfresh; left).
      by rewrite <- app_assoc.
    + by rewrite with_attribute_mutable.
    + exact Hnodup.
    + intros k' Hk'. unfold Span.with_attribute. rewrite Hmut. cbn [OTel.attributes fst snd].
      rewrite dict_set_fresh by (apply Hfresh; left).
      rewrite fmap_app. intros [Hin|Hin]%elem_of_app.
      * apply (Hfresh k'); [by right | exact Hin].
      * cbn in Hin. apply list_elem_of_singleton in Hin as ->. by apply Hk.
Qed.

Lemma with_attribute_end_time key v s :
  OTel.end_time (Span.with_attribute key v s) = OTel.end_time s.
Proof. unfold Span.with_attribute. by destruct (Span.is_mutable s). Qed.

Lemma with_attribute_status key v s :
  OTel.status (Span.with_attribute key v s) = OTel.status s.
Proof. unfold Span.with_attribute. by destruct (Span.is_mutable s). Qed.

Lemma with_attribute_start_time key v s :
  OTel.start_time (Span.with_attribute key v s) = OTel.start_time s.
Proof. unfold Span.with_attribute. by destruct (Span.is_mutable s). Qed.

Lemma with_attributes_end_time attributes s :
  OTel.end_time (with_attributes attributes s) = OTel.end_time s.
Proof.
  revert s. induction attributes as [|kv attributes IH]; intros s; [done|].
  cbn. unfold with_attributes in IH. by rewrite IH, with_attribute_end_time.
Qed.

Lemma with_attributes_status attributes s :
  OTel.status (with_attributes attributes s) = OTel.status s.
Proof.
  revert s. induction attributes as [|kv attributes IH]; intros s; [done|].
  cbn. unfold with_attributes in IH. by rewrite IH, with_attribute_status.
Qed.

Lemma with_attributes_start_time attributes s :
  OTel.start_time (with_attributes attributes s) = OTel.start_time s.
Proof.
  revert s. induction attributes as [|kv attributes IH]; intros s; [done|].
  cbn. unfold with_attributes in IH. by rewrite IH, with_attribute_start_time.
Qed.

(** The span with which the block of a scope starts. *)
Lemma entered_span_mutable tracer name attributes w :
  Span.is_mutable (with_attributes attributes (started_span tracer name w))
  = OTel.records tracer.
Proof.
  unfold Span.is_mutable.
  rewrite with_attributes_sdk, with_attributes_end_time. cbn.
  by destruct (OTel.records tracer).
Qed.

(** The span that the end of a scope appends, for a block that ended with
    [r] and left the span as it was. *)
Lemma closing_span {A} tracer name attributes (r : result A) w w2 :
  let ref := next_oid w in
  let entered_span := with_attributes attributes (started_span tracer name w) in
  OTel.records tracer = true ->
  objects w2 !!! ref = entered_span ->
  exists span,
    match r with
    | Ok _ => finalised ref w2
    | Raise e => finalised ref (failed ref e w2)
    end
    = set_spans (spans w2 ++ [span]) (set_objects (<[ref := span]> (objects w2)) w2)
    /\ OTel.name span = name
    /\ OTel.start_time span = clock w
    /\ OTel.end_time span = Some (clock w2)
    /\ OTel.status span = scope_status r
    /\ OTel.attributes span = OTel.attributes entered_span
    /\ OTel.get_span_context span = OTel.get_span_context (started_span tracer name w)
    /\ OTel.is_sdk_span span = true.
Proof.
  intros ref entered_span Hrec Hspan.
  assert (Span.is_mutable entered_span = true) as Hmut
    by (unfold entered_span; by rewrite entered_span_mutable).
  assert (OTel.is_sdk_span entered_span = true) as Hsdk
    by (unfold entered_span; by rewrite with_attributes_sdk).
  assert (OTel.status entered_span
          = {| OTel.status_code := OTel.UNSET; OTel.description := None |}) as Hstatus
    by (unfold entered_span; by rewrite with_attributes_status).
  assert (OTel.name entered_span = name) as Hname
    by (unfold entered_span; by rewrite with_attributes_name).
  assert (OTel.start_time entered_span = clock w) as Hstart
    by (unfold entered_span; by rewrite with_attributes_start_time).
  assert (OTel.get_span_context entered_span
          = OTel.get_span_context (started_span tracer name w)) as Hctx
    by (unfold entered_span; by rewrite with_attributes_context).
  destruct r as [a|e]; [|destruct (isinstance_Exception e) eqn:Hexc].
  - unfold finalised. rewrite Hspan.
    unfold Span.ended_at. rewrite Hmut. cbn [OTel.is_sdk_span]. rewrite Hsdk.
    eexists. split; [reflexivity|]. cbn. by rewrite Hname, Hstart, Hstatus, Hctx.
  - unfold finalised, failed. rewrite Hexc, Hspan.
    cbn [objects set_objects clock spans]. rewrite lookup_total_insert_eq.
    unfold Span.with_status. rewrite Hmut, Hstatus. cbn [OTel.status_code error_status].
    unfold Span.ended_at, Span.is_mutable. cbn [OTel.is_sdk_span OTel.end_time].
    fold (Span.is_mutable entered_span). rewrite Hmut. cbn [OTel.is_sdk_span].
    rewrite Hsdk, insert_insert_eq.
    eexists. split; [reflexivity|]. cbn. by rewrite Hname, Hstart, Hctx, Hexc.
  - unfold finalised, failed. rewrite Hexc, Hspan.
    unfold Span.ended_at. rewrite Hmut. cbn [OTel.is_sdk_span]. rewrite Hsdk.
    eexists. split; [reflexivity|]. cbn. by rewrite Hname, Hstart, Hstatus, Hctx, Hexc.
Qed.

(** X1: a scope of [create_span] of the OTLP backend whose tracer records,
    around a block that ends with [r] and leaves the span object as it was,
    ends with the result of the block, a fault coming back as it was raised,
    and appends exactly one span to the buffer: the span object of the scope,
    named after the scope, started at the clock of the entry and ended at the
    clock of the exit, with the status [ERROR] and the message of the fault
    when the block raised an instance of [Exception], with the status [UNSET]
    otherwise, and with identifiers of 128 and 64 bits. *)
Theorem otlp_span_lifecycle {A} provider tracer name attributes
    (body : handle -> G A) w r w2 :
  let self := {| OTLPBackend.tracer_provider := provider;
                 OTLPBackend.tracer := Some tracer |} in
  let ref := next_oid w in
  OTel.records tracer = true ->
  body (HSpan ref) (entered tracer name attributes w) = Done r w2 ->
  objects w2 !!! ref = with_attributes attributes (started_span tracer name w) ->
  exists span w3,
    with_ (create_span self name attributes) body w = Done (scope_result r) w3
    /\ spans w3 = spans w2 ++ [span]
    /\ objects w3 !!! ref = span
    /\ OTel.name span = name
    /\ OTel.start_time span = clock w
    /\ OTel.end_time span = Some (clock w2)
    /\ OTel.status span = scope_status r
    /\ valid_context span.
Proof.
  intros self ref Hrec Hbody Hspan.
  destruct (closing_span tracer name attributes r w w2 Hrec Hspan)
    as (span & Hfinal & Hname & Hstart & Hend & Hstatus & _ & Hctx & _).
  pose proof (otlp_scope tracer provider name attributes body w r w2 Hbody) as Hscope.
  cbn zeta in Hscope. fold self in Hscope. rewrite Hscope.
  exists span,
    (match r with
     | Ok _ => finalised ref w2
     | Raise e => finalised ref (failed ref e w2)
     end).
  split; [by destruct r|].
  assert (valid_context span) as Hvalid.
  { unfold valid_context. rewrite Hctx. apply started_span_valid. }
  fold ref in Hfinal. rewrite Hfinal.
  cbn [spans set_spans objects set_objects]. rewrite lookup_total_insert_eq. done.
Qed.

(** X2: attributes with distinct keys go through a scope and an export
    unchanged and in order: after one scope of [create_span] that starts and
    ends on an empty buffer, [get_resource_spans] answers the envelope around
    one record, whose name is the name of the scope and whose attributes are
    the attributes of the call, each value as [str] gives it, and leaves the
    buffer empty.  The attributes are within what the SDK keeps: at most 128
    of them, none with an empty key. *)
Theorem otlp_attributes_round_trip {A} provider tracer name attributes
    (body : handle -> G A) w a w2 :
  let self := {| OTLPBackend.tracer_provider := provider;
                 OTLPBackend.tracer := Some tracer |} in
  let ref := next_oid w in
  OTel.records tracer = true ->
  NoDup (fst <$> attributes) ->
  (length attributes <= 128)%nat ->
  Forall (fun kv => fst kv <> EmptyString) attributes ->
  body (HSpan ref) (entered tracer name attributes w) = Done (Ok a) w2 ->
  objects w2 !!! ref = with_attributes attributes (started_span tracer name w) ->
  spans w2 = [] ->
  exists record w3,
    (with_ (create_span self name attributes) body ;; get_resource_spans self) w
    = Done (Ok (export_envelope [record])) w3
    /\ json_get "name" record = Some (JStr name)
    /\ json_get "attributes" record
       = Some (JList (OTLPBackend.attribute_json <$> attributes))
    /\ spans w3 = [].
Proof.
  intros self ref Hrec Hnodup _ _ Hbody Hspan Hempty.
  destruct (closing_span tracer name attributes (Ok a) w w2 Hrec Hspan)
    as (span & Hfinal & Hname & _ & _ & _ & Hattrs & _).
  pose proof (otlp_scope tracer provider name attributes body w (Ok a) w2 Hbody) as Hscope.
  cbn zeta in Hscope. fold self ref in Hscope, Hfinal.
  rewrite Hempty in Hfinal. cbn [app] in Hfinal.
  exists (OTLPBackend.span_json (clock w2) span). eexists. split.
  { erewrite bind_done by exact Hscope. rewrite Hfinal. apply otlp_get_resource_spans. }
  split; [cbn; by rewrite Hname|]. split; [|reflexivity].
  cbn. rewrite Hattrs, with_attributes_fresh.
  - cbn [OTel.attributes started_span app]. rewrite <- list_fmap_compose.
    do 2 f_equal.
  - unfold Span.is_mutable. cbn. by rewrite Hrec.
  - exact Hnodup.
  - cbn. intros k _ Hin. by apply elem_of_nil in Hin.
Qed.

(** ** [TraceManager.trace] over any backend *)

(** The manager's [trace] is the generic one at its backend. *)
Lemma trace_generic (self : TraceManager.t) operation attributes :
  TraceManager.trace self operation attributes
  = Instrument.trace (TraceManager.backend self) operation attributes.
Proof. reflexivity. Qed.

(** X3: when [create_span] of the backend raises an instance of
    [Exception] on entry, [trace] logs the failure at level [DEBUG], hands
    [None] to the block and runs it; the result of the block, a fault
    included, comes back as it is. *)
Theorem trace_survives_backend_failure {A} {B} `{TraceBackend B} (backend : B)
    operation attributes (body : handle -> G A) w e w1 r w2 :
  let logged :=
    set_log (log w1 ++ [(DEBUG, "Tracing failed for " +:+ operation +:+ ": " +:+ msg e)]) w1 in
  __enter__ (create_span backend operation attributes) w = Done (Raise e) w1 ->
  isinstance_Exception e = true ->
  body HNone logged = Done r w2 ->
  with_ (Instrument.trace backend operation attributes) body w = Done (scope_result r) w2.
Proof.
  intros logged Henter Hexc Hbody. unfold Instrument.trace, with_, bind.
  cbn -[insert]. rewrite Henter. cbn -[insert]. rewrite Hexc. cbn -[insert].
  fold logged. rewrite Hbody.
  destruct r as [a|e']; cbn; [reflexivity|].
  by rewrite exn_is_refl.
Qed.

(** X4: where the scope of the backend is entered, the block returns and
    the exit of the backend's scope returns, a scope of [trace] ends as the
    scope of [create_span] of the backend does: with the value of the block
    and in the same state. *)
Theorem trace_is_transparent_on_success {A} {B} `{TraceBackend B} (backend : B)
    operation attributes (body : handle -> G A) w span __exit__ w1 a w2 suppress w3 :
  __enter__ (create_span backend operation attributes) w = Done (Ok (span, __exit__)) w1 ->
  body span w1 = Done (Ok a) w2 ->
  __exit__ None w2 = Done (Ok suppress) w3 ->
  with_ (Instrument.trace backend operation attributes) body w = Done (Ok (Some a)) w3
  /\ with_ (create_span backend operation attributes) body w = Done (Ok (Some a)) w3.
Proof.
  intros Henter Hbody Hexit. unfold Instrument.trace, with_, bind.
  cbn -[insert]. rewrite Henter. cbn -[insert]. rewrite Hbody. cbn -[insert].
  rewrite Hexit. by cbn.
Qed.

(** ** Instrumented functions *)

(** X5: [_get_standard_attributes] returns, and changes nothing, whenever
    the keyword argument [cli_command] is absent or a string; the attributes
    start with [mcp.server.name] and [mcp.operation], are these two alone
    when no command is given, and have keys among the six standard keys, in
    their order; the keys stay distinct, and different from [service] and
    [operation], after the normalisation of keys for X-Ray, so that no
    standard attribute overwrites another entry of a segment. *)
Theorem standard_attributes_keys self operation_name args (kw : kwargs) w :
  (forall v, kw !! "cli_command" = Some v -> is_str v = true) ->
  exists attributes,
    Instrument._get_standard_attributes self operation_name args kw w
    = Done (Ok attributes) w
    /\ take 2 attributes
       = [("mcp.server.name", Py.VStr "aws-api-mcp-server");
          ("mcp.operation", Py.VStr operation_name)]
    /\ (kw !! "cli_command" = None -> length attributes = 2%nat)
    /\ sublist (fst <$> attributes) standard_keys
    /\ NoDup (normalise_key <$> (fst <$> attributes))
    /\ ("service" ∉ normalise_key <$> (fst <$> attributes))
    /\ ("operation" ∉ normalise_key <$> (fst <$> attributes)).
Proof.
  intros Hstr. destruct (kw !! "cli_command") as [v|] eqn:Hkw.
  - specialize (Hstr v eq_refl). destruct v as [cli_command| | |]; try discriminate.
    eexists. split; [by apply standard_attributes_eval|].
    split; [reflexivity|]. split; [discriminate|].
    apply command_attributes_keys.
  - eexists. split.
    { unfold Instrument._get_standard_attributes. rewrite Hkw. reflexivity. }
    split; [reflexivity|]. split; [reflexivity|].
    cbn [fmap list_fmap fst].
    split;
      [unfold standard_keys;
       repeat first [apply sublist_nil | apply sublist_skip | apply sublist_cons]|].
    repeat split; apply (bool_decide_unpack _); vm_compute; reflexivity.
Qed.

(** X6: for a command made of words joined by whitespace,
    [_get_standard_attributes] answers the server name, the operation, the
    tool name [call_aws], the command itself and, when the first word is
    [aws] and a second word follows, that word as [aws.service] and the third
    word, if any, as [aws.operation]. *)
Theorem standard_attributes_of_words self operation_name args (kw : kwargs)
    sep words w :
  is_separator sep ->
  Forall is_word words ->
  kw !! "cli_command" = Some (Py.VStr (PyStr.join sep words)) ->
  Instrument._get_standard_attributes self operation_name args kw w
  = Done (Ok (command_attributes operation_name (PyStr.join sep words) words)) w.
Proof.
  intros Hsep Hwords Hkw.
  rewrite (standard_attributes_eval _ _ _ _ _ _ Hkw).
  by rewrite split_join.
Qed.

(** The attributes are computed, and the state stays as it is, unless the
    command is no string. *)
Lemma standard_attributes_returns self operation_name args (kw : kwargs) w :
  (forall v, kw !! "cli_command" = Some v -> is_str v = true) ->
  exists attributes,
    Instrument._get_standard_attributes self operation_name args kw w
    = Done (Ok attributes) w.
Proof.
  intros Hstr. destruct (kw !! "cli_command") as [v|] eqn:Hkw.
  - specialize (Hstr v eq_refl). destruct v as [cli_command| | |]; try discriminate.
    eexists. by apply standard_attributes_eval.
  - eexists. unfold Instrument._get_standard_attributes. rewrite Hkw. reflexivity.
Qed.

(** X7: an instrumented call whose [cli_command] is an [int], a [bool] or
    [None] raises the [AttributeError] of [cli_command.split()] before the
    scope is entered: the wrapped function, whatever it is, is never called,
    and nothing is traced.  (Of the values that are no strings, these are the
    ones of the model; [bytes] and [bytearray] have a [split] method and are
    not covered.) *)
Theorem instrumented_call_command_without_split {A} self operation_name
    (func : list Py.value -> kwargs -> G A) args (kw : kwargs) v w :
  kw !! "cli_command" = Some v ->
  (exists n, v = Py.VInt n) \/ (exists b, v = Py.VBool b) \/ v = Py.VNone ->
  Instrument.sync_wrapper self operation_name func args kw w
  = Done (Raise (no_split v w)) (set_next_oid (S (next_oid w)) w).
Proof.
  intros Hkw Hv. unfold Instrument.sync_wrapper, Instrument._get_standard_attributes.
  rewrite Hkw. destruct Hv as [[n ->]|[[b ->]| ->]]; reflexivity.
Qed.

(** X8: on the No-op backend an instrumented function that returns gives
    its value and leaves the state as the function left it; a fault of the
    function that is no instance of [Exception] comes back unchanged; a fault
    that is an instance of [Exception] is logged and replaced by the
    [RuntimeError] of the context manager protocol. *)
Theorem instrumented_call_untraced {A} operation_name
    (func : list Py.value -> kwargs -> G A) args (kw : kwargs) w r w2 :
  (forall v, kw !! "cli_command" = Some v -> is_str v = true) ->
  func args kw w = Done r w2 ->
  Instrument.sync_wrapper (TraceManager.__init__ noop_backend) operation_name
    func args kw w
  = Done (traced_result (next_oid w2) r)
      match r with
      | Ok _ => w2
      | Raise e => if isinstance_Exception e then trace_failed operation_name e w2 else w2
      end.
Proof.
  intros Hstr Hfunc.
  destruct (standard_attributes_returns (TraceManager.__init__ noop_backend)
              operation_name args kw w Hstr) as (attributes & Hattrs).
  unfold Instrument.sync_wrapper. erewrite bind_done by exact Hattrs.
  rewrite (trace_noop_scope operation_name attributes (fun _ => func args kw) w r w2 Hfunc).
  destruct r as [a|e]; [reflexivity|].
  cbn. by destruct (isinstance_Exception e).
Qed.

(** X9: on an OTLP backend whose tracer records, an instrumented call with
    a command made of words appends one span to the buffer, named after the
    operation, whose attributes are the standard attributes of the command in
    their order, each as a string, and whose status follows the outcome of
    the function (which leaves the span as it was); the caller receives the
    value of the function, or its fault as [trace] passes it on. *)
Theorem instrumented_call_otlp {A} provider tracer operation_name
    (func : list Py.value -> kwargs -> G A) args (kw : kwargs) sep words w r w2 :
  let manager :=
    TraceManager.__init__
      (OTLP {| OTLPBackend.tracer_provider := provider;
               OTLPBackend.tracer := Some tracer |}) in
  let cli_command := PyStr.join sep words in
  let attributes := command_attributes operation_name cli_command words in
  let ref := next_oid w in
  OTel.records tracer = true ->
  is_separator sep ->
  Forall is_word words ->
  kw !! "cli_command" = Some (Py.VStr cli_command) ->
  func args kw (entered tracer operation_name attributes w) = Done r w2 ->
  objects w2 !!! ref = with_attributes attributes (started_span tracer operation_name w) ->
  exists span w3,
    Instrument.sync_wrapper manager operation_name func args kw w
    = Done (traced_result (next_oid w2) r) w3
    /\ spans w3 = spans w2 ++ [span]
    /\ OTel.name span = operation_name
    /\ OTel.attributes span = stringified <$> attributes
    /\ OTel.status span = scope_status r.
Proof.
  intros manager cli_command attributes ref Hrec Hsep Hwords Hkw Hfunc Hspan.
  destruct (closing_span tracer operation_name attributes r w w2 Hrec Hspan)
    as (span & Hfinal & Hname & _ & _ & Hstatus & Hattrs & _).
  fold ref in Hfinal.
  assert (OTel.attributes span = stringified <$> attributes) as Hstringified.
  { rewrite Hattrs, with_attributes_fresh; [reflexivity| | |].
    - unfold Span.is_mutable. cbn. by rewrite Hrec.
    - eapply NoDup_fmap_1, (command_attributes_keys operation_name cli_command words).
    - cbn. intros k _ Hin. by apply elem_of_nil in Hin. }
  unfold Instrument.sync_wrapper.
  erewrite bind_done
    by (rewrite (standard_attributes_eval _ _ _ _ _ _ Hkw);
        unfold cli_command; by rewrite split_join).
  cbn beta. fold cli_command attributes. unfold manager.
  rewrite (trace_otlp_scope tracer provider operation_name attributes
             (fun _ => func args kw) w r w2 Hfunc).
  cbn zeta. fold ref.
  destruct r as [a|e].
  - rewrite Hfinal. eexists _, _. split; [reflexivity|]. done.
  - rewrite Hfinal. cbn [traced_result].
    destruct (isinstance_Exception e) eqn:Hexc.
    + eexists _, _. split; [reflexivity|]. done.
    + eexists _, _. split; [reflexivity|]. done.
Qed.

(** ** Backends whose library is missing *)

Lemma set_spans_same w : set_spans (spans w) w = w.
Proof. by destruct w. Qed.

(** X10: an OTLP backend without a tracer (the OpenTelemetry packages are
    missing) whose buffer is empty answers every sequence of calls without
    raising and without changing the state: a scope yields [None], and an
    export is the fixed envelope around an empty span list, which is not the
    empty structure that the No-op backend answers. *)
Theorem otlp_without_tracer provider calls w :
  spans w = [] ->
  caller {| OTLPBackend.tracer_provider := provider; OTLPBackend.tracer := None |} calls w
  = Done (Ok (idle_reply <$> calls)) w
  /\ idle_reply GetResourceSpans <> noop_reply GetResourceSpans.
Proof.
  intros Hempty. split; [|discriminate].
  induction calls as [|c calls IH]; [reflexivity|].
  destruct c as [name attributes|]; cbn [caller].
  - unfold bind at 1. cbn. unfold bind. rewrite IH. reflexivity.
  - erewrite bind_done by apply otlp_get_resource_spans.
    assert (set_spans [] w = w) as -> by (rewrite <- Hempty; apply set_spans_same).
    unfold bind. rewrite IH. by rewrite Hempty.
Qed.

(** X11: an X-Ray backend without a recorder (the X-Ray SDK is missing)
    behaves as the No-op backend on every sequence of calls. *)
Theorem xray_without_recorder calls w :
  caller {| XRayBackend.recorder := None |} calls w
  = caller NoOpBackend.new calls w.
Proof.
  rewrite noop_caller.
  induction calls as [|c calls IH]; [reflexivity|].
  destruct c as [name attributes|]; cbn [caller].
  - unfold bind at 1. cbn. unfold bind. rewrite IH. reflexivity.
  - unfold bind at 1. cbn. unfold bind. rewrite IH. reflexivity.
Qed.

(** ** The life of an X-Ray entity *)

(** The scope of the root operation around a block that returns and leaves
    the segment alone in the context. *)
Lemma xray_root_scope {A} r attributes (body : handle -> G A) w a w2 segment :
  let self := {| XRayBackend.recorder := Some r |} in
  body (HEntity (next_oid w)) (segment_entered attributes w) = Done (Ok a) w2 ->
  XRay.entities (xray_recorder w2) = [segment] ->
  XRay.parent_segment segment = None ->
  with_ (create_span self "aws_cli_command" attributes) body w
  = Done (Ok (Some a)) (entity_closed [] segment w2).
Proof.
  intros self Hbody Hentities Hparent. unfold with_, bind, segment_entered in *.
  cbn -[insert last].
  erewrite bind_done by apply for_each_record_attribute.
  cbn -[insert last].
  rewrite (on_entity_same _ (Entity.with_annotation _ _)) by reflexivity.
  rewrite on_entity_same by reflexivity.
  match goal with
  | |- context [body ?h ?w0] =>
      replace (body h w0) with (Done (A := A) (Ok a) w2) by (rewrite <- Hbody; reflexivity)
  end.
  evaluate_to_last. rewrite Hentities. evaluate. rewrite Hparent. evaluate.
  rewrite Hentities. evaluate.
  rewrite decide_True by reflexivity. reflexivity.
Qed.

(** The scope of another operation around a block that returns and leaves
    the subsegment innermost in the context. *)
Lemma xray_subsegment_scope {A} r name attributes (body : handle -> G A)
    w top a w2 outer subsegment :
  let self := {| XRayBackend.recorder := Some r |} in
  name <> "aws_cli_command" ->
  last (XRay.entities (xray_recorder w)) = Some top ->
  body (HEntity (next_oid w)) (subsegment_entered name attributes top w) = Done (Ok a) w2 ->
  XRay.entities (xray_recorder w2) = outer ++ [subsegment] ->
  XRay.is_subsegment subsegment = true ->
  with_ (create_span self name attributes) body w
  = Done (Ok (Some a)) (entity_closed outer subsegment w2).
Proof.
  intros self Hname Htop Hbody Hentities Hsub.
  unfold with_, bind, subsegment_entered in *.
  evaluate. apply String.eqb_neq in Hname. rewrite Hname.
  evaluate_to_last. rewrite Htop. evaluate_to_last.
  destruct (XRay.parent_segment top) as [p|] eqn:Hp;
    evaluate_to_last; rewrite Htop; evaluate_to_last; rewrite Hp;
    evaluate_to_last;
    (erewrite bind_done by apply for_each_record_attribute);
    evaluate_to_last;
    cbn [default] in Hbody;
    match goal with
    | |- context [body ?h ?w0] =>
        replace (body h w0) with (Done (A := A) (Ok a) w2) by (rewrite <- Hbody; reflexivity)
    end;
    evaluate_to_last; rewrite Hentities, last_snoc; evaluate_to_last;
    rewrite Hsub; evaluate_to_last; rewrite Hentities, removelast_last; reflexivity.
Qed.

(** X12: the scope of the root operation on the X-Ray backend, around a
    block that returns and leaves the segment as the only entity of the
    context, returns the value of the block, sends the segment once and
    leaves the context empty, so that no segment is open afterwards; neither
    the span buffer nor the log changes on the way out. *)
Theorem xray_root_scope_closes {A} r attributes (body : handle -> G A) w a w2 segment :
  let self := {| XRayBackend.recorder := Some r |} in
  body (HEntity (next_oid w)) (segment_entered attributes w) = Done (Ok a) w2 ->
  XRay.entities (xray_recorder w2) = [segment] ->
  XRay.parent_segment segment = None ->
  exists w3,
    with_ (create_span self "aws_cli_command" attributes) body w = Done (Ok (Some a)) w3
    /\ XRay.entities (xray_recorder w3) = []
    /\ XRay.closed (xray_recorder w3) = XRay.closed (xray_recorder w2) ++ [segment]
    /\ ~ segment_open w3
    /\ spans w3 = spans w2
    /\ log w3 = log w2.
Proof.
  intros self Hbody Hentities Hparent.
  exists (entity_closed [] segment w2).
  split; [by apply xray_root_scope|].
  split; [reflexivity|]. split; [reflexivity|].
  split; [|by split].
  rewrite segment_open_last. cbn. by intros [x Hx].
Qed.

(** X13: the scope of another operation inside an open segment opens a
    subsegment under the segment of the innermost entity; around a block that
    returns and leaves that subsegment innermost, it returns the value of the
    block, sends the subsegment once and leaves the entities around it in the
    context. *)
Theorem xray_subsegment_scope_closes {A} r name attributes (body : handle -> G A)
    w top a w2 outer subsegment :
  let self := {| XRayBackend.recorder := Some r |} in
  name <> "aws_cli_command" ->
  last (XRay.entities (xray_recorder w)) = Some top ->
  body (HEntity (next_oid w)) (subsegment_entered name attributes top w) = Done (Ok a) w2 ->
  XRay.entities (xray_recorder w2) = outer ++ [subsegment] ->
  XRay.is_subsegment subsegment = true ->
  exists w3,
    with_ (create_span self name attributes) body w = Done (Ok (Some a)) w3
    /\ XRay.entities (xray_recorder w3) = outer
    /\ XRay.closed (xray_recorder w3) = XRay.closed (xray_recorder w2) ++ [subsegment]
    /\ last (XRay.entities (xray_recorder (subsegment_entered name attributes top w)))
       = Some (opened_subsegment (next_oid w) name
                 (default (XRay.id top) (XRay.parent_segment top)) attributes)
    /\ spans w3 = spans w2
    /\ log w3 = log w2.
Proof.
  intros self Hname Htop Hbody Hentities Hsub.
  exists (entity_closed outer subsegment w2).
  split; [by eapply xray_subsegment_scope|].
  split; [reflexivity|]. split; [reflexivity|].
  split; [|by split].
  unfold subsegment_entered. cbn [xray_recorder set_xray_recorder XRay.entities].
  rewrite last_fmap_snoc, on_entity_same by reflexivity. reflexivity.
Qed.

(** X14, as the code behaves: when the block of the scope of another
    operation raises inside an open segment, the subsegment is sent once with
    the fault attached and the entities around it stay in the context; a
    fault that is an instance of [Exception] is then logged and replaced by
    the [RuntimeError] of the context manager protocol, any other fault
    comes back unchanged. *)
Theorem xray_subsegment_scope_fault {A} r name attributes (body : handle -> G A)
    w top e w2 outer subsegment :
  let self := {| XRayBackend.recorder := Some r |} in
  let ref := next_oid w in
  name <> "aws_cli_command" ->
  last (XRay.entities (xray_recorder w)) = Some top ->
  body (HEntity ref) (subsegment_entered name attributes top w) = Done (Raise e) w2 ->
  XRay.entities (xray_recorder w2) = outer ++ [subsegment] ->
  XRay.is_subsegment subsegment = true ->
  XRay.id subsegment = ref ->
  Forall (fun entity => XRay.id entity <> ref) outer ->
  exists w3,
    with_ (create_span self name attributes) body w
    = Done (Raise (if isinstance_Exception e
                   then Exn (next_oid w2) RuntimeError "generator didn't stop after throw()"
                   else e)) w3
    /\ XRay.entities (xray_recorder w3) = outer
    /\ XRay.closed (xray_recorder w3)
       = XRay.closed (xray_recorder w2) ++ [Entity.with_exception e subsegment]
    /\ log w3
       = log w2 ++ (if isinstance_Exception e
                    then [(DEBUG, "X-Ray subsegment creation failed: " +:+ msg e)]
                    else []).
Proof.
  intros self ref Hname Htop Hbody Hentities Hsub Hid Houter. subst ref.
  assert (Entity.on_entity (next_oid w) (Entity.with_exception e) <$> outer = outer)
    as Hsame.
  { clear -Houter. induction Houter as [|x outer Hx _ IH]; [done|].
    cbn [fmap list_fmap]. unfold Entity.on_entity at 1.
    apply Nat.eqb_neq in Hx. rewrite Hx. by rewrite IH. }
  unfold with_, bind, subsegment_entered in *.
  evaluate. apply String.eqb_neq in Hname. rewrite Hname.
  evaluate_to_last. rewrite Htop. evaluate_to_last.
  destruct (XRay.parent_segment top) as [p|] eqn:Hp;
    evaluate_to_last; rewrite Htop; evaluate_to_last; rewrite Hp;
    evaluate_to_last;
    (erewrite bind_done by apply for_each_record_attribute);
    evaluate_to_last;
    cbn [default] in Hbody;
    match goal with
    | |- context [body ?h ?w0] =>
        replace (body h w0) with (Done (A := A) (Raise e) w2)
          by (rewrite <- Hbody; reflexivity)
    end;
    evaluate_to_last; rewrite Hentities, fmap_app; cbn [fmap list_fmap];
    rewrite Hsame, on_entity_same by exact Hid;
    rewrite last_snoc; evaluate_to_last;
    change (XRay.is_subsegment (Entity.with_exception e subsegment))
      with (XRay.is_subsegment subsegment);
    rewrite Hsub; evaluate_to_last; rewrite removelast_last;
    (destruct (isinstance_Exception e) eqn:Hexc;
     evaluate_to_last; rewrite ?exn_is_refl).
  all: eexists; (split; [reflexivity|]); cbn; rewrite ?app_nil_r; done.
Qed.

(** X15: scopes nest: the scope of another operation, with an empty block,
    inside the scope of the root operation leaves an empty context; the
    subsegment was sent first and the segment after it, each once, each with
    the entries of its own attributes. *)
Theorem xray_scopes_nest r attributes name inner w :
  let self := {| XRayBackend.recorder := Some r |} in
  let ref := next_oid w in
  name <> "aws_cli_command" ->
  exists w',
    with_ (create_span self "aws_cli_command" attributes) (fun _ =>
      with_ (create_span self name inner) (fun _ => ret tt)) w
    = Done (Ok (Some (Some tt))) w'
    /\ xray_recorder w'
       = {| XRay.entities := [];
            XRay.closed :=
              XRay.closed (xray_recorder w)
              ++ [opened_subsegment (S ref) name ref inner;
                  opened_segment ref "aws_cli_command" attributes] |}.
Proof.
  intros self ref Hname.
  set (segment := opened_segment ref "aws_cli_command" attributes).
  set (w1 := segment_entered attributes w).
  assert (last (XRay.entities (xray_recorder w1)) = Some segment) as Htop by reflexivity.
  assert (XRay.parent_segment segment = None) as Hparent
    by (unfold segment, opened_segment; by rewrite routed_parent).
  assert (XRay.id segment = ref) as Hid
    by (unfold segment, opened_segment; by rewrite routed_id).
  assert (XRay.entities (xray_recorder (subsegment_entered name inner segment w1))
          = [segment] ++ [opened_subsegment (S ref) name ref inner]) as Hentities.
  { unfold subsegment_entered. cbn [xray_recorder set_xray_recorder XRay.entities].
    rewrite Hparent, Hid. cbn [default w1 segment_entered next_oid set_next_oid
      set_xray_recorder xray_recorder XRay.entities app fmap list_fmap].
    fold ref segment. unfold Entity.on_entity at 1. rewrite Hid.
    replace (ref =? S ref)%nat with false by (symmetry; apply Nat.eqb_neq; lia).
    rewrite on_entity_same by reflexivity. reflexivity. }
  assert (XRay.is_subsegment (opened_subsegment (S ref) name ref inner) = true) as Hsub
    by (unfold XRay.is_subsegment, opened_subsegment; by rewrite routed_parent).
  pose proof (xray_subsegment_scope r name inner (fun _ => ret tt) w1 segment tt
                _ [segment] _ Hname Htop eq_refl Hentities Hsub) as Hinner.
  cbn zeta in Hinner. fold self in Hinner.
  pose proof (xray_root_scope r attributes
                (fun _ => with_ (create_span self name inner) (fun _ => ret tt))
                w (Some tt) _ segment Hinner eq_refl Hparent) as Houter.
  cbn zeta in Houter. fold self in Houter.
  eexists. split; [exact Houter|].
  unfold entity_closed, subsegment_entered, w1, segment_entered.
  cbn [xray_recorder set_xray_recorder XRay.closed]. by rewrite <- app_assoc.
Qed.

(** ** otel.py: construction of the manager *)

Lemma otel_init_eval w :
  OTelManager.__init__ w =
    if xray_tracing_enabled w || negb (OTelManager.nonempty (otlp_endpoint w))
    then Done (Ok (otel_manager_with [OTel.ConsoleSpanExporter] w)) (set_spans [] w)
    else
      match exporter_failure w (otlp_endpoint w) with
      | None =>
          Done (Ok (otel_manager_with
                      [OTel.ConsoleSpanExporter; OTel.OTLPSpanExporter (otlp_endpoint w)] w))
            (set_spans [] w)
      | Some (c, m) =>
          if is_Exception c
          then Done (Ok (otel_manager_with [OTel.ConsoleSpanExporter] w))
                 (set_next_oid (S (next_oid w)) (set_spans [] w))
          else Done (Raise (Exn (next_oid w) c m)) (set_next_oid (S (next_oid w)) w)
      end.
Proof.
  unfold OTelManager.__init__, xray_tracing_enabled, otlp_endpoint.
  evaluate.
  destruct (String.eqb (Py.lower _) "true"); evaluate; [reflexivity|].
  fold (otlp_endpoint w).
  destruct (OTelManager.nonempty (otlp_endpoint w)); evaluate; [|reflexivity].
  destruct (exporter_failure w (otlp_endpoint w)) as [[c m]|]; evaluate; [|reflexivity].
  unfold isinstance_Exception. evaluate.
  destruct (is_Exception c); reflexivity.
Qed.

(** X16: the manager of [otel.py] is constructed with the console exporter
    alone, whatever the construction of the network exporter would do, when
    X-Ray tracing is enabled or the endpoint is the empty string; otherwise,
    where the OpenTelemetry packages are installed, its constructor attaches
    the exporters that [OTLPBackend.__init__] attaches in the same state, and
    fails exactly when that constructor fails, with a fault of the same class
    and message, which is no instance of [Exception].  Nothing is said of the
    states in which the two constructors end. *)
Theorem otel_manager_exporters w :
  (xray_tracing_enabled w = true \/ otlp_endpoint w = EmptyString ->
     exists self w',
       OTelManager.__init__ w = Done (Ok self) w'
       /\ OTel.span_processors (OTelManager.tracer_provider self)
          = [OTel.ConsoleSpanExporter])
  /\ (xray_tracing_enabled w = false -> otlp_endpoint w <> EmptyString ->
      otel_installed w = true ->
      match OTLPBackend.__init__ w with
      | Done (Ok backend) _ =>
          exists self w',
            OTelManager.__init__ w = Done (Ok self) w'
            /\ OTel.span_processors (OTelManager.tracer_provider self)
               = exporters backend
      | Done (Raise e) _ =>
          isinstance_Exception e = false
          /\ exists e' w',
               OTelManager.__init__ w = Done (Raise e') w'
               /\ cls e' = cls e /\ msg e' = msg e
      | Susp _ _ _ => False
      end).
Proof.
  rewrite otel_init_eval. split.
  - intros Hconsole. eexists _, _.
    destruct Hconsole as [-> | ->]; [|rewrite orb_true_r]; by split.
  - intros -> Hendpoint Hinstalled.
    rewrite (otlp_init_installed w Hinstalled).
    destruct (otlp_endpoint w) as [|c endpoint] eqn:Heq; [done|].
    cbn [OTelManager.nonempty negb orb].
    destruct (exporter_failure w (String c endpoint)) as [[cls m]|].
    + destruct (is_Exception cls) eqn:Hcls.
      * eexists _, _. by split.
      * split; [exact Hcls|]. eexists _, _. by split.
    + eexists _, _. by split.
Qed.

(** ** otel.py: the two serialisers *)

(** X17: [span_to_otlp_json] of [otel.py] and the serialiser of the OTLP
    backend agree on every entry of the record of a span but [status]; the
    former answers [STATUS_CODE_OK] exactly for a span of status [OK] and
    [STATUS_CODE_ERROR] for every other span, a span of status [UNSET]
    included; the two records are equal exactly when the status is [OK]. *)
Theorem serialisers_differ_in_the_status_only now span :
  (forall key, key <> "status" ->
     json_get key (OTelTraceManager.span_to_otlp_json now span)
     = json_get key (OTLPBackend.span_json now span))
  /\ (exported_status_code (OTelTraceManager.span_to_otlp_json now span)
      = Some "STATUS_CODE_OK"
      <-> OTel.status_code (OTel.status span) = OTel.OK)
  /\ (exported_status_code (OTelTraceManager.span_to_otlp_json now span)
      = Some "STATUS_CODE_ERROR"
      <-> OTel.status_code (OTel.status span) <> OTel.OK)
  /\ (OTelTraceManager.span_to_otlp_json now span = OTLPBackend.span_json now span
      <-> OTel.status_code (OTel.status span) = OTel.OK).
Proof.
  split; [|split; [|split]].
  - intros key Hkey.
    unfold OTelTraceManager.span_to_otlp_json, OTLPBackend.span_json, json_get.
    cbn [List.find fst snd].
    repeat (destruct (String.eqb _ key) eqn:?; [reflexivity|]).
    destruct (String.eqb_spec "status" key) as [<-|_]; [done | reflexivity].
  - unfold exported_status_code. cbn.
    destruct (OTel.status_code (OTel.status span)); split; done.
  - unfold exported_status_code. cbn.
    destruct (OTel.status_code (OTel.status span)); split; done.
  - unfold OTelTraceManager.span_to_otlp_json, OTLPBackend.span_json.
    destruct (OTel.status_code (OTel.status span)); split;
      first [reflexivity | discriminate | intros H; by inversion H].
Qed.

(** ** otel.py: scopes of [trace_operation] *)

Lemma otel_create_span self name attributes w :
  OTelManager.create_span self name attributes w
  = Done (Ok (next_oid w)) (entered (OTelManager.tracer self) name (OTelManager.items attributes) w).
Proof.
  unfold OTelManager.create_span.
  rewrite (bind_done _ _ _ _ _ (start_span_eval _ name w)).
  destruct attributes as [[|kv attributes]|]; try reflexivity.
  cbn [OTelManager.truthy OTelManager.items default].
  unfold entered at 1.
  erewrite bind_done by apply for_each_set_attribute.
  reflexivity.
Qed.

(** A scope of [trace_operation] that is not wrapped in an X-Ray segment,
    around a block that does not yield. *)
Lemma otel_scope {A} self name attributes (body : handle -> G A) w r w2 :
  let ref := next_oid w in
  xray_segment_wanted name w = false ->
  body (HSpan ref) (entered (OTelManager.tracer self) name (OTelManager.items attributes) w)
  = Done r w2 ->
  with_ (OTelManager.trace_operation self name attributes) body w =
    match r with
    | Ok a => Done (Ok (Some a)) (finalised ref w2)
    | Raise e => Done (Raise e) (finalised ref (otel_failed ref e w2))
    end.
Proof.
  intros ref Hwanted Hbody. unfold with_.
  unfold OTelManager.trace_operation, logging.info.
  cbn [__enter__ contextlib.contextmanager].
  unfold bind at 1.
  do 3 (erewrite (bind_done (ret tt)) by reflexivity).
  erewrite bind_done by apply otel_create_span.
  erewrite (bind_done XRAY_SDK_AVAILABLE) by reflexivity.
  fold ref.
  assert (importable (entered (OTelManager.tracer self) name (OTelManager.items attributes) w)
          = importable w) as -> by reflexivity.
  assert (forall k d,
            getenv k d (entered (OTelManager.tracer self) name (OTelManager.items attributes) w)
            = Done (Ok (default d (environ w !! k)))
                (entered (OTelManager.tracer self) name (OTelManager.items attributes) w))
    as Hgetenv by reflexivity.
  remember (entered (OTelManager.tracer self) name (OTelManager.items attributes) w)
    as w1 eqn:Hw1.
  unfold xray_segment_wanted in Hwanted.
  assert (forall (k : resume -> world -> run unit),
    (forall w', k Next w' = Done (Ok tt) (finalised ref w')) ->
    (forall e w', k (Throw e) w' = Done (Raise e) (finalised ref (otel_failed ref e w'))) ->
    run_bind (Done (Ok (HSpan ref, contextlib.generator_exit k)) w1)
      (fun r0 =>
         match r0 with
         | Ok a =>
             let (value, __exit__) := a in
             fun w0 =>
               run_bind (body value w0)
                 (fun r1 =>
                    match r1 with
                    | Ok a0 => (__exit__ None;; ret (Some a0))
                    | Raise e =>
                        (suppress <- __exit__ (Some e);;
                         if (suppress : bool) then ret None else raise e)
                    end)
         | Raise e => raise e
         end)
    = match r with
      | Ok a => Done (Ok (Some a)) (finalised ref w2)
      | Raise e => Done (Raise e) (finalised ref (otel_failed ref e w2))
      end) as Hexit.
  { intros k Hnext Hthrow. cbn [run_bind]. rewrite Hbody. cbn [run_bind].
    destruct r as [a|e].
    - unfold bind, contextlib.generator_exit. rewrite Hnext. reflexivity.
    - unfold bind, contextlib.generator_exit. rewrite Hthrow.
      rewrite exn_is_refl. reflexivity. }
  match goal with
  | |- run_bind (match ?g w1 with _ => _ end) _ = _ =>
      assert (exists k,
                g w1 = Susp (HSpan ref) w1 k
                /\ (forall w', k Next w' = Done (Ok tt) (finalised ref w'))
                /\ (forall e w',
                      k (Throw e) w'
                      = Done (Raise e) (finalised ref (otel_failed ref e w'))))
        as (k & Hg & Hnext & Hthrow)
  end.
  { clear Hexit Hbody.
    assert (forall k0 : resume -> world -> run unit,
              k0 = (fun rs w'0 =>
                run_bind
                  (run_bind
                     (run_bind
                        match rs with
                        | Next => Done (Ok tt) w'0
                        | Throw e => Done (Raise e) w'0
                        end
                        (fun r0 : result unit =>
                           match r0 with
                           | Ok a => ret a
                           | Raise e =>
                               if isinstance_Exception e
                               then
                                 (logging.error ("Exception in trace operation: " +:+ msg e);;
                                  Span.set_status ref
                                    {| OTel.status_code := OTel.ERROR;
                                       OTel.description := Some (msg e) |};;
                                  raise e)
                               else raise e
                           end))
                     (fun r0 : result unit =>
                        ((Span.end_ ref;;
                          sdk <- OTLPBackend.isinstance_SDKSpan ref;;
                          (if (sdk : bool) then SpanCollector.add_span ref else ret tt));;
                         match r0 with
                         | Ok a => ret a
                         | Raise e => raise e
                         end)))
                  (fun r0 : result unit =>
                     match r0 with
                     | Ok _ => ret tt
                     | Raise e => raise e
                     end)) ->
              (forall w', k0 Next w' = Done (Ok tt) (finalised ref w'))
              /\ (forall e w',
                    k0 (Throw e) w'
                    = Done (Raise e) (finalised ref (otel_failed ref e w')))) as Hk.
    { intros k0 ->. split.
      - intros w'. unfold finalised. evaluate. rewrite lookup_total_insert_eq.
        destruct (OTel.is_sdk_span _); evaluate; rewrite ?lookup_total_insert_eq;
          reflexivity.
      - intros e w'. unfold finalised, otel_failed, error_status. evaluate.
        destruct (isinstance_Exception e); evaluate; rewrite ?lookup_total_insert_eq;
          (destruct (OTel.is_sdk_span _); evaluate; rewrite ?lookup_total_insert_eq;
           reflexivity). }
    destruct (importable w "aws_xray_sdk.core" && importable w "aws_xray_sdk.core.context"
              && (name =? "aws_cli_command")%string) eqn:Hcond.
    - cbn [andb] in Hwanted. unfold bind at 1.
      erewrite bind_done by apply Hgetenv.
      change (Py.lower (default "false" (environ w !! "AWS_XRAY_TRACING_ENABLED")) =? "true")%string
        with (xray_tracing_enabled w).
      rewrite Hwanted. evaluate. eexists. split; [reflexivity|].
      apply Hk. reflexivity.
    - evaluate. eexists. split; [reflexivity|].
      apply Hk. reflexivity. }
  rewrite Hg. exact (Hexit k Hnext Hthrow).
Qed.

Lemma otel_failed_closing {A} tracer name attributes (r : result A) w w2 :
  let ref := next_oid w in
  OTel.records tracer = true ->
  objects w2 !!! ref = with_attributes attributes (started_span tracer name w) ->
  exists span w3,
    match r with
    | Ok _ => finalised ref w2
    | Raise e => finalised ref (otel_failed ref e w2)
    end = w3
    /\ spans w3 = spans w2 ++ [span]
    /\ objects w3 !!! ref = span
    /\ next_oid w3 = next_oid w2
    /\ xray_recorder w3 = xray_recorder w2
    /\ OTel.name span = name
    /\ OTel.end_time span = Some (clock w2)
    /\ OTel.status span = scope_status r
    /\ OTel.attributes span
       = OTel.attributes (with_attributes attributes (started_span tracer name w)).
Proof.
  intros ref Hrec Hspan.
  set (logged e := set_log (log w2 ++ [(ERROR_LEVEL, "Exception in trace operation: " +:+ msg e)]) w2).
  destruct r as [a|e].
  - destruct (closing_span tracer name attributes (Ok a) w w2 Hrec Hspan)
      as (span & Hfinal & Hname & _ & Hend & Hstatus & Hattrs & _).
    fold ref in Hfinal. eexists span, _. split; [reflexivity|]. rewrite Hfinal.
    cbn [spans set_spans objects set_objects next_oid xray_recorder].
    rewrite lookup_total_insert_eq. done.
  - destruct (closing_span tracer name attributes (Raise (A := A) e) w
                (if isinstance_Exception e then logged e else w2) Hrec)
      as (span & Hfinal & Hname & _ & Hend & Hstatus & Hattrs & _).
    { by destruct (isinstance_Exception e). }
    fold ref in Hfinal. eexists span, _. split; [reflexivity|].
    replace (otel_failed ref e w2)
      with (failed ref e (if isinstance_Exception e then logged e else w2))
      by (unfold otel_failed, failed; by destruct (isinstance_Exception e)).
    rewrite Hfinal.
    cbn [spans set_spans objects set_objects next_oid xray_recorder].
    rewrite lookup_total_insert_eq.
    destruct (isinstance_Exception e); done.
Qed.

(** X18: a scope of [trace_operation] that is not wrapped in an X-Ray
    segment, around a block that leaves the span as it was, ends with the
    result of the block, a fault coming back as it was raised; one span is
    added to the collector, named after the scope, ended at the clock of the
    exit, with the status [ERROR] for a fault that is an instance of
    [Exception] and [UNSET] otherwise; in both cases its record carries
    [STATUS_CODE_ERROR]. *)
Theorem otel_scope_reraises_and_collects {A} self name attributes
    (body : handle -> G A) w r w2 :
  let ref := next_oid w in
  let tracer := OTelManager.tracer self in
  OTel.records tracer = true ->
  xray_segment_wanted name w = false ->
  body (HSpan ref) (entered tracer name (OTelManager.items attributes) w) = Done r w2 ->
  objects w2 !!! ref
  = with_attributes (OTelManager.items attributes) (started_span tracer name w) ->
  exists span w3,
    with_ (OTelManager.trace_operation self name attributes) body w
    = Done (scope_result r) w3
    /\ spans w3 = spans w2 ++ [span]
    /\ OTel.name span = name
    /\ OTel.end_time span = Some (clock w2)
    /\ OTel.status span = scope_status r
    /\ forall now,
         exported_status_code (OTelTraceManager.span_to_otlp_json now span)
         = Some "STATUS_CODE_ERROR".
Proof.
  intros ref tracer Hrec Hwanted Hbody Hspan.
  destruct (otel_failed_closing tracer name (OTelManager.items attributes) r w w2 Hrec Hspan)
    as (span & w3 & Hfinal & Hspans & _ & _ & _ & Hname & Hend & Hstatus & _).
  exists span, w3. split.
  { rewrite (otel_scope self name attributes body w r w2 Hwanted Hbody).
    fold ref. rewrite <- Hfinal. by destruct r. }
  repeat (split; [assumption|]).
  intros now. unfold exported_status_code. cbn. rewrite Hstatus.
  destruct r as [a|e]; [reflexivity|]. cbn. by destruct (isinstance_Exception e).
Qed.

Lemma otel_get_resource_spans (self : OTelManager.t) w :
  OTelManager.get_resource_spans self w
  = Done (Ok (export_envelope (OTelTraceManager.span_to_otlp_json (clock w) <$> spans w)))
      (set_spans [] w).
Proof. reflexivity. Qed.

(** X19, as the code behaves: a scope of [trace_operation] that ends
    normally is exported by [get_resource_spans] of [otel.py] as one record
    with the status code [STATUS_CODE_ERROR], since the status of the span is
    never set to [OK]; the export empties the collector, and a second export
    holds no span. *)
Theorem otel_success_is_exported_as_error {A} self name attributes
    (body : handle -> G A) w a w2 :
  let ref := next_oid w in
  let tracer := OTelManager.tracer self in
  OTel.records tracer = true ->
  xray_segment_wanted name w = false ->
  body (HSpan ref) (entered tracer name (OTelManager.items attributes) w) = Done (Ok a) w2 ->
  objects w2 !!! ref
  = with_attributes (OTelManager.items attributes) (started_span tracer name w) ->
  spans w2 = [] ->
  exists record w3,
    (with_ (OTelManager.trace_operation self name attributes) body ;;
     OTelManager.get_resource_spans self) w
    = Done (Ok (export_envelope [record])) w3
    /\ json_get "name" record = Some (JStr name)
    /\ exported_status_code record = Some "STATUS_CODE_ERROR"
    /\ spans w3 = []
    /\ exists j,
         OTelManager.get_resource_spans self w3 = Done (Ok j) w3
         /\ exported_spans j = Some [].
Proof.
  intros ref tracer Hrec Hwanted Hbody Hspan Hempty.
  destruct (otel_failed_closing tracer name (OTelManager.items attributes) (Ok a) w w2
              Hrec Hspan)
    as (span & w3 & Hfinal & Hspans & _ & _ & _ & Hname & _ & Hstatus & _).
  rewrite Hempty in Hspans. cbn [app] in Hspans.
  exists (OTelTraceManager.span_to_otlp_json (clock w3) span), (set_spans [] w3).
  split.
  { erewrite bind_done
      by (rewrite (otel_scope self name attributes body w (Ok a) w2 Hwanted Hbody);
          cbn iota; rewrite Hfinal; reflexivity).
    rewrite otel_get_resource_spans, Hspans. reflexivity. }
  split; [cbn; by rewrite Hname|].
  split; [unfold exported_status_code; cbn; by rewrite Hstatus|].
  split; [reflexivity|].
  eexists. split; [rewrite otel_get_resource_spans; reflexivity|]. reflexivity.
Qed.

(** Entering a scope of [trace_operation] that is wrapped in an X-Ray
    segment, and the two ways out of it. *)
Lemma otel_xray_enter self attributes w :
  let name := "aws_cli_command" in
  let ref := next_oid w in
  let tracer := OTelManager.tracer self in
  xray_segment_wanted name w = true ->
  exists __exit__,
    __enter__ (OTelManager.trace_operation self name attributes) w
    = Done (Ok (HSpan ref, __exit__)) (otel_segment_entered tracer name attributes w)
    /\ forall w' segment,
         XRay.entities (xray_recorder w') = [segment] ->
         XRay.id segment = S ref ->
         XRay.parent_segment segment = None ->
         __exit__ None w'
         = Done (Ok false) (entity_closed [] segment (finalised ref w'))
         /\ forall e,
              oid e <> next_oid w' ->
              __exit__ (Some e) w'
              = if isinstance_Exception e
                then Done (Raise (missing_stack w'))
                       (entity_closed []
                          (Entity.with_exception (missing_stack w') segment)
                          (finalised ref
                             (set_next_oid (S (next_oid w')) (otel_failed ref e w'))))
                else Done (Ok false)
                       (entity_closed [] (Entity.with_exception e segment)
                          (finalised ref w')).
Proof.
  intros name ref tracer Hwanted. unfold xray_segment_wanted in Hwanted.
  apply andb_prop in Hwanted as [Hcond Henabled].
  unfold OTelManager.trace_operation, logging.info.
  cbn [__enter__ contextlib.contextmanager].
  do 3 (erewrite (bind_done (ret tt)) by reflexivity).
  erewrite bind_done by apply otel_create_span.
  erewrite (bind_done XRAY_SDK_AVAILABLE) by reflexivity.
  fold ref tracer.
  assert (importable (entered tracer name (OTelManager.items attributes) w)
          = importable w) as -> by reflexivity.
  change (importable w "aws_xray_sdk.core" && importable w "aws_xray_sdk.core.context"
          && (name =? "aws_cli_command")%string)
    with (importable w "aws_xray_sdk.core" && importable w "aws_xray_sdk.core.context"
          && ("aws_cli_command" =? "aws_cli_command")%string) in *.
  rewrite Hcond. unfold bind at 1.
  erewrite (bind_done (getenv _ _)) by reflexivity.
  change (environ (entered tracer name (OTelManager.items attributes) w)) with (environ w).
  change (Py.lower (default "false" (environ w !! "AWS_XRAY_TRACING_ENABLED")) =? "true")%string
    with (xray_tracing_enabled w).
  rewrite Henabled.
  assert (forall segment,
            (if OTelManager.truthy attributes
             then for_each (OTelManager.items attributes)
                    (OTelTraceManager.record_attribute segment)
             else ret tt)
            = for_each (OTelManager.items attributes)
                (XRayBackend.record_attribute segment)) as Hloop
    by (intros segment; by destruct attributes as [[|kv attributes]|]).
  evaluate. rewrite Hloop.
  erewrite bind_done by apply for_each_record_attribute.
  evaluate.
  rewrite (on_entity_same _ (Entity.with_annotation "operation" _)) by reflexivity.
  rewrite (on_entity_same _ (Entity.with_annotation "service" _)) by reflexivity.
  rewrite on_entity_same by reflexivity.
  eexists. split; [reflexivity|].
  intros w' segment Hentities Hid Hparent. subst ref. split.
  - unfold contextlib.generator_exit, finalised, entity_closed.
    evaluate_to_last. rewrite lookup_total_insert_eq.
    destruct (OTel.is_sdk_span _); evaluate_to_last; rewrite ?lookup_total_insert_eq;
      rewrite Hentities; evaluate; rewrite Hparent; evaluate; rewrite Hentities;
      evaluate; rewrite decide_True by reflexivity; reflexivity.
  - intros e Hoid.
    unfold contextlib.generator_exit, finalised, otel_failed, entity_closed, missing_stack,
      error_status, logging.error.
    destruct (isinstance_Exception e) eqn:Hexc.
    + evaluate_to_last. rewrite Hexc. evaluate_to_last.
      rewrite ?lookup_total_insert_eq.
      assert ((next_oid w' =? oid e)%nat = false) as Hfresh
        by (apply Nat.eqb_neq; congruence).
      destruct (OTel.is_sdk_span _); evaluate_to_last; rewrite ?lookup_total_insert_eq;
        rewrite Hentities; evaluate; rewrite on_entity_same by exact Hid;
        evaluate; rewrite Hparent; evaluate;
        rewrite decide_True by reflexivity; unfold exn_is; evaluate; rewrite Hfresh;
        reflexivity.
    + evaluate_to_last. rewrite Hexc. evaluate_to_last.
      rewrite ?lookup_total_insert_eq.
      destruct (OTel.is_sdk_span _); evaluate_to_last; rewrite ?lookup_total_insert_eq;
        rewrite Hentities; evaluate; rewrite on_entity_same by exact Hid;
        evaluate; rewrite Hparent; evaluate;
        rewrite decide_True by reflexivity; rewrite exn_is_refl;
        reflexivity.
Qed.

Lemma finalised_set_next_oid ref n w :
  finalised ref (set_next_oid n w) = set_next_oid n (finalised ref w).
Proof.
  unfold finalised. cbn [objects set_next_oid clock spans].
  by destruct (OTel.is_sdk_span _).
Qed.

(** X20: with X-Ray tracing enabled, the scope of [trace_operation] for
    the root operation opens a segment that holds the annotations [operation]
    and [service] and the attributes of the call, routed as the X-Ray backend
    routes them; around a block that returns, the segment is sent once, the
    context is left empty and the span of the scope is added to the
    collector. *)
Theorem otel_xray_scope_closes_the_segment {A} self attributes
    (body : handle -> G A) w a w2 segment :
  let name := "aws_cli_command" in
  let ref := next_oid w in
  let tracer := OTelManager.tracer self in
  xray_segment_wanted name w = true ->
  OTel.records tracer = true ->
  body (HSpan ref) (otel_segment_entered tracer name attributes w) = Done (Ok a) w2 ->
  objects w2 !!! ref
  = with_attributes (OTelManager.items attributes) (started_span tracer name w) ->
  XRay.entities (xray_recorder w2) = [segment] ->
  XRay.id segment = S ref ->
  XRay.parent_segment segment = None ->
  exists span w3,
    with_ (OTelManager.trace_operation self name attributes) body w
    = Done (Ok (Some a)) w3
    /\ xray_recorder w3
       = {| XRay.entities := [];
            XRay.closed := XRay.closed (xray_recorder w2) ++ [segment] |}
    /\ spans w3 = spans w2 ++ [span]
    /\ OTel.name span = name
    /\ XRay.entities (xray_recorder (otel_segment_entered tracer name attributes w))
       = [otel_segment (S ref) name attributes]
    /\ XRay.annotations (otel_segment (S ref) name attributes)
       = routed_annotations (OTelManager.items attributes)
           (<["service" := "aws-api-mcp-server"]> (<["operation" := name]> ∅))
    /\ XRay.metadata (otel_segment (S ref) name attributes)
       = routed_metadata (OTelManager.items attributes) ∅.
Proof.
  intros name ref tracer Hwanted Hrec Hbody Hspan Hentities Hid Hparent.
  destruct (otel_xray_enter self attributes w Hwanted) as (__exit__ & Henter & Hexit).
  destruct (Hexit w2 segment Hentities Hid Hparent) as [Hnone _].
  destruct (otel_failed_closing tracer name (OTelManager.items attributes) (Ok a) w w2
              Hrec Hspan)
    as (span & w3 & Hfinal & Hspans & _ & _ & Hrecorder & Hname & _).
  exists span, (entity_closed [] segment w3). split.
  { unfold with_. erewrite bind_done by exact Henter.
    cbn beta iota. fold ref tracer name. rewrite Hbody. cbn [run_bind].
    erewrite bind_done by exact Hnone. by rewrite Hfinal. }
  unfold entity_closed. cbn [xray_recorder set_xray_recorder spans].
  rewrite Hrecorder. split; [reflexivity|]. split; [exact Hspans|].
  split; [exact Hname|]. split; [reflexivity|].
  unfold otel_segment. by rewrite routed_annotations_spec, routed_metadata_spec.
Qed.

(** X21, as the code behaves: with X-Ray tracing enabled, a fault of the
    block of the root operation that is an instance of [Exception] does not
    come back from [trace_operation]: the handler calls
    [segment.add_exception(e)] without the stack that the method requires,
    and the caller receives the [TypeError] of that call; the span is still
    collected with the status [ERROR] of the fault, and the segment is sent
    with the [TypeError] attached.  A fault that is no instance of
    [Exception] comes back unchanged. *)
Theorem otel_xray_scope_replaces_the_fault {A} self attributes
    (body : handle -> G A) w e w2 segment :
  let name := "aws_cli_command" in
  let ref := next_oid w in
  let tracer := OTelManager.tracer self in
  let raised := if isinstance_Exception e then missing_stack w2 else e in
  xray_segment_wanted name w = true ->
  OTel.records tracer = true ->
  body (HSpan ref) (otel_segment_entered tracer name attributes w) = Done (Raise e) w2 ->
  (oid e < next_oid w2)%nat ->
  objects w2 !!! ref
  = with_attributes (OTelManager.items attributes) (started_span tracer name w) ->
  XRay.entities (xray_recorder w2) = [segment] ->
  XRay.id segment = S ref ->
  XRay.parent_segment segment = None ->
  exists span w3,
    with_ (OTelManager.trace_operation self name attributes) body w
    = Done (Raise raised) w3
    /\ xray_recorder w3
       = {| XRay.entities := [];
            XRay.closed :=
              XRay.closed (xray_recorder w2) ++ [Entity.with_exception raised segment] |}
    /\ spans w3 = spans w2 ++ [span]
    /\ OTel.status span = scope_status (Raise (A := A) e)
    /\ (raised = e <-> isinstance_Exception e = false).
Proof.
  intros name ref tracer raised Hwanted Hrec Hbody Hoid Hspan Hentities Hid Hparent.
  destruct (otel_xray_enter self attributes w Hwanted) as (__exit__ & Henter & Hexit).
  destruct (Hexit w2 segment Hentities Hid Hparent) as [_ Hsome].
  specialize (Hsome e ltac:(lia)).
  destruct (otel_failed_closing tracer name (OTelManager.items attributes)
              (Raise (A := A) e) w w2 Hrec Hspan)
    as (span & w3 & Hfinal & Hspans & _ & _ & Hrecorder & _ & _ & Hstatus & _).
  fold ref in Hfinal.
  assert (with_ (OTelManager.trace_operation self name attributes) body w
          = run_bind (__exit__ (Some e) w2)
              (fun r => match r with
                        | Ok suppress => if (suppress : bool) then ret None else raise e
                        | Raise x => raise x
                        end)) as ->.
  { unfold with_. erewrite bind_done by exact Henter.
    cbn beta iota. fold ref tracer name. rewrite Hbody. reflexivity. }
  rewrite Hsome. fold ref. unfold raised.
  destruct (isinstance_Exception e) eqn:Hexc.
  - rewrite finalised_set_next_oid, Hfinal.
    exists span. eexists. split; [reflexivity|].
    unfold entity_closed. cbn [xray_recorder set_xray_recorder spans set_next_oid].
    rewrite Hrecorder. split; [reflexivity|]. split; [exact Hspans|].
    split; [exact Hstatus|].
    split; [|discriminate]. unfold missing_stack. intros <-. cbn in Hoid. lia.
  - replace (finalised ref w2) with w3
      by (rewrite <- Hfinal; unfold otel_failed; by rewrite Hexc).
    exists span. eexists. split; [reflexivity|].
    unfold entity_closed. cbn [xray_recorder set_xray_recorder spans].
    rewrite Hrecorder. split; [reflexivity|]. split; [exact Hspans|].
    split; [exact Hstatus|]. done.
Qed.

(** X22: [create_span] of [otel.py] starts a span exactly as entering a
    scope of the OTLP backend with the same tracer does: the same span object
    in the same state; [None] and an empty dictionary of attributes make no
    difference. *)
Theorem otel_create_span_matches_backend self provider name attributes w :
  let backend := {| OTLPBackend.tracer_provider := provider;
                    OTLPBackend.tracer := Some (OTelManager.tracer self) |} in
  OTelManager.create_span self name None w
  = OTelManager.create_span self name (Some []) w
  /\ exists span __exit__ w1,
       OTelManager.create_span self name attributes w = Done (Ok span) w1
       /\ __enter__ (create_span backend name (OTelManager.items attributes)) w
          = Done (Ok (HSpan span, __exit__)) w1
       /\ objects w1 !!! span
          = with_attributes (OTelManager.items attributes)
              (started_span (OTelManager.tracer self) name w).
Proof.
  intros backend. split; [reflexivity|].
  exists (next_oid w). eexists. eexists. split; [apply otel_create_span|].
  split.
  - cbn [create_span OTLPBackend_TraceBackend OTLPBackend.create_span __enter__
         contextlib.contextmanager OTLPBackend.tracer backend].
    rewrite (bind_done _ _ _ _ _ (start_span_eval _ name w)).
    unfold entered at 1.
    rewrite (bind_done _ _ _ _ _ (for_each_set_attribute _ _ _ _ _)).
    evaluate. reflexivity.
  - unfold entered. cbn [objects set_objects]. by rewrite lookup_total_insert_eq.
Qed.

(** X23: when the sampler does not record, a scope of the OTLP backend
    yields a span that is no SDK span: the attributes, the status and the end
    leave it as it was started, nothing is appended to the buffer, and the
    result of the block, a fault included, comes back as it is. *)
Theorem otlp_unsampled_scope_buffers_nothing {A} provider tracer name attributes
    (body : handle -> G A) w r w2 :
  let self := {| OTLPBackend.tracer_provider := provider;
                 OTLPBackend.tracer := Some tracer |} in
  let ref := next_oid w in
  OTel.records tracer = false ->
  body (HSpan ref) (entered tracer name attributes w) = Done r w2 ->
  objects w2 !!! ref = objects (entered tracer name attributes w) !!! ref ->
  exists w3,
    with_ (create_span self name attributes) body w = Done (scope_result r) w3
    /\ objects (entered tracer name attributes w) !!! ref = started_span tracer name w
    /\ spans w3 = spans w2
    /\ objects w3 !!! ref = started_span tracer name w
    /\ OTel.end_time (objects w3 !!! ref) = None.
Proof.
  intros self ref Hrec Hbody Hspan.
  assert (forall attributes s,
            OTel.is_sdk_span s = false -> with_attributes attributes s = s) as Hfrozen.
  { clear. intros attributes s Hs. unfold with_attributes.
    induction attributes as [|kv attributes IH]; [done|].
    cbn [fold_left]. unfold Span.with_attribute, Span.is_mutable.
    rewrite Hs. exact IH. }
  assert (objects (entered tracer name attributes w) !!! ref = started_span tracer name w)
    as Hentered.
  { unfold entered. cbn [objects set_objects].
    rewrite lookup_total_insert_eq. by apply Hfrozen. }
  assert (objects w2 !!! ref = started_span tracer name w) as Hstarted
    by (by rewrite Hspan).
  pose proof (otlp_scope tracer provider name attributes body w r w2 Hbody) as Hscope.
  cbn zeta in Hscope. fold self ref in Hscope. rewrite Hscope.
  exists (match r with
          | Ok _ => finalised ref w2
          | Raise e => finalised ref (failed ref e w2)
          end).
  split; [by destruct r|]. split; [exact Hentered|].
  assert (OTel.is_sdk_span (started_span tracer name w) = false) as Hsdk by exact Hrec.
  assert (forall t, Span.ended_at t (started_span tracer name w) = started_span tracer name w)
    as Hended by (intros t; unfold Span.ended_at, Span.is_mutable; by rewrite Hsdk).
  assert (forall st, Span.with_status st (started_span tracer name w)
                     = started_span tracer name w)
    as Hstatus by (intros st; unfold Span.with_status, Span.is_mutable; by rewrite Hsdk).
  destruct r as [a|e]; unfold finalised, failed;
    [|destruct (isinstance_Exception e)];
    cbn [objects set_objects spans clock];
    rewrite ?lookup_total_insert_eq, ?Hstarted, ?Hstatus, ?Hended, Hsdk;
    cbn [objects set_objects spans clock]; rewrite lookup_total_insert_eq; done.
Qed.

(** ** The further theorems at concrete inputs *)

(** A failing scope of the OTLP backend, entered in [idle]. *)
Lemma otlp_span_lifecycle_witness :
  let tracer := {| OTel.records := true |} in
  let self := {| OTLPBackend.tracer_provider := None; OTLPBackend.tracer := Some tracer |} in
  let attributes := [("k", Py.VStr "v")] in
  let w2 := entered tracer "op" attributes idle in
  (OTel.records tracer = true
   /\ raise (A := unit) boom w2 = Done (Raise boom) w2
   /\ objects w2 !!! next_oid idle
      = with_attributes attributes (started_span tracer "op" idle))
  /\ exists span w3,
       with_ (create_span self "op" attributes) (fun _ => raise (A := unit) boom) idle
       = Done (Raise boom) w3
       /\ spans w3 = spans w2 ++ [span]
       /\ objects w3 !!! next_oid idle = span
       /\ OTel.name span = "op"
       /\ OTel.start_time span = clock idle
       /\ OTel.end_time span = Some (clock w2)
       /\ OTel.status span = error_status boom
       /\ valid_context span.
Proof.
  intros tracer self attributes w2.
  split; [repeat split|].
  exact (otlp_span_lifecycle None tracer "op" attributes (fun _ => raise boom) idle
           (Raise boom) w2 eq_refl eq_refl eq_refl).
Defined.

(** One scope with two attributes, exported from an empty buffer. *)
Lemma otlp_attributes_round_trip_witness :
  let tracer := {| OTel.records := true |} in
  let self := {| OTLPBackend.tracer_provider := None; OTLPBackend.tracer := Some tracer |} in
  let attributes := [("aws.service", Py.VStr "s3"); ("retries", Py.VInt 3)] in
  let w2 := entered tracer "op" attributes idle in
  (OTel.records tracer = true
   /\ NoDup (fst <$> attributes)
   /\ (length attributes <= 128)%nat
   /\ Forall (fun kv => fst kv <> EmptyString) attributes
   /\ ret tt w2 = Done (Ok tt) w2
   /\ objects w2 !!! next_oid idle
      = with_attributes attributes (started_span tracer "op" idle)
   /\ spans w2 = [])
  /\ exists record w3,
       (with_ (create_span self "op" attributes) (fun _ => ret tt) ;;
        get_resource_spans self) idle
       = Done (Ok (export_envelope [record])) w3
       /\ json_get "name" record = Some (JStr "op")
       /\ json_get "attributes" record
          = Some (JList (OTLPBackend.attribute_json <$> attributes))
       /\ spans w3 = [].
Proof.
  intros tracer self attributes w2.
  assert (NoDup (fst <$> attributes)) as Hnodup
    by (apply (bool_decide_unpack _); vm_compute; reflexivity).
  assert ((length attributes <= 128)%nat) as Hlength by (cbn; lia).
  assert (Forall (fun kv => fst kv <> EmptyString) attributes) as Hkeys
    by (repeat constructor; discriminate).
  split; [repeat split; assumption|].
  exact (otlp_attributes_round_trip None tracer "op" attributes (fun _ => ret tt) idle tt w2
           eq_refl Hnodup Hlength Hkeys eq_refl eq_refl eq_refl).
Defined.

(** A block traced over a backend whose [create_span] fails on entry. *)
Lemma trace_survives_backend_failure_witness :
  let e := Exn 1 (OtherError "ConnectionError") "collector unreachable" in
  let w1 := set_next_oid 2 idle in
  let logged := set_log [(DEBUG, "Tracing failed for op: collector unreachable")] w1 in
  (__enter__ (create_span FailingBackend.new "op" []) idle = Done (Raise e) w1
   /\ isinstance_Exception e = true
   /\ raise (A := unit) boom logged = Done (Raise boom) logged)
  /\ with_ (Instrument.trace FailingBackend.new "op" []) (fun _ => raise (A := unit) boom) idle
     = Done (Raise boom) logged.
Proof.
  intros e w1 logged.
  split; [repeat split|].
  exact (trace_survives_backend_failure FailingBackend.new "op" []
           (fun _ => raise boom) idle e w1 (Raise boom) logged eq_refl eq_refl eq_refl).
Defined.

(** A block that returns, traced over the OTLP backend. *)
Lemma trace_is_transparent_on_success_witness :
  exists span __exit__ w1 w3,
    (__enter__ (create_span otlp_backend "op" []) idle = Done (Ok (span, __exit__)) w1
     /\ ret 7%nat w1 = Done (Ok 7%nat) w1
     /\ __exit__ None w1 = Done (Ok false) w3)
    /\ with_ (Instrument.trace otlp_backend "op" []) (fun _ => ret 7%nat) idle
       = Done (Ok (Some 7%nat)) w3
    /\ with_ (create_span otlp_backend "op" []) (fun _ => ret 7%nat) idle
       = Done (Ok (Some 7%nat)) w3.
Proof.
  eexists _, _, _, _.
  assert (forall (a b : Prop), a -> (a -> b) -> a /\ b) as Hboth by tauto.
  apply Hboth.
  - split; [reflexivity|]. split; [reflexivity|]. vm_compute. reflexivity.
  - intros (Henter & Hbody & Hexit).
    exact (trace_is_transparent_on_success otlp_backend "op" [] (fun _ => ret 7%nat)
             idle _ _ _ 7%nat _ false _ Henter Hbody Hexit).
Defined.

(** The standard attributes of a call without a command. *)
Lemma standard_attributes_keys_witness :
  let self := TraceManager.__init__ noop_backend in
  (forall v, (∅ : kwargs) !! "cli_command" = Some v -> is_str v = true)
  /\ exists attributes,
       Instrument._get_standard_attributes self "call_aws" [] ∅ idle
       = Done (Ok attributes) idle
       /\ take 2 attributes
          = [("mcp.server.name", Py.VStr "aws-api-mcp-server");
             ("mcp.operation", Py.VStr "call_aws")]
       /\ ((∅ : kwargs) !! "cli_command" = None -> length attributes = 2%nat)
       /\ sublist (fst <$> attributes) standard_keys
       /\ NoDup (normalise_key <$> (fst <$> attributes))
       /\ ("service" ∉ normalise_key <$> (fst <$> attributes))
       /\ ("operation" ∉ normalise_key <$> (fst <$> attributes)).
Proof.
  intros self.
  assert (forall v, (∅ : kwargs) !! "cli_command" = Some v -> is_str v = true) as Hstr
    by (intros v Hv; vm_compute in Hv; discriminate Hv).
  split; [exact Hstr|].
  exact (standard_attributes_keys self "call_aws" [] ∅ idle Hstr).
Defined.

Lemma words_of_list_buckets : Forall is_word ["aws"; "s3"; "ls"].
Proof. repeat constructor; discriminate. Qed.

Lemma space_is_separator : is_separator " ".
Proof. repeat constructor; discriminate. Qed.

(** The standard attributes of [aws s3 ls]. *)
Lemma standard_attributes_of_words_witness :
  let self := TraceManager.__init__ noop_backend in
  (is_separator " "
   /\ Forall is_word ["aws"; "s3"; "ls"]
   /\ list_buckets !! "cli_command" = Some (Py.VStr (PyStr.join " " ["aws"; "s3"; "ls"])))
  /\ Instrument._get_standard_attributes self "call_aws" [] list_buckets idle
     = Done (Ok list_buckets_attributes) idle.
Proof.
  intros self.
  split; [split; [exact space_is_separator|split; [exact words_of_list_buckets|reflexivity]]|].
  exact (standard_attributes_of_words self "call_aws" [] list_buckets " " ["aws"; "s3"; "ls"]
           idle space_is_separator words_of_list_buckets eq_refl).
Defined.

(** An instrumented call whose command is a number. *)
Lemma instrumented_call_command_without_split_witness :
  let self := TraceManager.__init__ noop_backend in
  (numeric_command !! "cli_command" = Some (Py.VInt 7)
   /\ ((exists n, Py.VInt 7 = Py.VInt n) \/ (exists b, Py.VInt 7 = Py.VBool b)
       \/ Py.VInt 7 = Py.VNone))
  /\ Instrument.sync_wrapper self "call_aws" exit_code_zero [] numeric_command idle
     = Done (Raise (Exn 1 AttributeError "'int' object has no attribute 'split'"))
         (set_next_oid 2 idle).
Proof.
  intros self.
  assert ((exists n, Py.VInt 7 = Py.VInt n) \/ (exists b, Py.VInt 7 = Py.VBool b)
          \/ Py.VInt 7 = Py.VNone) as Hv by (left; by exists 7).
  split; [split; [reflexivity | exact Hv]|].
  exact (instrumented_call_command_without_split self "call_aws" exit_code_zero []
           numeric_command (Py.VInt 7) idle eq_refl Hv).
Defined.

Lemma list_buckets_command v :
  list_buckets !! "cli_command" = Some v -> is_str v = true.
Proof.
  intros Hv. vm_compute in Hv. by injection Hv as <-.
Qed.

(** An instrumented function that raises, on the backend that is
    disabled. *)
Lemma instrumented_call_untraced_witness :
  let func := fun (_ : list Py.value) (_ : kwargs) => raise (A := Z) boom in
  ((forall v, list_buckets !! "cli_command" = Some v -> is_str v = true)
   /\ func [] list_buckets idle = Done (Raise boom) idle)
  /\ Instrument.sync_wrapper (TraceManager.__init__ noop_backend) "call_aws"
       func [] list_buckets idle
     = Done (Raise (Exn 1 RuntimeError "generator didn't stop after throw()"))
         (trace_failed "call_aws" boom idle).
Proof.
  intros func. split; [split; [exact list_buckets_command|reflexivity]|].
  exact (instrumented_call_untraced "call_aws" func [] list_buckets idle (Raise boom) idle
           list_buckets_command eq_refl).
Defined.

(** An instrumented function that returns, on the OTLP backend. *)
Lemma instrumented_call_otlp_witness :
  let tracer := {| OTel.records := true |} in
  let manager :=
    TraceManager.__init__
      (OTLP {| OTLPBackend.tracer_provider := None; OTLPBackend.tracer := Some tracer |}) in
  let w2 := entered tracer "call_aws" list_buckets_attributes idle in
  (OTel.records tracer = true
   /\ is_separator " "
   /\ Forall is_word ["aws"; "s3"; "ls"]
   /\ list_buckets !! "cli_command" = Some (Py.VStr (PyStr.join " " ["aws"; "s3"; "ls"]))
   /\ exit_code_zero [] list_buckets w2 = Done (Ok 0) w2
   /\ objects w2 !!! next_oid idle
      = with_attributes list_buckets_attributes (started_span tracer "call_aws" idle))
  /\ exists span w3,
       Instrument.sync_wrapper manager "call_aws" exit_code_zero [] list_buckets idle
       = Done (Ok (Some 0)) w3
       /\ spans w3 = spans w2 ++ [span]
       /\ OTel.name span = "call_aws"
       /\ OTel.attributes span = stringified <$> list_buckets_attributes
       /\ OTel.status span
          = {| OTel.status_code := OTel.UNSET; OTel.description := None |}.
Proof.
  intros tracer manager w2.
  split.
  { split; [reflexivity|]. split; [exact space_is_separator|].
    split; [exact words_of_list_buckets|]. repeat split. }
  exact (instrumented_call_otlp None tracer "call_aws" exit_code_zero [] list_buckets
           " " ["aws"; "s3"; "ls"] idle (Ok 0) w2
           eq_refl space_is_separator words_of_list_buckets eq_refl eq_refl eq_refl).
Defined.

(** Calls on an OTLP backend that has no tracer. *)
Lemma otlp_without_tracer_witness :
  let self := {| OTLPBackend.tracer_provider := None; OTLPBackend.tracer := None |} in
  let calls := [CreateSpan "op" [("k", Py.VStr "v")]; GetResourceSpans] in
  spans idle = []
  /\ caller self calls idle = Done (Ok (idle_reply <$> calls)) idle
  /\ idle_reply GetResourceSpans <> noop_reply GetResourceSpans.
Proof.
  intros self calls. split; [reflexivity|].
  exact (otlp_without_tracer None calls idle eq_refl).
Defined.

(** The scope of the root operation around an empty block. *)
Lemma xray_root_scope_closes_witness :
  let self := {| XRayBackend.recorder := Some XRayBackend.xray_recorder_ref |} in
  let attributes := [("aws.service", Py.VStr "s3")] in
  let w2 := segment_entered attributes idle in
  let segment := opened_segment (next_oid idle) "aws_cli_command" attributes in
  (ret tt w2 = Done (Ok tt) w2
   /\ XRay.entities (xray_recorder w2) = [segment]
   /\ XRay.parent_segment segment = None)
  /\ exists w3,
       with_ (create_span self "aws_cli_command" attributes) (fun _ => ret tt) idle
       = Done (Ok (Some tt)) w3
       /\ XRay.entities (xray_recorder w3) = []
       /\ XRay.closed (xray_recorder w3) = XRay.closed (xray_recorder w2) ++ [segment]
       /\ ~ segment_open w3
       /\ spans w3 = spans w2
       /\ log w3 = log w2.
Proof.
  intros self attributes w2 segment. split; [repeat split|].
  exact (xray_root_scope_closes XRayBackend.xray_recorder_ref attributes (fun _ => ret tt)
           idle tt w2 segment eq_refl eq_refl eq_refl).
Defined.

(** The scope of another operation inside the root operation. *)
Lemma xray_subsegment_scope_closes_witness :
  let self := {| XRayBackend.recorder := Some XRayBackend.xray_recorder_ref |} in
  let attributes := [("aws.service", Py.VStr "s3")] in
  let top := Recorder.new_entity 1 "aws_cli_command" None in
  let w2 := subsegment_entered "parse" attributes top traced in
  let subsegment := opened_subsegment (next_oid traced) "parse" 1 attributes in
  ("parse" <> "aws_cli_command"
   /\ last (XRay.entities (xray_recorder traced)) = Some top
   /\ ret tt w2 = Done (Ok tt) w2
   /\ XRay.entities (xray_recorder w2) = [top] ++ [subsegment]
   /\ XRay.is_subsegment subsegment = true)
  /\ exists w3,
       with_ (create_span self "parse" attributes) (fun _ => ret tt) traced
       = Done (Ok (Some tt)) w3
       /\ XRay.entities (xray_recorder w3) = [top]
       /\ XRay.closed (xray_recorder w3) = XRay.closed (xray_recorder w2) ++ [subsegment]
       /\ last (XRay.entities (xray_recorder w2)) = Some subsegment
       /\ spans w3 = spans w2
       /\ log w3 = log w2.
Proof.
  intros self attributes top w2 subsegment.
  assert ("parse" <> "aws_cli_command") as Hname by discriminate.
  split; [split; [exact Hname|repeat split]|].
  exact (xray_subsegment_scope_closes XRayBackend.xray_recorder_ref "parse" attributes
           (fun _ => ret tt) traced top tt w2 [top] subsegment
           Hname eq_refl eq_refl eq_refl eq_refl).
Defined.

(** A scope of another operation inside the scope of the root operation. *)
Lemma xray_scopes_nest_witness :
  let self := {| XRayBackend.recorder := Some XRayBackend.xray_recorder_ref |} in
  let attributes := [("aws.service", Py.VStr "s3")] in
  "parse" <> "aws_cli_command"
  /\ exists w',
       with_ (create_span self "aws_cli_command" attributes) (fun _ =>
         with_ (create_span self "parse" []) (fun _ => ret tt)) idle
       = Done (Ok (Some (Some tt))) w'
       /\ xray_recorder w'
          = {| XRay.entities := [];
               XRay.closed :=
                 [opened_subsegment 2 "parse" 1 [];
                  opened_segment 1 "aws_cli_command" attributes] |}.
Proof.
  intros self attributes.
  assert ("parse" <> "aws_cli_command") as Hname by discriminate.
  split; [exact Hname|].
  exact (xray_scopes_nest XRayBackend.xray_recorder_ref attributes "parse" [] idle Hname).
Defined.

(** The construction of the manager of [otel.py] where X-Ray tracing is
    enabled, and in [idle]. *)
Lemma otel_manager_exporters_witness :
  (xray_tracing_enabled xray_enabled = true
   /\ exists self w',
        OTelManager.__init__ xray_enabled = Done (Ok self) w'
        /\ OTel.span_processors (OTelManager.tracer_provider self)
           = [OTel.ConsoleSpanExporter])
  /\ (xray_tracing_enabled idle = false
      /\ otlp_endpoint idle <> EmptyString
      /\ otel_installed idle = true
      /\ match OTLPBackend.__init__ idle with
         | Done (Ok backend) _ =>
             exists self w',
               OTelManager.__init__ idle = Done (Ok self) w'
               /\ OTel.span_processors (OTelManager.tracer_provider self)
                  = exporters backend
         | Done (Raise e) _ =>
             isinstance_Exception e = false
             /\ exists e' w',
                  OTelManager.__init__ idle = Done (Raise e') w'
                  /\ cls e' = cls e /\ msg e' = msg e
         | Susp _ _ _ => False
         end).
Proof.
  assert (otlp_endpoint idle <> EmptyString) as Hendpoint by discriminate.
  split.
  - split; [reflexivity|].
    exact (proj1 (otel_manager_exporters xray_enabled) (or_introl eq_refl)).
  - split; [reflexivity|]. split; [exact Hendpoint|]. split; [reflexivity|].
    exact (proj2 (otel_manager_exporters idle) eq_refl Hendpoint eq_refl).
Defined.

(** The two serialisers on the span of a failed scope. *)
Lemma serialisers_differ_in_the_status_only_witness :
  let span := Span.with_status (error_status boom)
                (started_span {| OTel.records := true |} "op" idle) in
  ("name" <> "status"
   /\ json_get "name" (OTelTraceManager.span_to_otlp_json 0 span)
      = json_get "name" (OTLPBackend.span_json 0 span))
  /\ (OTel.status_code (OTel.status span) <> OTel.OK
      /\ exported_status_code (OTelTraceManager.span_to_otlp_json 0 span)
         = Some "STATUS_CODE_ERROR").
Proof.
  intros span.
  assert ("name" <> "status") as Hkey by discriminate.
  assert (OTel.status_code (OTel.status span) <> OTel.OK) as Hstatus by discriminate.
  pose proof (serialisers_differ_in_the_status_only 0 span) as (Hget & _ & Herror & _).
  split.
  - split; [exact Hkey|]. exact (Hget "name" Hkey).
  - split; [exact Hstatus|]. exact (proj2 Herror Hstatus).
Defined.

(** A failing scope of [trace_operation], entered in [idle]. *)
Lemma otel_scope_reraises_and_collects_witness :
  let self := otel_manager_with [OTel.ConsoleSpanExporter] idle in
  let tracer := OTelManager.tracer self in
  let attributes := Some [("k", Py.VStr "v")] in
  let w2 := entered tracer "op" (OTelManager.items attributes) idle in
  (OTel.records tracer = true
   /\ xray_segment_wanted "op" idle = false
   /\ raise (A := unit) boom w2 = Done (Raise boom) w2
   /\ objects w2 !!! next_oid idle
      = with_attributes (OTelManager.items attributes) (started_span tracer "op" idle))
  /\ exists span w3,
       with_ (OTelManager.trace_operation self "op" attributes)
         (fun _ => raise (A := unit) boom) idle
       = Done (Raise boom) w3
       /\ spans w3 = spans w2 ++ [span]
       /\ OTel.name span = "op"
       /\ OTel.end_time span = Some (clock w2)
       /\ OTel.status span = error_status boom
       /\ forall now,
            exported_status_code (OTelTraceManager.span_to_otlp_json now span)
            = Some "STATUS_CODE_ERROR".
Proof.
  intros self tracer attributes w2. split; [repeat split|].
  exact (otel_scope_reraises_and_collects self "op" attributes (fun _ => raise boom)
           idle (Raise boom) w2 eq_refl eq_refl eq_refl eq_refl).
Defined.

(** A scope of [trace_operation] that ends normally, and its export. *)
Lemma otel_success_is_exported_as_error_witness :
  let self := otel_manager_with [OTel.ConsoleSpanExporter] idle in
  let tracer := OTelManager.tracer self in
  let w2 := entered tracer "op" (OTelManager.items None) idle in
  (OTel.records tracer = true
   /\ xray_segment_wanted "op" idle = false
   /\ ret tt w2 = Done (Ok tt) w2
   /\ objects w2 !!! next_oid idle
      = with_attributes (OTelManager.items None) (started_span tracer "op" idle)
   /\ spans w2 = [])
  /\ exists record w3,
       (with_ (OTelManager.trace_operation self "op" None) (fun _ => ret tt) ;;
        OTelManager.get_resource_spans self) idle
       = Done (Ok (export_envelope [record])) w3
       /\ json_get "name" record = Some (JStr "op")
       /\ exported_status_code record = Some "STATUS_CODE_ERROR"
       /\ spans w3 = []
       /\ exists j,
            OTelManager.get_resource_spans self w3 = Done (Ok j) w3
            /\ exported_spans j = Some [].
Proof.
  intros self tracer w2. split; [repeat split|].
  exact (otel_success_is_exported_as_error self "op" None (fun _ => ret tt)
           idle tt w2 eq_refl eq_refl eq_refl eq_refl eq_refl).
Defined.

(** The root operation under [trace_operation] with X-Ray tracing enabled:
    a block that returns, and a block that raises [ValueError('boom')]. *)
Lemma otel_xray_scope_closes_the_segment_witness :
  let self := otel_manager_with [OTel.ConsoleSpanExporter] xray_enabled in
  let tracer := OTelManager.tracer self in
  let name := "aws_cli_command" in
  let attributes := Some [("aws.service", Py.VStr "s3")] in
  let w2 := otel_segment_entered tracer name attributes xray_enabled in
  let segment := otel_segment 2 name attributes in
  (xray_segment_wanted name xray_enabled = true
   /\ OTel.records tracer = true
   /\ ret tt w2 = Done (Ok tt) w2
   /\ objects w2 !!! next_oid xray_enabled
      = with_attributes (OTelManager.items attributes)
          (started_span tracer name xray_enabled)
   /\ XRay.entities (xray_recorder w2) = [segment]
   /\ XRay.id segment = 2%nat
   /\ XRay.parent_segment segment = None)
  /\ exists span w3,
       with_ (OTelManager.trace_operation self name attributes) (fun _ => ret tt)
         xray_enabled
       = Done (Ok (Some tt)) w3
       /\ xray_recorder w3 = {| XRay.entities := []; XRay.closed := [segment] |}
       /\ spans w3 = [span]
       /\ OTel.name span = name
       /\ XRay.entities (xray_recorder w2) = [segment]
       /\ XRay.annotations segment
          = routed_annotations (OTelManager.items attributes)
              (<["service" := "aws-api-mcp-server"]> (<["operation" := name]> ∅))
       /\ XRay.metadata segment = routed_metadata (OTelManager.items attributes) ∅.
Proof.
  intros self tracer name attributes w2 segment. split; [repeat split|].
  exact (otel_xray_scope_closes_the_segment self attributes (fun _ => ret tt)
           xray_enabled tt w2 segment eq_refl eq_refl eq_refl eq_refl eq_refl eq_refl
           eq_refl).
Defined.

Lemma otel_xray_scope_replaces_the_fault_witness :
  let self := otel_manager_with [OTel.ConsoleSpanExporter] xray_enabled in
  let tracer := OTelManager.tracer self in
  let name := "aws_cli_command" in
  let w2 := otel_segment_entered tracer name None xray_enabled in
  let segment := otel_segment 2 name None in
  (xray_segment_wanted name xray_enabled = true
   /\ OTel.records tracer = true
   /\ raise (A := unit) boom w2 = Done (Raise boom) w2
   /\ (oid boom < next_oid w2)%nat
   /\ objects w2 !!! next_oid xray_enabled
      = with_attributes (OTelManager.items None) (started_span tracer name xray_enabled)
   /\ XRay.entities (xray_recorder w2) = [segment]
   /\ XRay.id segment = 2%nat
   /\ XRay.parent_segment segment = None)
  /\ exists span w3,
       with_ (OTelManager.trace_operation self name None)
         (fun _ => raise (A := unit) boom) xray_enabled
       = Done (Raise (missing_stack w2)) w3
       /\ xray_recorder w3
          = {| XRay.entities := [];
               XRay.closed := [Entity.with_exception (missing_stack w2) segment] |}
       /\ spans w3 = [span]
       /\ OTel.status span = error_status boom
       /\ (missing_stack w2 = boom <-> isinstance_Exception boom = false).
Proof.
  intros self tracer name w2 segment.
  assert ((oid boom < next_oid w2)%nat) as Hoid by (cbn; lia).
  split; [split; [reflexivity|split; [reflexivity|split; [reflexivity|split; [exact Hoid|repeat split]]]]|].
  exact (otel_xray_scope_replaces_the_fault self None (fun _ => raise boom)
           xray_enabled boom w2 segment eq_refl eq_refl eq_refl Hoid eq_refl eq_refl eq_refl
           eq_refl).
Defined.

(** A scope of the OTLP backend whose sampler does not record. *)
Lemma otlp_unsampled_scope_buffers_nothing_witness :
  let tracer := {| OTel.records := false |} in
  let self := {| OTLPBackend.tracer_provider := None; OTLPBackend.tracer := Some tracer |} in
  let attributes := [("k", Py.VStr "v")] in
  let w2 := entered tracer "op" attributes idle in
  (OTel.records tracer = false
   /\ raise (A := unit) boom w2 = Done (Raise boom) w2
   /\ objects w2 !!! next_oid idle = objects w2 !!! next_oid idle)
  /\ exists w3,
       with_ (create_span self "op" attributes) (fun _ => raise (A := unit) boom) idle
       = Done (Raise boom) w3
       /\ objects w2 !!! next_oid idle = started_span tracer "op" idle
       /\ spans w3 = spans w2
       /\ objects w3 !!! next_oid idle = started_span tracer "op" idle
       /\ OTel.end_time (objects w3 !!! next_oid idle) = None.
Proof.
  intros tracer self attributes w2. split; [repeat split|].
  exact (otlp_unsampled_scope_buffers_nothing None tracer "op" attributes
           (fun _ => raise boom) idle (Raise boom) w2 eq_refl eq_refl eq_refl).
Defined.

(** A block that raises [ValueError('boom')] in the scope of another
    operation, inside the root operation. *)
Lemma xray_subsegment_scope_fault_witness :
  let self := {| XRayBackend.recorder := Some XRayBackend.xray_recorder_ref |} in
  let top := Recorder.new_entity 1 "aws_cli_command" None in
  let w2 := subsegment_entered "parse" [] top traced in
  let subsegment := opened_subsegment (next_oid traced) "parse" 1 [] in
  ("parse" <> "aws_cli_command"
   /\ last (XRay.entities (xray_recorder traced)) = Some top
   /\ raise (A := unit) boom w2 = Done (Raise boom) w2
   /\ XRay.entities (xray_recorder w2) = [top] ++ [subsegment]
   /\ XRay.is_subsegment subsegment = true
   /\ XRay.id subsegment = next_oid traced
   /\ Forall (fun entity => XRay.id entity <> next_oid traced) [top])
  /\ exists w3,
       with_ (create_span self "parse" []) (fun _ => raise (A := unit) boom) traced
       = Done (Raise (Exn 3 RuntimeError "generator didn't stop after throw()")) w3
       /\ XRay.entities (xray_recorder w3) = [top]
       /\ XRay.closed (xray_recorder w3) = [Entity.with_exception boom subsegment]
       /\ log w3 = [(DEBUG, "X-Ray subsegment creation failed: boom")].
Proof.
  intros self top w2 subsegment.
  assert ("parse" <> "aws_cli_command") as Hname by discriminate.
  assert (Forall (fun entity => XRay.id entity <> next_oid traced) [top]) as Houter
    by (repeat constructor; discriminate).
  split; [split; [exact Hname|]; repeat split; exact Houter|].
  exact (xray_subsegment_scope_fault XRayBackend.xray_recorder_ref "parse" []
           (fun _ => raise boom) traced top boom w2 [top] subsegment
           Hname eq_refl eq_refl eq_refl eq_refl eq_refl Houter).
Defined.
